(** * Sistema de Controle de Qualidade Industrial

    A shallow embedding of [sistema_qualidade_industrial.py]: the quality
    rule evaluator ([ControleQualidade]), the box ([Caixa]), the production
    ledger ([SistemaProducao]) with its batch importer, and the percentage
    helper.

    Python objects are shared and mutated in place: the same [Peca] object
    sits in [todas_pecas], in one of the derived lists and in a box, and the
    same [Caixa] object is reached through [caixas] and [caixa_atual].  The
    embedding therefore keeps an explicit object store: objects live in
    [mem_pecas] / [mem_caixas], every list holds references (indices into the
    store), and object comparison ([in], [list.remove], [==] on objects
    without [__eq__]) is comparison of references.

    Numbers: a weight or a length is a Python int or float, which the code
    only stores and compares.  It is embedded as a [Numero]: the exact
    rational value of an int or of a finite float, or one of the three
    special floats (the two infinities and NaN).  The percentage helper
    computes, and is embedded on binary64 primitive floats.

    Strings are sequences of 8-bit characters.  [lower] and [strip] are
    [str.lower] and [str.strip] on ASCII strings (every character below
    128, see [so_ascii]); on other characters Python follows the Unicode
    tables, which are not embedded here. *)

From Stdlib Require Import ZArith QArith String Ascii.
From Stdlib Require Import PrimFloat FloatOps SpecFloat Uint63.
From stdpp Require Import base tactics option list strings sorting.

Local Open Scope Z_scope.
Local Open Scope string_scope.
Local Open Scope list_scope.

(** ** Python strings: [str.lower] and [str.strip] *)

Definition is_upper (c : ascii) : bool :=
  let n := nat_of_ascii c in (65 <=? n)%nat && (n <=? 90)%nat.

Definition lower_char (c : ascii) : ascii :=
  if is_upper c then ascii_of_nat (nat_of_ascii c + 32) else c.

Fixpoint lower (s : string) : string :=
  match s with
  | EmptyString => EmptyString
  | String c s' => String (lower_char c) (lower s')
  end.

(** The ASCII characters for which [str.isspace] holds: TAB, LF, VT, FF, CR,
    FS, GS, RS, US and the space. *)
Definition is_space (c : ascii) : bool :=
  let n := nat_of_ascii c in
  ((9 <=? n)%nat && (n <=? 13)%nat) || ((28 <=? n)%nat && (n <=? 32)%nat).

Fixpoint lstrip (s : string) : string :=
  match s with
  | EmptyString => EmptyString
  | String c s' => if is_space c then lstrip s' else s
  end.

Fixpoint rstrip (s : string) : string :=
  match s with
  | EmptyString => EmptyString
  | String c s' =>
      match rstrip s' with
      | EmptyString => if is_space c then EmptyString else String c EmptyString
      | t => String c t
      end
  end.

Definition strip (s : string) : string := rstrip (lstrip s).

(** Every character of the string is an ASCII character. *)
Fixpoint so_ascii (s : string) : bool :=
  match s with
  | EmptyString => true
  | String c s' => (nat_of_ascii c <? 128)%nat && so_ascii s'
  end.

(** ** Python numbers *)

(** [x < y] on rationals, as a boolean. *)
Definition Qltb (x y : Q) : bool :=
  match (x ?= y)%Q with Lt => true | _ => false end.

(** An int or a float:
    - [Finito q]: an int, or a finite float, of exact value [q];
    - [MaisInfinito], [MenosInfinito]: [float('inf')], [float('-inf')];
    - [NaN]: [float('nan')]. *)
Inductive Numero :=
| Finito (q : Q)
| MaisInfinito
| MenosInfinito
| NaN.

Coercion Finito : Q >-> Numero.
Bind Scope Q_scope with Numero.

(** [x < y] on numbers: the comparison of the exact values; every
    comparison with NaN is false.  [x > y] is [menor y x]. *)
Definition menor (x y : Numero) : bool :=
  match x, y with
  | NaN, _ | _, NaN => false
  | Finito a, Finito b => Qltb a b
  | MenosInfinito, MenosInfinito => false
  | MenosInfinito, _ => true
  | _, MenosInfinito => false
  | MaisInfinito, _ => false
  | _, MaisInfinito => true
  end.

(** ** Python lists *)

(** [l.remove(x)]: drops the first element equal to [x]; [None] stands for
    the [ValueError] raised when there is none. *)
Fixpoint py_remove (x : nat) (l : list nat) : option (list nat) :=
  match l with
  | [] => None
  | y :: l' => if decide (y = x) then Some l' else (y ::.) <$> py_remove x l'
  end.

(** [l[-1] if l else None] *)
Definition ultimo (l : list nat) : option nat := last l.

(** ** Objects *)

(** References into the store. *)
Abbreviation ref_peca := nat (only parsing).
Abbreviation ref_caixa := nat (only parsing).

(** A rejection reason.  The source builds the text with an f-string; the
    constructor records which message it is and the interpolated value:
    - [PesoForaDoPadrao p]: "Peso fora do padrão ({p}g - esperado: 95g a 105g)"
    - [CorInvalida c]: "Cor inválida ({c} - esperado: azul ou verde)"
    - [ComprimentoForaDoPadrao l]:
        "Comprimento fora do padrão ({l}cm - esperado: 10cm a 20cm)" *)
Inductive Motivo :=
| PesoForaDoPadrao (p : Numero)
| CorInvalida (c : string)
| ComprimentoForaDoPadrao (l : Numero).

(** Attributes of a [Peca] object. *)
Record ObjPeca := mkPeca {
  id : Z;
  peso : Numero;
  cor : string;
  comprimento : Numero;
  aprovada : bool;
  motivos_reprovacao : list Motivo;
  caixa : option Z
}.

(** Attributes of a [Caixa] object. *)
Record ObjCaixa := mkCaixa {
  numero : Z;
  pecas : list ref_peca;
  fechada : bool
}.

(** The object store and the attributes of the single [SistemaProducao]
    instance. *)
Record Estado := mkEstado {
  mem_pecas : list ObjPeca;
  mem_caixas : list ObjCaixa;
  pecas_aprovadas : list ref_peca;
  pecas_reprovadas : list ref_peca;
  todas_pecas : list ref_peca;
  caixas : list ref_caixa;
  caixa_atual : option ref_caixa;
  proximo_id : Z
}.

Definition set_aprovada (b : bool) (p : ObjPeca) : ObjPeca :=
  mkPeca (id p) (peso p) (cor p) (comprimento p) b (motivos_reprovacao p) (caixa p).
Definition set_motivos_reprovacao (m : list Motivo) (p : ObjPeca) : ObjPeca :=
  mkPeca (id p) (peso p) (cor p) (comprimento p) (aprovada p) m (caixa p).
Definition set_caixa (c : option Z) (p : ObjPeca) : ObjPeca :=
  mkPeca (id p) (peso p) (cor p) (comprimento p) (aprovada p) (motivos_reprovacao p) c.

Definition set_pecas (l : list ref_peca) (c : ObjCaixa) : ObjCaixa :=
  mkCaixa (numero c) l (fechada c).
Definition set_fechada (b : bool) (c : ObjCaixa) : ObjCaixa :=
  mkCaixa (numero c) (pecas c) b.

Definition set_mem_pecas (m : list ObjPeca) (s : Estado) : Estado :=
  mkEstado m (mem_caixas s) (pecas_aprovadas s) (pecas_reprovadas s)
           (todas_pecas s) (caixas s) (caixa_atual s) (proximo_id s).
Definition set_mem_caixas (m : list ObjCaixa) (s : Estado) : Estado :=
  mkEstado (mem_pecas s) m (pecas_aprovadas s) (pecas_reprovadas s)
           (todas_pecas s) (caixas s) (caixa_atual s) (proximo_id s).
Definition set_pecas_aprovadas (l : list ref_peca) (s : Estado) : Estado :=
  mkEstado (mem_pecas s) (mem_caixas s) l (pecas_reprovadas s)
           (todas_pecas s) (caixas s) (caixa_atual s) (proximo_id s).
Definition set_pecas_reprovadas (l : list ref_peca) (s : Estado) : Estado :=
  mkEstado (mem_pecas s) (mem_caixas s) (pecas_aprovadas s) l
           (todas_pecas s) (caixas s) (caixa_atual s) (proximo_id s).
Definition set_todas_pecas (l : list ref_peca) (s : Estado) : Estado :=
  mkEstado (mem_pecas s) (mem_caixas s) (pecas_aprovadas s) (pecas_reprovadas s)
           l (caixas s) (caixa_atual s) (proximo_id s).
Definition set_caixas (l : list ref_caixa) (s : Estado) : Estado :=
  mkEstado (mem_pecas s) (mem_caixas s) (pecas_aprovadas s) (pecas_reprovadas s)
           (todas_pecas s) l (caixa_atual s) (proximo_id s).
Definition set_caixa_atual (c : option ref_caixa) (s : Estado) : Estado :=
  mkEstado (mem_pecas s) (mem_caixas s) (pecas_aprovadas s) (pecas_reprovadas s)
           (todas_pecas s) (caixas s) c (proximo_id s).
Definition set_proximo_id (n : Z) (s : Estado) : Estado :=
  mkEstado (mem_pecas s) (mem_caixas s) (pecas_aprovadas s) (pecas_reprovadas s)
           (todas_pecas s) (caixas s) (caixa_atual s) n.

(** ** Statements: state passing with exceptions

    A Python statement or call is a function from the state to a result and
    the state it leaves.  A raised exception keeps the mutations made before
    it, as in Python. *)

Inductive Excecao :=
| ValueError
| KeyError (chave : string)
| AttributeError
| TypeError
| ErroDeLeitura         (* raised by [open] or by the reader while it reads the
                           file: [OSError], [UnicodeDecodeError], [csv.Error] *)
| ReferenciaInvalida.   (* a reference outside the store; no Python run has one *)

Inductive Resultado (A : Type) :=
| Retorna (a : A)
| Levanta (e : Excecao).
Arguments Retorna {A} a.
Arguments Levanta {A} e.

Definition Py (A : Type) : Type := Estado -> Resultado A * Estado.

Definition ret {A} (a : A) : Py A := fun s => (Retorna a, s).

Definition bind {A B} (m : Py A) (f : A -> Py B) : Py B :=
  fun s =>
    match m s with
    | (Retorna a, s') => f a s'
    | (Levanta e, s') => (Levanta e, s')
    end.

Definition levanta {A} (e : Excecao) : Py A := fun s => (Levanta e, s).

Definition ler {A} (f : Estado -> A) : Py A := fun s => (Retorna (f s), s).

Definition modifica (f : Estado -> Estado) : Py unit := fun s => (Retorna tt, f s).

(** [try: m  except Exception as e: h e] *)
Definition tenta {A} (m : Py A) (h : Excecao -> Py A) : Py A :=
  fun s =>
    match m s with
    | (Retorna a, s') => (Retorna a, s')
    | (Levanta e, s') => h e s'
    end.

Declare Scope py_scope.
Delimit Scope py_scope with py.
Notation "x <- c1 ;; c2" := (bind c1 (fun x => c2))
  (at level 100, c1 at next level, right associativity) : py_scope.
Notation "c1 ;; c2" := (bind c1 (fun _ => c2))
  (at level 100, right associativity) : py_scope.
Local Open Scope py_scope.

(** Object creation and attribute access. *)

Definition aloca_peca (p : ObjPeca) : Py ref_peca :=
  fun s => (Retorna (length (mem_pecas s)), set_mem_pecas (mem_pecas s ++ [p]) s).

Definition le_peca (r : ref_peca) : Py ObjPeca :=
  fun s =>
    match mem_pecas s !! r with
    | Some p => (Retorna p, s)
    | None => (Levanta ReferenciaInvalida, s)
    end.

Definition escreve_peca (r : ref_peca) (f : ObjPeca -> ObjPeca) : Py unit :=
  p <- le_peca r ;;
  modifica (fun s => set_mem_pecas (<[r := f p]> (mem_pecas s)) s).

Definition aloca_caixa (c : ObjCaixa) : Py ref_caixa :=
  fun s => (Retorna (length (mem_caixas s)), set_mem_caixas (mem_caixas s ++ [c]) s).

Definition le_caixa (r : ref_caixa) : Py ObjCaixa :=
  fun s =>
    match mem_caixas s !! r with
    | Some c => (Retorna c, s)
    | None => (Levanta ReferenciaInvalida, s)
    end.

Definition escreve_caixa (r : ref_caixa) (f : ObjCaixa -> ObjCaixa) : Py unit :=
  c <- le_caixa r ;;
  modifica (fun s => set_mem_caixas (<[r := f c]> (mem_caixas s)) s).

(** [self.campo.remove(x)] on a list attribute of the ledger. *)
Definition remove_da_lista (campo : Estado -> list nat)
    (set_campo : list nat -> Estado -> Estado) (x : nat) : Py unit :=
  l <- ler campo ;;
  match py_remove x l with
  | Some l' => modifica (set_campo l')
  | None => levanta ValueError
  end.

(** ** class Peca *)

Module Peca.

Definition __init__ (id_peca : Z) (peso : Numero) (cor : string)
    (comprimento : Numero) : ObjPeca :=
  {| id := id_peca;
     peso := peso;
     cor := lower cor;
     comprimento := comprimento;
     aprovada := false;
     motivos_reprovacao := [];
     caixa := None |}.

End Peca.

(** ** class ControleQualidade *)

Module ControleQualidade.

Definition PESO_MIN : Numero := 95.
Definition PESO_MAX : Numero := 105.
Definition CORES_VALIDAS : list string := ["azul"; "verde"].
Definition COMPRIMENTO_MIN : Numero := 10.
Definition COMPRIMENTO_MAX : Numero := 20.

Definition inspecionar_peca (peca : ref_peca) : Py bool :=
  p <- le_peca peca ;;
  let motivos := [] in
  let motivos :=
    if menor (peso p) PESO_MIN || menor PESO_MAX (peso p)
    then motivos ++ [PesoForaDoPadrao (peso p)] else motivos in
  let motivos :=
    if negb (bool_decide (cor p ∈ CORES_VALIDAS))
    then motivos ++ [CorInvalida (cor p)] else motivos in
  let motivos :=
    if menor (comprimento p) COMPRIMENTO_MIN || menor COMPRIMENTO_MAX (comprimento p)
    then motivos ++ [ComprimentoForaDoPadrao (comprimento p)] else motivos in
  if (length motivos =? 0)%nat then
    escreve_peca peca (set_aprovada true) ;;
    ret true
  else
    escreve_peca peca (set_aprovada false) ;;
    escreve_peca peca (set_motivos_reprovacao motivos) ;;
    ret false.

End ControleQualidade.

(** ** class Caixa *)

Module Caixa.

Definition CAPACIDADE_MAXIMA : nat := 10.

Definition __init__ (numero : Z) : ObjCaixa :=
  {| numero := numero; pecas := []; fechada := false |}.

Definition fechar (self : ref_caixa) : Py unit :=
  escreve_caixa self (set_fechada true).

Definition adicionar_peca (self : ref_caixa) (peca : ref_peca) : Py bool :=
  c <- le_caixa self ;;
  if fechada c then ret false
  else if (length (pecas c) <? CAPACIDADE_MAXIMA)%nat then
    escreve_caixa self (set_pecas (pecas c ++ [peca])) ;;
    escreve_peca peca (set_caixa (Some (numero c))) ;;
    c' <- le_caixa self ;;
    (if (length (pecas c') =? CAPACIDADE_MAXIMA)%nat
     then fechar self else ret tt) ;;
    ret true
  else ret false.

Definition remover_peca (self : ref_caixa) (peca : ref_peca) : Py bool :=
  c <- le_caixa self ;;
  if bool_decide (peca ∈ pecas c) then
    match py_remove peca (pecas c) with
    | Some l =>
        escreve_caixa self (set_pecas l) ;;
        escreve_peca peca (set_caixa None) ;;
        c' <- le_caixa self ;;
        (if fechada c' then escreve_caixa self (set_fechada false) else ret tt) ;;
        ret true
    | None => levanta ValueError
    end
  else ret false.

Definition esta_cheia (self : ref_caixa) : Py bool :=
  c <- le_caixa self ;;
  ret (CAPACIDADE_MAXIMA <=? length (pecas c))%nat.

Definition esta_vazia (self : ref_caixa) : Py bool :=
  c <- le_caixa self ;;
  ret (length (pecas c) =? 0)%nat.

End Caixa.

(** ** class SistemaProducao *)

(** A row of the batch file as [csv.DictReader] yields it: the value under a
    field name is the cell at the position of the last occurrence of that
    name in the header; a position past the end of the record holds [None]
    (the reader's [restval]); a name that is not in the header is no key. *)
Fixpoint dict_linha (fieldnames row : list string) (chave : string)
  : option (option string) :=
  match fieldnames with
  | [] => None
  | f :: fs =>
      match dict_linha fs (tail row) chave with
      | Some v => Some v
      | None => if String.eqb f chave then Some (head row) else None
      end
  end.

(** An entry of the importer's error list.  The source builds each text with
    an f-string; the constructor records which message it is, the row number
    and the exception it reports:
    - [ArquivoNaoEncontrado]: "Arquivo não encontrado"
    - [ColunasNecessarias]: "Arquivo CSV deve conter as colunas: ..."
    - [DadosInvalidos n e]: "Linha {n}: Dados inválidos - {e}"
    - [ColunaAusente n e]: "Linha {n}: Coluna ausente - {e}"
    - [ErroInesperado n e]: "Linha {n}: Erro inesperado - {e}"
    - [ErroAoLerArquivo e]: "Erro ao ler arquivo: {e}" *)
Inductive ErroLote :=
| ArquivoNaoEncontrado
| ColunasNecessarias
| DadosInvalidos (linha_num : Z) (e : Excecao)
| ColunaAusente (linha_num : Z) (e : Excecao)
| ErroInesperado (linha_num : Z) (e : Excecao)
| ErroAoLerArquivo (e : Excecao).

(** What the importer finds at [caminho_arquivo]: the records
    [csv.reader] yields, in order, and, when the reading does not reach the
    end of the file, the exception that stops it ([open] raises before
    there is any record; the reader raises when it is asked for the next
    one). *)
Record Leitor := mkLeitor {
  registros : list (list string);
  interrupcao : option Excecao
}.

(** The value the percentage helper returns: the int [0] or a float. *)
Inductive PyNumero :=
| PyInt (z : Z)
| PyFloat (f : float).

(** [float(n)] for an int [n] with [|n| < 2^53] (exact there). *)
Definition float_of_Z (n : Z) : float :=
  if (n <? 0)%Z then PrimFloat.opp (PrimFloat.of_uint63 (Uint63.of_Z (- n)))
  else PrimFloat.of_uint63 (Uint63.of_Z n).

(** The integer nearest to [m * 2^e], ties to the even one. *)
Definition inteiro_mais_proximo (m e : Z) : Z :=
  if (0 <=? e)%Z then m * 2 ^ e
  else
    let d := 2 ^ (- e) in
    let q := m / d in
    let r := m mod d in
    match (2 * r ?= d)%Z with
    | Lt => q
    | Gt => q + 1
    | Eq => if Z.even q then q else q + 1
    end.

(** [round(x, 1)] on a float: the exact value of [x] is rounded to one
    decimal digit, ties to even, and the decimal [n / 10] obtained is read
    back as the nearest float (for [n] below [2^53], the float quotient of
    [n] by [10]); zeros, infinities and NaN are returned as they are. *)
Definition round1 (x : float) : float :=
  match Prim2SF x with
  | S754_finite sinal m e =>
      let n := inteiro_mais_proximo (Z.pos m * 10) e in
      let r := PrimFloat.div (float_of_Z n) (float_of_Z 10) in
      if sinal then PrimFloat.opp r else r
  | _ => x
  end.

Module SistemaProducao.

Definition __init__ : Estado :=
  {| mem_pecas := [];
     mem_caixas := [];
     pecas_aprovadas := [];
     pecas_reprovadas := [];
     todas_pecas := [];
     caixas := [];
     caixa_atual := None;
     proximo_id := 1 |}.

Definition _armazenar_peca (peca : ref_peca) : Py unit :=
  atual <- ler caixa_atual ;;
  nova_necessaria <-
    match atual with
    | None => ret true
    | Some c => Caixa.esta_cheia c
    end ;;
  (if nova_necessaria : bool then
     cs <- ler caixas ;;
     nova_caixa <- aloca_caixa (Caixa.__init__ (Z.of_nat (length cs) + 1)) ;;
     modifica (fun s => set_caixas (caixas s ++ [nova_caixa]) s) ;;
     modifica (set_caixa_atual (Some nova_caixa))
   else ret tt) ;;
  atual <- ler caixa_atual ;;
  match atual with
  | Some c => _ <- Caixa.adicionar_peca c peca ;; ret tt
  | None => levanta AttributeError
  end.

Definition cadastrar_peca (peso : Numero) (cor : string) (comprimento : Numero)
  : Py (ref_peca * bool * option (list Motivo)) :=
  n <- ler proximo_id ;;
  peca <- aloca_peca (Peca.__init__ n peso cor comprimento) ;;
  modifica (fun s => set_todas_pecas (todas_pecas s ++ [peca]) s) ;;
  modifica (fun s => set_proximo_id (proximo_id s + 1) s) ;;
  ok <- ControleQualidade.inspecionar_peca peca ;;
  if ok : bool then
    modifica (fun s => set_pecas_aprovadas (pecas_aprovadas s ++ [peca]) s) ;;
    _armazenar_peca peca ;;
    ret (peca, true, None)
  else
    modifica (fun s => set_pecas_reprovadas (pecas_reprovadas s ++ [peca]) s) ;;
    p <- le_peca peca ;;
    ret (peca, false, Some (motivos_reprovacao p)).

(** [for peca in self.todas_pecas: if peca.id == id_peca: ...; break] *)
Fixpoint busca_por_id (id_peca : Z) (l : list ref_peca) : Py (option ref_peca) :=
  match l with
  | [] => ret None
  | peca :: resto =>
      p <- le_peca peca ;;
      if (id p =? id_peca)%Z then ret (Some peca)
      else busca_por_id id_peca resto
  end.

(** [for caixa in self.caixas: if caixa.remover_peca(peca): ...; break] *)
Fixpoint remove_das_caixas (peca : ref_peca) (l : list ref_caixa) : Py unit :=
  match l with
  | [] => ret tt
  | caixa :: resto =>
      removida <- Caixa.remover_peca caixa peca ;;
      if removida : bool then
        vazia <- Caixa.esta_vazia caixa ;;
        if vazia : bool then
          remove_da_lista caixas set_caixas caixa ;;
          atual <- ler caixa_atual ;;
          if bool_decide (atual = Some caixa)
          then modifica (fun s => set_caixa_atual (ultimo (caixas s)) s)
          else ret tt
        else ret tt
      else remove_das_caixas peca resto
  end.

Definition remover_peca (id_peca : Z) : Py (bool * string) :=
  todas <- ler todas_pecas ;;
  peca_encontrada <- busca_por_id id_peca todas ;;
  match peca_encontrada with
  | None => ret (false, "Peça não encontrada")
  | Some peca =>
      remove_da_lista todas_pecas set_todas_pecas peca ;;
      p <- le_peca peca ;;
      (if aprovada p then
         remove_da_lista pecas_aprovadas set_pecas_aprovadas peca ;;
         cs <- ler caixas ;;
         remove_das_caixas peca cs
       else
         remove_da_lista pecas_reprovadas set_pecas_reprovadas peca) ;;
      ret (true, "Peça removida com sucesso")
  end.

Definition buscar_peca (id_peca : Z) : Py (option ref_peca) :=
  todas <- ler todas_pecas ;;
  busca_por_id id_peca todas.

Definition listar_pecas_aprovadas : Py (list ref_peca) := ler pecas_aprovadas.

Definition listar_pecas_reprovadas : Py (list ref_peca) := ler pecas_reprovadas.

Fixpoint filtra_fechadas (l : list ref_caixa) : Py (list ref_caixa) :=
  match l with
  | [] => ret []
  | caixa :: resto =>
      c <- le_caixa caixa ;;
      fs <- filtra_fechadas resto ;;
      ret (if fechada c then caixa :: fs else fs)
  end.

Definition listar_caixas_fechadas : Py (list ref_caixa) :=
  cs <- ler caixas ;;
  filtra_fechadas cs.

Section Lote.

(** The built-in [float] on a string: the number read (NaN and the
    infinities are among them), or [None] for the [ValueError] it raises. *)
Variable float : string -> option Numero.

(** [linha[chave].strip()] *)
Definition campo (linha : string -> option (option string)) (chave : string)
  : Py string :=
  match linha chave with
  | None => levanta (KeyError chave)
  | Some None => levanta AttributeError
  | Some (Some v) => ret (strip v)
  end.

Definition py_float (v : string) : Py Numero :=
  match float v with
  | Some x => ret x
  | None => levanta ValueError
  end.

(** Counters and error list of [processar_lote_csv]. *)
Definition Contagem : Type := Z * Z * Z * list ErroLote.

(** The body of the loop over the rows, with its three handlers. *)
Definition processa_linha (fieldnames : list string) (linha_num : Z)
    (row : list string) (acc : Contagem) : Py Contagem :=
  let '(total_processadas, aprovadas, reprovadas, erros) := acc in
  let linha := dict_linha fieldnames row in
  tenta
    (v <- campo linha "peso" ;;
     peso <- py_float v ;;
     cor <- campo linha "cor" ;;
     v <- campo linha "comprimento" ;;
     comprimento <- py_float v ;;
     r <- cadastrar_peca peso cor comprimento ;;
     let eh_aprovada := snd (fst r) in
     let total_processadas := total_processadas + 1 in
     if eh_aprovada : bool
     then ret (total_processadas, aprovadas + 1, reprovadas, erros)
     else ret (total_processadas, aprovadas, reprovadas + 1, erros))
    (fun e =>
       match e with
       | ValueError =>
           ret (total_processadas, aprovadas, reprovadas,
                erros ++ [DadosInvalidos linha_num e])
       | KeyError _ =>
           ret (total_processadas, aprovadas, reprovadas,
                erros ++ [ColunaAusente linha_num e])
       | _ =>
           ret (total_processadas, aprovadas, reprovadas,
                erros ++ [ErroInesperado linha_num e])
       end).

(** [for linha_num, linha in enumerate(leitor, start=2)] *)
Fixpoint processa_linhas (fieldnames : list string) (linha_num : Z)
    (rows : list (list string)) (acc : Contagem) : Py Contagem :=
  match rows with
  | [] => ret acc
  | row :: resto =>
      acc' <- processa_linha fieldnames linha_num row acc ;;
      processa_linhas fieldnames (linha_num + 1) resto acc'
  end.

Definition colunas_necessarias : list string := ["peso"; "cor"; "comprimento"].

(** The end of the loop over the rows: the reader is exhausted, or it
    raises and the outer handler adds its entry to the error list. *)
Definition fim_da_leitura (interrupcao : option Excecao) (acc : Contagem)
  : Py Contagem :=
  match interrupcao with
  | None => ret acc
  | Some e =>
      let '(total_processadas, aprovadas, reprovadas, erros) := acc in
      ret (total_processadas, aprovadas, reprovadas,
           erros ++ [ErroAoLerArquivo e])
  end.

(** [arquivo] is [None] when no path [caminho_arquivo] exists.
    [DictReader] takes the first record as the field names and skips the
    empty records after it. *)
Definition processar_lote_csv (arquivo : option Leitor) : Py Contagem :=
  match arquivo with
  | None => ret (0, 0, 0, [ArquivoNaoEncontrado])
  | Some leitor =>
      match registros leitor with
      | [] =>
          match interrupcao leitor with
          | Some e => ret (0, 0, 0, [ErroAoLerArquivo e])
          | None =>
              (* [leitor.fieldnames] is [None]: iterating it raises, and the
                 outer handler reports it *)
              ret (0, 0, 0, [ErroAoLerArquivo TypeError])
          end
      | fieldnames :: resto =>
          let colunas_arquivo := map (fun col => strip (lower col)) fieldnames in
          if negb (forallb (fun c => bool_decide (c ∈ colunas_arquivo))
                           colunas_necessarias)
          then ret (0, 0, 0, [ColunasNecessarias])
          else
            acc <- processa_linhas fieldnames 2
                     (filter (fun row => row <> []) resto) (0, 0, 0, []) ;;
            fim_da_leitura (interrupcao leitor) acc
      end
  end.

End Lote.

(** [parte] and [total] are ints: every call passes list lengths or the
    importer's counters.  [parte / total] is the correctly rounded quotient
    of the two ints, which is the float quotient of the converted operands
    when both are below [2^53]. *)
Definition _calcular_percentual (parte total : Z) : PyNumero :=
  if (total =? 0)%Z then PyInt 0
  else PyFloat (round1 (PrimFloat.mul
                          (PrimFloat.div (float_of_Z parte) (float_of_Z total))
                          (float_of_Z 100))).

End SistemaProducao.

(** * Specification-side notions *)

(** The tolerance intervals and the allowed colours as the specification
    words them.  Only a number with a value lies in an interval: NaN and
    the infinities lie in none. *)
Definition peso_no_padrao (w : Numero) : Prop :=
  match w with
  | Finito q => (95 <= q)%Q /\ (q <= 105)%Q
  | _ => False
  end.

Definition comprimento_no_padrao (l : Numero) : Prop :=
  match l with
  | Finito q => (10 <= q)%Q /\ (q <= 20)%Q
  | _ => False
  end.

(** Two characters that are the same letter up to case. *)
Definition mesma_letra (a b : ascii) : Prop :=
  a = b
  \/ (is_upper a = true /\ nat_of_ascii b = (nat_of_ascii a + 32)%nat)
  \/ (is_upper b = true /\ nat_of_ascii a = (nat_of_ascii b + 32)%nat).

(** Two strings that are equal up to the case of their letters. *)
Inductive igual_sem_caixa : string -> string -> Prop :=
| isc_vazia : igual_sem_caixa EmptyString EmptyString
| isc_letra a b s t :
    mesma_letra a b -> igual_sem_caixa s t ->
    igual_sem_caixa (String a s) (String b t).

Definition cor_permitida (c : string) : Prop :=
  exists a, a ∈ ["azul"; "verde"] /\ igual_sem_caixa c a.

(** ** Pure readings of the evaluator, used to state what the calls leave *)

(** The reasons the evaluator collects for an object. *)
Definition motivos_de (p : ObjPeca) : list Motivo :=
  let motivos := [] in
  let motivos :=
    if menor (peso p) ControleQualidade.PESO_MIN
       || menor ControleQualidade.PESO_MAX (peso p)
    then motivos ++ [PesoForaDoPadrao (peso p)] else motivos in
  let motivos :=
    if negb (bool_decide (cor p ∈ ControleQualidade.CORES_VALIDAS))
    then motivos ++ [CorInvalida (cor p)] else motivos in
  let motivos :=
    if menor (comprimento p) ControleQualidade.COMPRIMENTO_MIN
       || menor ControleQualidade.COMPRIMENTO_MAX (comprimento p)
    then motivos ++ [ComprimentoForaDoPadrao (comprimento p)] else motivos in
  motivos.

Definition aprovavel (p : ObjPeca) : bool := (length (motivos_de p) =? 0)%nat.

(** The object as the evaluator leaves it. *)
Definition inspecionada (p : ObjPeca) : ObjPeca :=
  if aprovavel p then set_aprovada true p
  else set_motivos_reprovacao (motivos_de p) (set_aprovada false p).

(** ** Pure readings of the ledger operations *)

(** The state the loop over the boxes leaves once the part [r] has been
    taken out of the box [b], whose parts become [l']. *)
Definition apos_remover_da_caixa (s : Estado) (r : ref_peca) (p : ObjPeca)
    (b : ref_caixa) (c : ObjCaixa) (l' : list ref_peca)
    (cs' : list ref_caixa) : Estado :=
  let mp := <[r := set_caixa None p]> (mem_pecas s) in
  let mc := <[b := mkCaixa (numero c) l' false]> (mem_caixas s) in
  if (length l' =? 0)%nat then
    mkEstado mp mc (pecas_aprovadas s) (pecas_reprovadas s) (todas_pecas s)
      cs' (if bool_decide (caixa_atual s = Some b) then ultimo cs'
           else caixa_atual s)
      (proximo_id s)
  else
    mkEstado mp mc (pecas_aprovadas s) (pecas_reprovadas s) (todas_pecas s)
      (caixas s) (caixa_atual s) (proximo_id s).

(** ** Runs of the ledger *)

(** The two operations that change the ledger. *)
Inductive Operacao :=
| Cadastrar (peso : Numero) (cor : string) (comprimento : Numero)
| Remover (id_peca : Z).

(** The state a call leaves. *)
Definition passo (op : Operacao) (s : Estado) : Estado :=
  match op with
  | Cadastrar w c l => snd (SistemaProducao.cadastrar_peca w c l s)
  | Remover i => snd (SistemaProducao.remover_peca i s)
  end.

(** The state after a sequence of calls, the first one first. *)
Fixpoint executar (ops : list Operacao) (s : Estado) : Estado :=
  match ops with
  | [] => s
  | op :: resto => executar resto (passo op s)
  end.

(** The ledger states: those a sequence of calls reaches from the state
    [SistemaProducao()] starts in. *)
Definition alcancavel (s : Estado) : Prop :=
  exists ops, s = executar ops SistemaProducao.__init__.

(** The id a registration call gives its part: the [id] attribute of the
    part it returns ([None] if the call raised). *)
Definition id_atribuido (w : Numero) (c : string) (l : Numero) (s : Estado)
  : option Z :=
  match SistemaProducao.cadastrar_peca w c l s with
  | (Retorna (peca, _, _), s') => id <$> mem_pecas s' !! peca
  | (Levanta _, _) => None
  end.

(** The ids the registrations of a run give, in the order of the calls. *)
Fixpoint ids_atribuidos (ops : list Operacao) (s : Estado) : list (option Z) :=
  match ops with
  | [] => []
  | Cadastrar w c l :: resto =>
      id_atribuido w c l s :: ids_atribuidos resto (passo (Cadastrar w c l) s)
  | Remover i :: resto => ids_atribuidos resto (passo (Remover i) s)
  end.

(** ** The ledger invariant *)

(** [r] is a registered part and [p] its attributes. *)
Definition peca_em (s : Estado) (r : ref_peca) (p : ObjPeca) : Prop :=
  r ∈ todas_pecas s /\ mem_pecas s !! r = Some p.

(** [b] is a box of the box sequence and [c] its attributes. *)
Definition caixa_em (s : Estado) (b : ref_caixa) (c : ObjCaixa) : Prop :=
  b ∈ caixas s /\ mem_caixas s !! b = Some c.

Record Inv (s : Estado) : Prop := {
  inv_todas : forall r, r ∈ todas_pecas s -> exists p, mem_pecas s !! r = Some p;
  inv_todas_nodup : NoDup (todas_pecas s);
  inv_ids : forall r p, peca_em s r p -> id p < proximo_id s;
  inv_ids_distintos : forall r1 r2 p1 p2,
    peca_em s r1 p1 -> peca_em s r2 p2 -> id p1 = id p2 -> r1 = r2;
  inv_aprovadas : forall r p,
    peca_em s r p -> aprovada p = true ->
    r ∈ pecas_aprovadas s /\ exists b c, caixa_em s b c /\ r ∈ pecas c;
  inv_reprovadas : forall r p,
    peca_em s r p -> aprovada p = false -> r ∈ pecas_reprovadas s;
  inv_caixas : forall b, b ∈ caixas s -> exists c, mem_caixas s !! b = Some c;
  inv_caixas_nodup : NoDup (caixas s);
  inv_caixa_atual : forall b, caixa_atual s = Some b -> b ∈ caixas s;
  inv_capacidade : forall b c,
    caixa_em s b c ->
    (length (pecas c) <= 10)%nat
    /\ (fechada c = true <-> length (pecas c) = 10%nat);
  inv_conteudo : forall b c r,
    caixa_em s b c -> r ∈ pecas c ->
    exists p, peca_em s r p /\ aprovada p = true;
  inv_conteudo_nodup : forall b c, caixa_em s b c -> NoDup (pecas c);
  inv_disjuntas : forall b1 b2 c1 c2 r,
    caixa_em s b1 c1 -> caixa_em s b2 c2 ->
    r ∈ pecas c1 -> r ∈ pecas c2 -> b1 = b2
}.

(** The number of registrations in a run. *)
Fixpoint n_cadastros (ops : list Operacao) : nat :=
  match ops with
  | [] => 0
  | Cadastrar _ _ _ :: resto => S (n_cadastros resto)
  | Remover _ :: resto => n_cadastros resto
  end.

(** ** Batches of registrations *)

(** The arguments of a registration that passes the inspection, in the
    specification's words. *)
Definition passa_na_inspecao (a : Numero * string * Numero) : Prop :=
  let '(w, c, l) := a in
  peso_no_padrao w /\ cor_permitida c /\ comprimento_no_padrao l.

(** One registration per triple, in order. *)
Definition cadastros (args : list (Numero * string * Numero)) : list Operacao :=
  map (fun '(w, c, l) => Cadastrar w c l) args.

(** What a reference of the store stands for: id, weight, colour, length. *)
Definition dados_da_peca (s : Estado) (r : ref_peca)
  : option (Z * Numero * string * Numero) :=
  (fun p => (id p, peso p, cor p, comprimento p)) <$> mem_pecas s !! r.

(** ** The batch importer *)

(** The header holds the three required field names up to letter case and
    surrounding whitespace. *)
Definition cabecalho_valido (fieldnames : list string) : Prop :=
  forall nome, nome ∈ ["peso"; "cor"; "comprimento"] ->
    exists col, col ∈ fieldnames /\ strip (lower col) = nome.

(** The row's weight (length) is there and the built-in [float] rejects it. *)
Definition peso_invalido (float : string -> option Numero)
    (fieldnames row : list string) : Prop :=
  exists v, dict_linha fieldnames row "peso" = Some (Some v)
            /\ float (strip v) = None.

Definition comprimento_invalido (float : string -> option Numero)
    (fieldnames row : list string) : Prop :=
  exists v, dict_linha fieldnames row "comprimento" = Some (Some v)
            /\ float (strip v) = None.

(** The row number an entry of the error list is tagged with. *)
Definition linha_do_erro (e : ErroLote) : option Z :=
  match e with
  | DadosInvalidos n _ | ColunaAusente n _ | ErroInesperado n _ => Some n
  | ArquivoNaoEncontrado | ColunasNecessarias | ErroAoLerArquivo _ => None
  end.

(** The data rows [csv.DictReader] yields from the records after the
    header: the empty records are skipped. *)
Definition linhas_de_dados (registros : list (list string)) : list (list string) :=
  filter (fun row => row <> []) registros.

(** A stand-in for the built-in [float] in the examples: it reads a
    non-empty string of decimal digits as the built-in does, and rejects
    every other string (the built-in accepts more literals). *)
Fixpoint digitos (s : string) (acc : Z) : option Z :=
  match s with
  | EmptyString => Some acc
  | String ch s' =>
      let n := nat_of_ascii ch in
      if (48 <=? n)%nat && (n <=? 57)%nat
      then digitos s' (10 * acc + Z.of_nat (n - 48))
      else None
  end.

Definition float_decimal (s : string) : option Numero :=
  match s with
  | EmptyString => None
  | _ => (fun n => Finito (inject_Z n)) <$> digitos s 0
  end.

(** ** Example runs *)

(** Eleven approved parts, the first ten removed, ten more approved parts. *)
Definition roteiro_caixa_apagada : list Operacao :=
  replicate 11 (Cadastrar 100 "azul" 15)
  ++ map Remover [1; 2; 3; 4; 5; 6; 7; 8; 9; 10]
  ++ replicate 10 (Cadastrar 100 "azul" 15).

(** The numbers of the boxes of the box sequence, in order. *)
Definition numeros_das_caixas (s : Estado) : list (option Z) :=
  (fun b => numero <$> mem_caixas s !! b) <$> caixas s.

(** ** Further facts every ledger state satisfies *)

(** The verdict recorded on the object behind [r] is [v]. *)
Definition tem_veredito (s : Estado) (v : bool) (r : ref_peca) : Prop :=
  aprovada <$> mem_pecas s !! r = Some v.

#[global] Instance tem_veredito_dec s v r : Decision (tem_veredito s v r).
Proof. unfold tem_veredito. apply _. Defined.

Record Inv2 (s : Estado) : Prop := {
  inv2_aprovadas :
    pecas_aprovadas s = filter (tem_veredito s true) (todas_pecas s);
  inv2_reprovadas :
    pecas_reprovadas s = filter (tem_veredito s false) (todas_pecas s);
  inv2_veredito : forall r p,
    peca_em s r p ->
    aprovada p = aprovavel p
    /\ motivos_reprovacao p = (if aprovavel p then [] else motivos_de p)
    /\ lower (cor p) = cor p
    /\ 1 <= id p;
  inv2_referencia : forall r p b c,
    peca_em s r p -> caixa_em s b c -> r ∈ pecas c ->
    caixa p = Some (numero c);
  inv2_sem_referencia : forall r p,
    peca_em s r p -> aprovada p = false -> caixa p = None;
  inv2_nao_vazia : forall b c, caixa_em s b c -> pecas c <> [];
  inv2_atual : caixa_atual s = last (caixas s);
  inv2_proximo : 1 <= proximo_id s
}.

(** The box behind [b] is marked closed. *)
Definition caixa_fechada (s : Estado) (b : ref_caixa) : Prop :=
  fechada <$> mem_caixas s !! b = Some true.

#[global] Instance caixa_fechada_dec s b : Decision (caixa_fechada s b).
Proof. unfold caixa_fechada. apply _. Defined.

(** The operation is a registration. *)
Definition eh_cadastro (op : Operacao) : Prop :=
  match op with
  | Cadastrar _ _ _ => True
  | Remover _ => False
  end.

(** The box objects of the box sequence, in the order of the sequence. *)
Definition caixas_em_ordem (s : Estado) : list ObjCaixa :=
  omap (fun b => mem_caixas s !! b) (caixas s).

(** In a run without removals every box created is still in the sequence:
    the sequence lists the boxes of the store in order, box number [k] is
    the [k]-th box, the parts of the boxes, read in order, are the approved
    list, and every box before the last one holds ten parts. *)
Record Empacotado (s : Estado) : Prop := {
  emp_caixas : caixas s = seq 0 (length (mem_caixas s));
  emp_numeros :
    numero <$> mem_caixas s = Z.of_nat <$> seq 1 (length (mem_caixas s));
  emp_conteudo : concat (pecas <$> mem_caixas s) = pecas_aprovadas s;
  emp_cheias : forall k c,
    mem_caixas s !! k = Some c -> (S k < length (mem_caixas s))%nat ->
    length (pecas c) = 10%nat
}.

(** The ids of the parts a list of references stands for, in order. *)
Definition ids_das_pecas (s : Estado) (l : list ref_peca) : list Z :=
  omap (fun r => id <$> mem_pecas s !! r) l.

(** * Theorems *)

(** ** Strings and numbers *)

Lemma is_upper_spec c :
  is_upper c = true <-> (65 <= nat_of_ascii c <= 90)%nat.
Proof.
  unfold is_upper. rewrite andb_true_iff, !Nat.leb_le. tauto.
Qed.

Lemma nat_of_ascii_lt c : (nat_of_ascii c < 256)%nat.
Proof. destruct c as [[] [] [] [] [] [] [] []]; vm_compute; lia. Qed.

Lemma nat_of_ascii_inj a b : nat_of_ascii a = nat_of_ascii b -> a = b.
Proof.
  intros H. rewrite <- (ascii_nat_embedding a), <- (ascii_nat_embedding b).
  now rewrite H.
Qed.

Lemma lower_char_mesma_letra a b :
  mesma_letra a b <-> lower_char a = lower_char b.
Proof.
  unfold mesma_letra, lower_char.
  destruct (is_upper a) eqn:Ha; destruct (is_upper b) eqn:Hb.
  all: try apply is_upper_spec in Ha; try apply is_upper_spec in Hb.
  all: try (apply not_true_iff_false in Ha; rewrite is_upper_spec in Ha).
  all: try (apply not_true_iff_false in Hb; rewrite is_upper_spec in Hb).
  - split.
    + intros [-> | [[_ H] | [_ H]]]; [done | lia | lia].
    + intros H. left. apply nat_of_ascii_inj.
      apply (f_equal nat_of_ascii) in H.
      rewrite !nat_ascii_embedding in H by lia. lia.
  - split.
    + intros [-> | [[_ H] | [H _]]]; [lia | | done].
      rewrite <- H. apply ascii_nat_embedding.
    + intros H. right; left. split; [done |].
      rewrite <- H. rewrite nat_ascii_embedding by lia. done.
  - split.
    + intros [-> | [[H _] | [_ H]]]; [lia | done |].
      rewrite <- H. symmetry. apply ascii_nat_embedding.
    + intros H. right; right. split; [done |].
      rewrite H. rewrite nat_ascii_embedding by lia. done.
  - split.
    + intros [-> | [[H _] | [H _]]]; done.
    + intros ->. by left.
Qed.

Lemma igual_sem_caixa_lower s t :
  igual_sem_caixa s t <-> lower s = lower t.
Proof.
  split.
  - induction 1 as [| a b s t Hab _ IH]; [done |].
    simpl. apply lower_char_mesma_letra in Hab. by rewrite Hab, IH.
  - revert t. induction s as [| a s IH]; intros [| b t] H; simpl in H; try done.
    + constructor.
    + injection H as Hc Hs. constructor.
      * by apply lower_char_mesma_letra.
      * by apply IH.
Qed.

Lemma cor_permitida_lower c :
  cor_permitida c <-> lower c ∈ ControleQualidade.CORES_VALIDAS.
Proof.
  unfold cor_permitida, ControleQualidade.CORES_VALIDAS. split.
  - intros (a & Ha & Hc). apply igual_sem_caixa_lower in Hc. rewrite Hc.
    rewrite !elem_of_cons, elem_of_nil in Ha.
    destruct Ha as [-> | [-> | []]]; simpl; repeat constructor.
  - intros H. rewrite !elem_of_cons, elem_of_nil in H.
    destruct H as [H | [H | []]].
    + exists "azul". split; [repeat constructor |]. by apply igual_sem_caixa_lower.
    + exists "verde". split; [repeat constructor |]. by apply igual_sem_caixa_lower.
Qed.

Lemma Qltb_lt x y : Qltb x y = true <-> (x < y)%Q.
Proof.
  unfold Qltb. rewrite Qlt_alt. destruct (x ?= y)%Q; done.
Qed.

Lemma fora_do_intervalo lo hi x :
  Qltb x lo || Qltb hi x = false <-> (lo <= x)%Q /\ (x <= hi)%Q.
Proof.
  rewrite orb_false_iff, <- !not_true_iff_false, !Qltb_lt. split.
  - intros [H1 H2]. split; by apply Qnot_lt_le.
  - intros [H1 H2]. split; by apply Qle_not_lt.
Qed.

Lemma peso_fora_do_padrao w :
  menor w ControleQualidade.PESO_MIN || menor ControleQualidade.PESO_MAX w
  = false
  <-> peso_no_padrao w \/ w = NaN.
Proof.
  unfold ControleQualidade.PESO_MIN, ControleQualidade.PESO_MAX.
  destruct w as [q | | |]; cbn [menor peso_no_padrao orb].
  - rewrite fora_do_intervalo. split; [by left | by intros [H | H]].
  - split; [done | by intros [[] | H]].
  - split; [done | by intros [[] | H]].
  - split; [by right | done].
Qed.

Lemma comprimento_fora_do_padrao l :
  menor l ControleQualidade.COMPRIMENTO_MIN
  || menor ControleQualidade.COMPRIMENTO_MAX l = false
  <-> comprimento_no_padrao l \/ l = NaN.
Proof.
  unfold ControleQualidade.COMPRIMENTO_MIN, ControleQualidade.COMPRIMENTO_MAX.
  destruct l as [q | | |]; cbn [menor comprimento_no_padrao orb].
  - rewrite fora_do_intervalo. split; [by left | by intros [H | H]].
  - split; [done | by intros [[] | H]].
  - split; [done | by intros [[] | H]].
  - split; [by right | done].
Qed.

(** ** Running the statements *)

Lemma bind_exec {A B} (m : Py A) (f : A -> Py B) s a s' :
  m s = (Retorna a, s') -> bind m f s = f a s'.
Proof. unfold bind. by intros ->. Qed.

Lemma le_peca_exec s r p :
  mem_pecas s !! r = Some p -> le_peca r s = (Retorna p, s).
Proof. unfold le_peca. by intros ->. Qed.

Lemma escreve_peca_exec s r p f :
  mem_pecas s !! r = Some p ->
  escreve_peca r f s = (Retorna tt, set_mem_pecas (<[r := f p]> (mem_pecas s)) s).
Proof. intros H. unfold escreve_peca, bind, le_peca. by rewrite H. Qed.

Lemma le_caixa_exec s r c :
  mem_caixas s !! r = Some c -> le_caixa r s = (Retorna c, s).
Proof. unfold le_caixa. by intros ->. Qed.

Lemma escreve_caixa_exec s r c f :
  mem_caixas s !! r = Some c ->
  escreve_caixa r f s = (Retorna tt, set_mem_caixas (<[r := f c]> (mem_caixas s)) s).
Proof. intros H. unfold escreve_caixa, bind, le_caixa. by rewrite H. Qed.

Lemma inspecionar_peca_exec s peca p :
  mem_pecas s !! peca = Some p ->
  ControleQualidade.inspecionar_peca peca s
  = (Retorna (aprovavel p),
     set_mem_pecas (<[peca := inspecionada p]> (mem_pecas s)) s).
Proof.
  intros H. pose proof (lookup_lt_Some _ _ _ H) as Hlt.
  unfold ControleQualidade.inspecionar_peca.
  rewrite (bind_exec _ _ _ _ _ (le_peca_exec _ _ _ H)).
  fold (motivos_de p). unfold inspecionada, aprovavel.
  destruct (length (motivos_de p) =? 0)%nat.
  - rewrite (bind_exec _ _ _ _ _ (escreve_peca_exec _ _ _ _ H)). done.
  - rewrite (bind_exec _ _ _ _ _ (escreve_peca_exec _ _ _ _ H)).
    erewrite bind_exec; [done |].
    erewrite escreve_peca_exec.
    2:{ cbn. by apply list_lookup_insert_eq. }
    cbn. by rewrite list_insert_insert_eq.
Qed.

(** ** The quality rule evaluator *)

(** The weight rule and the length rule are written with [<] and [>], which
    are both false on NaN: a rule is violated exactly when the number is
    neither in the interval nor NaN. *)
Lemma motivos_de_partes (p : ObjPeca) :
  exists mp mc ml,
    motivos_de p = mp ++ mc ++ ml
    /\ ((peso_no_padrao (peso p) \/ peso p = NaN) /\ mp = []
        \/ ~ (peso_no_padrao (peso p) \/ peso p = NaN)
           /\ mp = [PesoForaDoPadrao (peso p)])
    /\ ((cor p ∈ ControleQualidade.CORES_VALIDAS) /\ mc = []
        \/ (cor p ∉ ControleQualidade.CORES_VALIDAS) /\ mc = [CorInvalida (cor p)])
    /\ ((comprimento_no_padrao (comprimento p) \/ comprimento p = NaN) /\ ml = []
        \/ ~ (comprimento_no_padrao (comprimento p) \/ comprimento p = NaN)
           /\ ml = [ComprimentoForaDoPadrao (comprimento p)]).
Proof.
  pose proof (peso_fora_do_padrao (peso p)) as Hp.
  pose proof (comprimento_fora_do_padrao (comprimento p)) as Hl.
  unfold motivos_de.
  set (fp := menor (peso p) ControleQualidade.PESO_MIN
             || menor ControleQualidade.PESO_MAX (peso p)) in *.
  set (fl := menor (comprimento p) ControleQualidade.COMPRIMENTO_MIN
             || menor ControleQualidade.COMPRIMENTO_MAX (comprimento p)) in *.
  exists (if fp then [PesoForaDoPadrao (peso p)] else []),
    (if negb (bool_decide (cor p ∈ ControleQualidade.CORES_VALIDAS))
     then [CorInvalida (cor p)] else []),
    (if fl then [ComprimentoForaDoPadrao (comprimento p)] else []).
  split; [| split; [| split]].
  - destruct fp, (bool_decide (cor p ∈ ControleQualidade.CORES_VALIDAS)), fl;
      reflexivity.
  - destruct fp.
    + right. split; [| done]. intros H. apply Hp in H. discriminate.
    + left. split; [| done]. by apply Hp.
  - destruct (bool_decide (cor p ∈ ControleQualidade.CORES_VALIDAS)) eqn:Ec.
    + left. split; [| done]. by apply bool_decide_eq_true in Ec.
    + right. split; [| done]. by apply bool_decide_eq_false in Ec.
  - destruct fl.
    + right. split; [| done]. intros H. apply Hl in H. discriminate.
    + left. split; [| done]. by apply Hl.
Qed.

Lemma aprovavel_iff (p : ObjPeca) :
  aprovavel p = true
  <-> (peso_no_padrao (peso p) \/ peso p = NaN)
      /\ (cor p ∈ ControleQualidade.CORES_VALIDAS)
      /\ (comprimento_no_padrao (comprimento p) \/ comprimento p = NaN).
Proof.
  unfold aprovavel. rewrite Nat.eqb_eq.
  destruct (motivos_de_partes p) as (mp & mc & ml & -> & Hp & Hc & Hl).
  rewrite !length_app. split.
  - intros H.
    destruct Hp as [[? ->] | [? ->]]; [| simpl in H; lia].
    destruct Hc as [[? ->] | [? ->]]; [| simpl in H; lia].
    destruct Hl as [[? ->] | [? ->]]; [| simpl in H; lia].
    done.
  - intros (H1 & H2 & H3).
    destruct Hp as [[? ->] | [? ->]]; [| done].
    destruct Hc as [[? ->] | [? ->]]; [| done].
    destruct Hl as [[? ->] | [? ->]]; [| done].
    done.
Qed.

(** What the evaluator does for every weight [w], colour [c] and length
    [l] (whatever the store holds and whichever id the part is given): run
    on the part built from them it returns normally; it returns [true]
    exactly when [w] lies in [95, 105] or is NaN, [c] is one of azul/verde
    up to letter case, and [l] lies in [10, 20] or is NaN; the reasons the
    part is left with are the weight reason, the colour reason and the
    length reason in that order, each present exactly when its rule is
    violated; and the verdict is [true] exactly when there is no reason. *)
Lemma inspecionar_peca_veredito (s : Estado) (n : Z) (w : Numero) (c : string)
    (l : Numero) :
  let peca := length (mem_pecas s) in
  exists passou motivos s',
    (peca' <- aloca_peca (Peca.__init__ n w c l) ;;
     ControleQualidade.inspecionar_peca peca') s = (Retorna passou, s')
    /\ (exists p, mem_pecas s' !! peca = Some p
                  /\ aprovada p = passou /\ motivos_reprovacao p = motivos)
    /\ (passou = true <->
        (peso_no_padrao w \/ w = NaN) /\ cor_permitida c
        /\ (comprimento_no_padrao l \/ l = NaN))
    /\ (passou = true <-> motivos = [])
    /\ exists mp mc ml,
         motivos = mp ++ mc ++ ml
         /\ ((peso_no_padrao w \/ w = NaN) /\ mp = []
             \/ ~ (peso_no_padrao w \/ w = NaN) /\ mp = [PesoForaDoPadrao w])
         /\ (cor_permitida c /\ mc = []
             \/ ~ cor_permitida c /\ mc = [CorInvalida (lower c)])
         /\ ((comprimento_no_padrao l \/ l = NaN) /\ ml = []
             \/ ~ (comprimento_no_padrao l \/ l = NaN)
                /\ ml = [ComprimentoForaDoPadrao l]).
Proof.
  intros peca. set (p0 := Peca.__init__ n w c l).
  set (s1 := set_mem_pecas (mem_pecas s ++ [p0]) s).
  assert (H1 : mem_pecas s1 !! peca = Some p0).
  { unfold s1, peca. cbn. by apply list_lookup_middle. }
  exists (aprovavel p0), (motivos_reprovacao (inspecionada p0)),
    (set_mem_pecas (<[peca := inspecionada p0]> (mem_pecas s1)) s1).
  split.
  { erewrite bind_exec; [| reflexivity]. by apply inspecionar_peca_exec. }
  split.
  { exists (inspecionada p0). split.
    - cbn. apply list_lookup_insert_eq. by eapply lookup_lt_Some.
    - unfold inspecionada. by destruct (aprovavel p0). }
  pose proof (aprovavel_iff p0) as Hap.
  pose proof (motivos_de_partes p0) as Hm.
  change (peso p0) with w in *. change (comprimento p0) with l in *.
  change (cor p0) with (lower c) in *.
  rewrite <- cor_permitida_lower in Hap.
  split; [exact Hap |].
  assert (Hnil : aprovavel p0 = true <-> motivos_de p0 = []).
  { unfold aprovavel. rewrite Nat.eqb_eq. apply length_zero_iff_nil. }
  unfold inspecionada. destruct (aprovavel p0) eqn:E; simpl.
  - split; [done |].
    exists [], [], []. destruct Hap as [Hap _].
    destruct (Hap eq_refl) as (? & ? & ?). tauto.
  - split.
    + split; [done |]. intros H. apply Hnil in H. discriminate.
    + destruct Hm as (mp & mc & ml & ? & ? & Hc & ?).
      exists mp, mc, ml. rewrite <- !cor_permitida_lower in Hc. tauto.
Qed.

(** The evaluator run on a part that has just been created. *)
Lemma inspecionar_peca_nova (s : Estado) (p0 : ObjPeca) :
  (peca <- aloca_peca p0 ;; ControleQualidade.inspecionar_peca peca) s
  = (Retorna (aprovavel p0),
     set_mem_pecas (mem_pecas s ++ [inspecionada p0]) s).
Proof.
  set (s1 := set_mem_pecas (mem_pecas s ++ [p0]) s).
  assert (H1 : mem_pecas s1 !! length (mem_pecas s) = Some p0).
  { unfold s1. cbn. by apply list_lookup_middle. }
  erewrite bind_exec; [| reflexivity].
  etransitivity;
    [exact (inspecionar_peca_exec s1 (length (mem_pecas s)) p0 H1) |].
  unfold s1, set_mem_pecas. cbn.
  rewrite insert_app_r_alt by lia. by rewrite Nat.sub_diag.
Qed.

(** C1 (the code departs from the specification). The weight rule and the
    length rule test [<] against the lower bound and [>] against the upper
    bound, and both are false on NaN, which [float] reads from the text
    nan.  So a part of weight NaN, colour azul and length 15 is approved,
    with no reason, although NaN does not lie in [95, 105]; and so is a
    part of weight 100, colour azul and length NaN, although NaN does not
    lie in [10, 20]. *)
Theorem nan_e_aprovado (s : Estado) (n : Z) :
  (peca <- aloca_peca (Peca.__init__ n NaN "azul" 15) ;;
   ControleQualidade.inspecionar_peca peca) s
  = (Retorna true,
     set_mem_pecas (mem_pecas s ++ [mkPeca n NaN "azul" 15 true [] None]) s)
  /\ (peca <- aloca_peca (Peca.__init__ n 100 "azul" NaN) ;;
      ControleQualidade.inspecionar_peca peca) s
     = (Retorna true,
        set_mem_pecas (mem_pecas s ++ [mkPeca n 100 "azul" NaN true [] None]) s)
  /\ ~ peso_no_padrao NaN
  /\ ~ comprimento_no_padrao NaN.
Proof.
  split; [| split; [| by split; intros []]]; rewrite inspecionar_peca_nova.
  - assert (Ha : aprovavel (Peca.__init__ n NaN "azul" 15) = true)
      by (vm_compute; reflexivity).
    unfold inspecionada. by rewrite Ha.
  - assert (Ha : aprovavel (Peca.__init__ n 100 "azul" NaN) = true)
      by (vm_compute; reflexivity).
    unfold inspecionada. by rewrite Ha.
Qed.

(** ** The percentage helper *)

(** C9. The percentage helper returns the int 0 for part 0 of total 0 (no
    exception, no NaN), the float 30.0 for part 3 of total 10, and 0 for
    every part when the total is 0. *)
Theorem calcular_percentual_exemplos :
  SistemaProducao._calcular_percentual 0 0 = PyInt 0
  /\ SistemaProducao._calcular_percentual 3 10 = PyFloat 30%float
  /\ forall parte, SistemaProducao._calcular_percentual parte 0 = PyInt 0.
Proof.
  split; [reflexivity |]. split; [vm_compute; reflexivity |].
  intros parte. reflexivity.
Qed.

(** ** Lists *)

Lemma insert_final {A} (l : list A) (x y : A) :
  <[length l := y]> (l ++ [x]) = l ++ [y].
Proof.
  rewrite insert_app_r_alt by lia. by rewrite Nat.sub_diag.
Qed.

Lemma lookup_final {A} (l : list A) (x : A) : (l ++ [x]) !! length l = Some x.
Proof. by apply list_lookup_middle. Qed.

Lemma py_remove_Some x l l' :
  py_remove x l = Some l' ->
  exists l1 l2, l = l1 ++ x :: l2 /\ l' = l1 ++ l2 /\ x ∉ l1.
Proof.
  revert l'. induction l as [| y l IH]; intros l' H; simpl in H; [done |].
  destruct (decide (y = x)) as [-> | Hne].
  - injection H as <-. exists [], l. split; [done |]. split; [done |].
    apply not_elem_of_nil.
  - destruct (py_remove x l) as [l0 |] eqn:E; [| done].
    injection H as <-. destruct (IH l0 eq_refl) as (l1 & l2 & -> & -> & Hx).
    exists (y :: l1), l2. split; [done |]. split; [done |].
    rewrite not_elem_of_cons. split; [congruence | done].
Qed.

Lemma py_remove_in x l : x ∈ l -> exists l', py_remove x l = Some l'.
Proof.
  induction l as [| y l IH]; intros H; [by apply elem_of_nil in H |].
  simpl. destruct (decide (y = x)); [by eexists |].
  apply elem_of_cons in H as [-> | H]; [done |].
  destruct (IH H) as [l' ->]. by eexists.
Qed.

Lemma py_remove_None x l : x ∉ l -> py_remove x l = None.
Proof.
  induction l as [| y l IH]; intros H; [done |].
  apply not_elem_of_cons in H as [Hne Hl]. simpl.
  destruct (decide (y = x)); [congruence |]. by rewrite IH.
Qed.

Lemma py_remove_length x l l' :
  py_remove x l = Some l' -> length l = S (length l').
Proof.
  intros (l1 & l2 & -> & -> & _)%py_remove_Some.
  rewrite !length_app. simpl. lia.
Qed.

Lemma py_remove_elem_of x l l' y :
  py_remove x l = Some l' -> y ∈ l' -> y ∈ l.
Proof.
  intros (l1 & l2 & -> & -> & _)%py_remove_Some.
  rewrite !elem_of_app, elem_of_cons. tauto.
Qed.

Lemma py_remove_elem_of_ne x l l' y :
  py_remove x l = Some l' -> y ∈ l -> y <> x -> y ∈ l'.
Proof.
  intros (l1 & l2 & -> & -> & _)%py_remove_Some.
  rewrite !elem_of_app, elem_of_cons. tauto.
Qed.

Lemma py_remove_NoDup x l l' :
  py_remove x l = Some l' -> NoDup l -> NoDup l' /\ x ∉ l'.
Proof.
  intros (l1 & l2 & -> & -> & Hx)%py_remove_Some Hnd.
  apply NoDup_app in Hnd as (H1 & H12 & H2).
  apply NoDup_cons in H2 as [Hx2 H2]. split.
  - apply NoDup_app. split; [done |]. split; [| done].
    intros y Hy Hy2. apply (H12 y Hy). by right.
  - rewrite elem_of_app. tauto.
Qed.

(** ** Running the methods of [Caixa] *)

Ltac simpl_estado :=
  cbv [set_mem_pecas set_mem_caixas set_pecas_aprovadas set_pecas_reprovadas
       set_todas_pecas set_caixas set_caixa_atual set_proximo_id
       set_pecas set_fechada] in *;
  cbn [mem_pecas mem_caixas pecas_aprovadas pecas_reprovadas todas_pecas
       caixas caixa_atual proximo_id numero pecas fechada] in *.

Lemma esta_cheia_exec s b c :
  mem_caixas s !! b = Some c ->
  Caixa.esta_cheia b s = (Retorna (10 <=? length (pecas c))%nat, s).
Proof. intros H. unfold Caixa.esta_cheia, bind, le_caixa. by rewrite H. Qed.

Lemma esta_vazia_exec s b c :
  mem_caixas s !! b = Some c ->
  Caixa.esta_vazia b s = (Retorna (length (pecas c) =? 0)%nat, s).
Proof. intros H. unfold Caixa.esta_vazia, bind, le_caixa. by rewrite H. Qed.

Lemma adicionar_peca_exec s b c r p :
  mem_caixas s !! b = Some c ->
  mem_pecas s !! r = Some p ->
  fechada c = false ->
  (length (pecas c) < 10)%nat ->
  Caixa.adicionar_peca b r s
  = (Retorna true,
     mkEstado
       (<[r := set_caixa (Some (numero c)) p]> (mem_pecas s))
       (<[b := mkCaixa (numero c) (pecas c ++ [r])
                 (length (pecas c) + 1 =? 10)%nat]> (mem_caixas s))
       (pecas_aprovadas s) (pecas_reprovadas s) (todas_pecas s)
       (caixas s) (caixa_atual s) (proximo_id s)).
Proof.
  intros Hb Hr Hf Hlen.
  pose proof (lookup_lt_Some _ _ _ Hb) as Hblt.
  unfold Caixa.adicionar_peca.
  rewrite (bind_exec _ _ _ _ _ (le_caixa_exec _ _ _ Hb)), Hf.
  apply Nat.ltb_lt in Hlen. unfold Caixa.CAPACIDADE_MAXIMA. rewrite Hlen.
  rewrite (bind_exec _ _ _ _ _ (escreve_caixa_exec _ _ _ _ Hb)).
  erewrite bind_exec; [| by apply escreve_peca_exec].
  erewrite bind_exec;
    [| apply le_caixa_exec; cbn; by apply list_lookup_insert_eq].
  cbn [pecas set_pecas]. rewrite length_app. cbn [length].
  destruct (length (pecas c) + 1 =? 10)%nat eqn:E.
  - unfold Caixa.fechar. erewrite bind_exec;
      [| apply escreve_caixa_exec; cbn; by apply list_lookup_insert_eq].
    unfold ret. simpl_estado. by rewrite list_insert_insert_eq.
  - unfold bind, ret. simpl_estado. by rewrite Hf.
Qed.

Lemma remover_peca_caixa_ausente s b c r :
  mem_caixas s !! b = Some c ->
  r ∉ pecas c ->
  Caixa.remover_peca b r s = (Retorna false, s).
Proof.
  intros Hb Hr. unfold Caixa.remover_peca.
  rewrite (bind_exec _ _ _ _ _ (le_caixa_exec _ _ _ Hb)).
  by rewrite bool_decide_eq_false_2.
Qed.

Lemma remover_peca_caixa_exec s b c r p :
  mem_caixas s !! b = Some c ->
  mem_pecas s !! r = Some p ->
  r ∈ pecas c ->
  exists l,
    py_remove r (pecas c) = Some l
    /\ Caixa.remover_peca b r s
       = (Retorna true,
          mkEstado
            (<[r := set_caixa None p]> (mem_pecas s))
            (<[b := mkCaixa (numero c) l false]> (mem_caixas s))
            (pecas_aprovadas s) (pecas_reprovadas s) (todas_pecas s)
            (caixas s) (caixa_atual s) (proximo_id s)).
Proof.
  intros Hb Hr Hin.
  pose proof (lookup_lt_Some _ _ _ Hb) as Hblt.
  destruct (py_remove_in _ _ Hin) as [l Hl]. exists l. split; [done |].
  unfold Caixa.remover_peca.
  rewrite (bind_exec _ _ _ _ _ (le_caixa_exec _ _ _ Hb)).
  rewrite bool_decide_eq_true_2 by done. rewrite Hl.
  rewrite (bind_exec _ _ _ _ _ (escreve_caixa_exec _ _ _ _ Hb)).
  erewrite bind_exec; [| by apply escreve_peca_exec].
  erewrite bind_exec;
    [| apply le_caixa_exec; cbn; by apply list_lookup_insert_eq].
  cbn [fechada set_pecas].
  destruct (fechada c) eqn:E.
  - erewrite bind_exec;
      [| apply escreve_caixa_exec; cbn; by apply list_lookup_insert_eq].
    unfold ret. simpl_estado. by rewrite list_insert_insert_eq.
  - unfold bind, ret. simpl_estado. by rewrite E.
Qed.

(** ** Running [cadastrar_peca] *)

Lemma armazenar_peca_nova_caixa s r p :
  mem_pecas s !! r = Some p ->
  (caixa_atual s = None
   \/ exists b c, caixa_atual s = Some b /\ mem_caixas s !! b = Some c
                  /\ (10 <= length (pecas c))%nat) ->
  let num := Z.of_nat (length (caixas s)) + 1 in
  SistemaProducao._armazenar_peca r s
  = (Retorna tt,
     mkEstado
       (<[r := set_caixa (Some num) p]> (mem_pecas s))
       (mem_caixas s ++ [mkCaixa num [r] false])
       (pecas_aprovadas s) (pecas_reprovadas s) (todas_pecas s)
       (caixas s ++ [length (mem_caixas s)])
       (Some (length (mem_caixas s))) (proximo_id s)).
Proof.
  intros Hr Hat num. unfold SistemaProducao._armazenar_peca.
  erewrite bind_exec; [| reflexivity].
  erewrite (bind_exec _ _ _ true s).
  2:{ destruct Hat as [-> | (b & c & -> & Hb & Hlen)]; [done |].
      rewrite (esta_cheia_exec _ _ _ Hb). apply Nat.leb_le in Hlen.
      by rewrite Hlen. }
  erewrite bind_exec; [| reflexivity].
  erewrite bind_exec; [| reflexivity]. simpl_estado.
  erewrite bind_exec.
  2:{ eapply (adicionar_peca_exec _ _ (Caixa.__init__ num) _ p).
      - simpl_estado. apply lookup_final.
      - exact Hr.
      - done.
      - simpl. lia. }
  unfold ret. simpl_estado. cbn [Caixa.__init__ numero pecas app length].
  by rewrite insert_final.
Qed.

Lemma armazenar_peca_caixa_atual s r p b c :
  mem_pecas s !! r = Some p ->
  caixa_atual s = Some b ->
  mem_caixas s !! b = Some c ->
  fechada c = false ->
  (length (pecas c) < 10)%nat ->
  SistemaProducao._armazenar_peca r s
  = (Retorna tt,
     mkEstado
       (<[r := set_caixa (Some (numero c)) p]> (mem_pecas s))
       (<[b := mkCaixa (numero c) (pecas c ++ [r])
                 (length (pecas c) + 1 =? 10)%nat]> (mem_caixas s))
       (pecas_aprovadas s) (pecas_reprovadas s) (todas_pecas s)
       (caixas s) (Some b) (proximo_id s)).
Proof.
  intros Hr Hat Hb Hf Hlen. unfold SistemaProducao._armazenar_peca.
  erewrite bind_exec; [| reflexivity]. rewrite Hat.
  rewrite (bind_exec _ _ _ _ _ (esta_cheia_exec _ _ _ Hb)).
  replace (10 <=? length (pecas c))%nat with false
    by (symmetry; apply Nat.leb_gt; lia).
  erewrite bind_exec; [| reflexivity].
  erewrite bind_exec; [| reflexivity]. rewrite Hat.
  erewrite bind_exec; [| by eapply adicionar_peca_exec].
  unfold ret. by rewrite Hat.
Qed.

Lemma aprovada_inspecionada p : aprovada (inspecionada p) = aprovavel p.
Proof. unfold inspecionada. by destruct (aprovavel p). Qed.

Lemma id_inspecionada p : id (inspecionada p) = id p.
Proof. unfold inspecionada. by destruct (aprovavel p). Qed.

Lemma caixa_inspecionada p : caixa (inspecionada p) = caixa p.
Proof. unfold inspecionada. by destruct (aprovavel p). Qed.

Ltac roda := erewrite bind_exec; [| reflexivity].

Ltac inicio_cadastro :=
  unfold SistemaProducao.cadastrar_peca;
  roda; roda; roda; roda;
  erewrite bind_exec;
    [| apply inspecionar_peca_exec; simpl_estado; apply lookup_final];
  simpl_estado; rewrite insert_final.

Lemma cadastrar_peca_reprovada w c l s :
  let p0 := Peca.__init__ (proximo_id s) w c l in
  let r := length (mem_pecas s) in
  aprovavel p0 = false ->
  SistemaProducao.cadastrar_peca w c l s
  = (Retorna (r, false, Some (motivos_de p0)),
     mkEstado (mem_pecas s ++ [inspecionada p0]) (mem_caixas s)
       (pecas_aprovadas s) (pecas_reprovadas s ++ [r]) (todas_pecas s ++ [r])
       (caixas s) (caixa_atual s) (proximo_id s + 1)).
Proof.
  intros p0 r Hap. inicio_cadastro. fold p0 r. rewrite Hap.
  erewrite bind_exec; [| reflexivity]. simpl_estado.
  erewrite bind_exec.
  2:{ apply le_peca_exec. simpl_estado. apply lookup_final. }
  unfold ret, inspecionada. by rewrite Hap.
Qed.

Lemma cadastrar_peca_nova_caixa w c l s :
  let p0 := Peca.__init__ (proximo_id s) w c l in
  let r := length (mem_pecas s) in
  let num := Z.of_nat (length (caixas s)) + 1 in
  aprovavel p0 = true ->
  (caixa_atual s = None
   \/ exists b c, caixa_atual s = Some b /\ mem_caixas s !! b = Some c
                  /\ (10 <= length (pecas c))%nat) ->
  SistemaProducao.cadastrar_peca w c l s
  = (Retorna (r, true, None),
     mkEstado (mem_pecas s ++ [set_caixa (Some num) (inspecionada p0)])
       (mem_caixas s ++ [mkCaixa num [r] false])
       (pecas_aprovadas s ++ [r]) (pecas_reprovadas s) (todas_pecas s ++ [r])
       (caixas s ++ [length (mem_caixas s)])
       (Some (length (mem_caixas s))) (proximo_id s + 1)).
Proof.
  intros p0 r num Hap Hat. inicio_cadastro. fold p0 r. rewrite Hap.
  erewrite bind_exec; [| reflexivity]. simpl_estado.
  erewrite bind_exec.
  2:{ apply armazenar_peca_nova_caixa with (p := inspecionada p0).
      - simpl_estado. apply lookup_final.
      - exact Hat. }
  unfold ret. simpl_estado. unfold r. by rewrite insert_final.
Qed.

Lemma cadastrar_peca_caixa_atual w c l s b cx :
  let p0 := Peca.__init__ (proximo_id s) w c l in
  let r := length (mem_pecas s) in
  aprovavel p0 = true ->
  caixa_atual s = Some b ->
  mem_caixas s !! b = Some cx ->
  fechada cx = false ->
  (length (pecas cx) < 10)%nat ->
  SistemaProducao.cadastrar_peca w c l s
  = (Retorna (r, true, None),
     mkEstado (mem_pecas s ++ [set_caixa (Some (numero cx)) (inspecionada p0)])
       (<[b := mkCaixa (numero cx) (pecas cx ++ [r])
                 (length (pecas cx) + 1 =? 10)%nat]> (mem_caixas s))
       (pecas_aprovadas s ++ [r]) (pecas_reprovadas s) (todas_pecas s ++ [r])
       (caixas s) (Some b) (proximo_id s + 1)).
Proof.
  intros p0 r Hap Hat Hb Hf Hlen. inicio_cadastro. fold p0 r. rewrite Hap.
  erewrite bind_exec; [| reflexivity]. simpl_estado.
  erewrite bind_exec.
  2:{ eapply armazenar_peca_caixa_atual with (p := inspecionada p0).
      - simpl_estado. apply lookup_final.
      - exact Hat.
      - exact Hb.
      - exact Hf.
      - exact Hlen. }
  unfold ret. simpl_estado. unfold r. by rewrite insert_final.
Qed.

(** ** Running [remover_peca] *)

Lemma busca_por_id_exec s i l :
  (forall r, r ∈ l -> is_Some (mem_pecas s !! r)) ->
  exists o,
    SistemaProducao.busca_por_id i l s = (Retorna o, s)
    /\ match o with
       | Some r => r ∈ l /\ exists p, mem_pecas s !! r = Some p /\ id p = i
       | None => forall r p, r ∈ l -> mem_pecas s !! r = Some p -> id p <> i
       end.
Proof.
  induction l as [| r l IH]; intros Hv.
  - exists None. split; [done |]. intros r p Hr. by apply elem_of_nil in Hr.
  - destruct (Hv r) as [p Hp]; [by left |]. simpl.
    rewrite (bind_exec _ _ _ _ _ (le_peca_exec _ _ _ Hp)).
    destruct (id p =? i)%Z eqn:E.
    + exists (Some r). split; [done |]. split; [by left |].
      exists p. split; [done |]. by apply Z.eqb_eq.
    + destruct IH as (o & Ho & Hspec); [intros; apply Hv; by right |].
      exists o. split; [done |]. destruct o as [r' |].
      * destruct Hspec as [Hin Hp']. split; [by right | done].
      * intros r' p' [-> | Hin]%elem_of_cons Hp'.
        -- rewrite Hp in Hp'. injection Hp' as <-. by apply Z.eqb_neq.
        -- by eapply Hspec.
Qed.

Lemma remove_da_lista_exec campo set_campo x s l' :
  py_remove x (campo s) = Some l' ->
  remove_da_lista campo set_campo x s = (Retorna tt, set_campo l' s).
Proof.
  intros H. unfold remove_da_lista, bind, ler. by rewrite H.
Qed.

Lemma remove_das_caixas_ausente s r l :
  (forall b, b ∈ l -> exists c, mem_caixas s !! b = Some c /\ r ∉ pecas c) ->
  SistemaProducao.remove_das_caixas r l s = (Retorna tt, s).
Proof.
  induction l as [| b l IH]; intros H; [done |].
  destruct (H b) as (c & Hc & Hr); [by left |]. simpl.
  rewrite (bind_exec _ _ _ _ _ (remover_peca_caixa_ausente _ _ _ _ Hc Hr)).
  apply IH. intros b' Hb'. apply H. by right.
Qed.

Lemma remove_das_caixas_exec s r p l1 b c l2 l' cs' :
  (forall b', b' ∈ l1 -> exists c', mem_caixas s !! b' = Some c' /\ r ∉ pecas c') ->
  mem_caixas s !! b = Some c ->
  mem_pecas s !! r = Some p ->
  r ∈ pecas c ->
  py_remove r (pecas c) = Some l' ->
  py_remove b (caixas s) = Some cs' ->
  SistemaProducao.remove_das_caixas r (l1 ++ b :: l2) s
  = (Retorna tt, apos_remover_da_caixa s r p b c l' cs').
Proof.
  intros H1 Hb Hr Hin Hl' Hcs'.
  induction l1 as [| b1 l1 IH].
  - simpl.
    destruct (remover_peca_caixa_exec _ _ _ _ _ Hb Hr Hin) as (l0 & Hl0 & Hex).
    rewrite Hl' in Hl0. injection Hl0 as <-.
    rewrite (bind_exec _ _ _ _ _ Hex).
    erewrite bind_exec.
    2:{ apply esta_vazia_exec. simpl_estado. apply list_lookup_insert_eq.
        by eapply lookup_lt_Some. }
    unfold apos_remover_da_caixa. cbn [pecas].
    destruct (length l' =? 0)%nat; [| done].
    erewrite bind_exec; [| by apply remove_da_lista_exec].
    erewrite bind_exec; [| reflexivity].
    simpl_estado. repeat case_bool_decide; done.
  - simpl. destruct (H1 b1) as (c1 & Hc1 & Hr1); [by left |].
    rewrite (bind_exec _ _ _ _ _ (remover_peca_caixa_ausente _ _ _ _ Hc1 Hr1)).
    apply IH. intros b' Hb'. apply H1. by right.
Qed.

Lemma remover_peca_nao_encontrada s i :
  (forall r, r ∈ todas_pecas s -> is_Some (mem_pecas s !! r)) ->
  (forall r p, r ∈ todas_pecas s -> mem_pecas s !! r = Some p -> id p <> i) ->
  SistemaProducao.remover_peca i s = (Retorna (false, "Peça não encontrada"), s).
Proof.
  intros Hv Hne. unfold SistemaProducao.remover_peca.
  erewrite bind_exec; [| reflexivity].
  destruct (busca_por_id_exec s i (todas_pecas s) Hv) as (o & Ho & Hspec).
  rewrite (bind_exec _ _ _ _ _ Ho). destruct o as [r |]; [| done].
  destruct Hspec as (Hin & p & Hp & Hid). by destruct (Hne r p).
Qed.

Lemma remover_peca_reprovada s i r p t' rp' :
  SistemaProducao.busca_por_id i (todas_pecas s) s = (Retorna (Some r), s) ->
  mem_pecas s !! r = Some p ->
  aprovada p = false ->
  py_remove r (todas_pecas s) = Some t' ->
  py_remove r (pecas_reprovadas s) = Some rp' ->
  SistemaProducao.remover_peca i s
  = (Retorna (true, "Peça removida com sucesso"),
     mkEstado (mem_pecas s) (mem_caixas s) (pecas_aprovadas s) rp' t'
       (caixas s) (caixa_atual s) (proximo_id s)).
Proof.
  intros Hbusca Hp Hap Ht Hrp. unfold SistemaProducao.remover_peca.
  erewrite bind_exec; [| reflexivity].
  rewrite (bind_exec _ _ _ _ _ Hbusca).
  erewrite bind_exec; [| by apply remove_da_lista_exec].
  erewrite bind_exec; [| by apply le_peca_exec].
  rewrite Hap.
  erewrite bind_exec; [| by apply remove_da_lista_exec].
  done.
Qed.

Lemma remover_peca_aprovada s i r p t' ap' l1 b c l2 l' cs' :
  SistemaProducao.busca_por_id i (todas_pecas s) s = (Retorna (Some r), s) ->
  mem_pecas s !! r = Some p ->
  aprovada p = true ->
  py_remove r (todas_pecas s) = Some t' ->
  py_remove r (pecas_aprovadas s) = Some ap' ->
  caixas s = l1 ++ b :: l2 ->
  (forall b', b' ∈ l1 -> exists c', mem_caixas s !! b' = Some c' /\ r ∉ pecas c') ->
  mem_caixas s !! b = Some c ->
  r ∈ pecas c ->
  py_remove r (pecas c) = Some l' ->
  py_remove b (caixas s) = Some cs' ->
  SistemaProducao.remover_peca i s
  = (Retorna (true, "Peça removida com sucesso"),
     apos_remover_da_caixa
       (mkEstado (mem_pecas s) (mem_caixas s) ap' (pecas_reprovadas s) t'
          (caixas s) (caixa_atual s) (proximo_id s))
       r p b c l' cs').
Proof.
  intros Hbusca Hp Hap Ht Hrp Hcs H1 Hb Hin Hl' Hcs'.
  destruct s as [mp mc ap rp td cs atual n]. simpl_estado. subst cs.
  unfold SistemaProducao.remover_peca.
  erewrite bind_exec; [| reflexivity].
  rewrite (bind_exec _ _ _ _ _ Hbusca).
  erewrite bind_exec; [| by apply remove_da_lista_exec].
  erewrite bind_exec; [| by apply le_peca_exec].
  rewrite Hap.
  erewrite bind_exec.
  2:{ erewrite bind_exec; [| by apply remove_da_lista_exec].
      erewrite bind_exec; [| reflexivity]. simpl_estado.
      eapply remove_das_caixas_exec; simpl_estado; eassumption. }
  done.
Qed.

(** ** The invariant is kept by [cadastrar_peca] *)

Lemma peca_em_lt s r p : peca_em s r p -> (r < length (mem_pecas s))%nat.
Proof. intros [_ H]. by eapply lookup_lt_Some. Qed.

Lemma nova_ref_fresca s : Inv s -> length (mem_pecas s) ∉ todas_pecas s.
Proof.
  intros HI Hin. destruct (inv_todas s HI _ Hin) as [p Hp].
  apply lookup_lt_Some in Hp. lia.
Qed.

Lemma nova_ref_fora_das_caixas s b c :
  Inv s -> caixa_em s b c -> length (mem_pecas s) ∉ pecas c.
Proof.
  intros HI Hbc Hin. destruct (inv_conteudo s HI _ _ _ Hbc Hin) as (p & Hp & _).
  apply peca_em_lt in Hp. lia.
Qed.

Lemma nova_caixa_fresca s : Inv s -> length (mem_caixas s) ∉ caixas s.
Proof.
  intros HI Hin. destruct (inv_caixas s HI _ Hin) as [c Hc].
  apply lookup_lt_Some in Hc. lia.
Qed.

(** The registered parts after a registration: the old ones, unchanged, and
    the new one. *)
Lemma peca_em_cadastro s s' pn :
  Inv s ->
  mem_pecas s' = mem_pecas s ++ [pn] ->
  todas_pecas s' = todas_pecas s ++ [length (mem_pecas s)] ->
  forall r p,
    peca_em s' r p <-> peca_em s r p \/ (r = length (mem_pecas s) /\ p = pn).
Proof.
  intros HI Hm Ht r p. unfold peca_em. rewrite Hm, Ht, elem_of_app, list_elem_of_singleton.
  split.
  - intros [[Hin | ->] Hl].
    + left. split; [done |]. destruct (inv_todas s HI _ Hin) as [p' Hp'].
      rewrite (lookup_app_l_Some _ _ _ _ Hp') in Hl. congruence.
    + right. split; [done |]. rewrite lookup_final in Hl. congruence.
  - intros [[Hin Hl] | [-> ->]].
    + split; [by left |]. by apply lookup_app_l_Some.
    + split; [by right |]. apply lookup_final.
Qed.

Lemma caixa_em_mesmas s s' :
  mem_caixas s' = mem_caixas s -> caixas s' = caixas s ->
  forall b c, caixa_em s' b c <-> caixa_em s b c.
Proof. intros Hm Hc b c. unfold caixa_em. by rewrite Hm, Hc. Qed.

Lemma caixa_em_nova s s' cn :
  Inv s ->
  mem_caixas s' = mem_caixas s ++ [cn] ->
  caixas s' = caixas s ++ [length (mem_caixas s)] ->
  forall b c,
    caixa_em s' b c <-> caixa_em s b c \/ (b = length (mem_caixas s) /\ c = cn).
Proof.
  intros HI Hm Ht b c. unfold caixa_em. rewrite Hm, Ht, elem_of_app, list_elem_of_singleton.
  split.
  - intros [[Hin | ->] Hl].
    + left. split; [done |]. destruct (inv_caixas s HI _ Hin) as [c' Hc'].
      rewrite (lookup_app_l_Some _ _ _ _ Hc') in Hl. congruence.
    + right. split; [done |]. rewrite lookup_final in Hl. congruence.
  - intros [[Hin Hl] | [-> ->]].
    + split; [by left |]. by apply lookup_app_l_Some.
    + split; [by right |]. apply lookup_final.
Qed.

Lemma caixa_em_alterada s s' b0 c0 c' :
  caixa_em s b0 c0 ->
  mem_caixas s' = <[b0 := c']> (mem_caixas s) ->
  caixas s' = caixas s ->
  forall b c,
    caixa_em s' b c <-> (b <> b0 /\ caixa_em s b c) \/ (b = b0 /\ c = c').
Proof.
  intros [Hb0 Hc0] Hm Ht b c. unfold caixa_em. rewrite Hm, Ht.
  pose proof (lookup_lt_Some _ _ _ Hc0) as Hlt.
  destruct (decide (b = b0)) as [-> | Hne].
  - rewrite list_lookup_insert_eq by done. split.
    + intros [_ [= <-]]. by right.
    + intros [[? _] | [_ ->]]; [done | by split].
  - rewrite list_lookup_insert_ne by done. split.
    + intros H. by left.
    + intros [[_ H] | [? _]]; done.
Qed.

(** The clauses about parts alone, for the three outcomes at once. *)
Lemma Inv_cadastro_pecas s s' pn :
  Inv s ->
  mem_pecas s' = mem_pecas s ++ [pn] ->
  todas_pecas s' = todas_pecas s ++ [length (mem_pecas s)] ->
  proximo_id s' = proximo_id s + 1 ->
  id pn = proximo_id s ->
  (forall r, r ∈ todas_pecas s' -> exists p, mem_pecas s' !! r = Some p)
  /\ NoDup (todas_pecas s')
  /\ (forall r p, peca_em s' r p -> id p < proximo_id s')
  /\ (forall r1 r2 p1 p2,
        peca_em s' r1 p1 -> peca_em s' r2 p2 -> id p1 = id p2 -> r1 = r2).
Proof.
  intros HI Hm Ht Hn Hid.
  pose proof (peca_em_cadastro s s' pn HI Hm Ht) as Hpe.
  split; [| split; [| split]].
  - intros r Hr. rewrite Ht, elem_of_app, list_elem_of_singleton in Hr. rewrite Hm.
    destruct Hr as [Hr | ->].
    + destruct (inv_todas s HI _ Hr) as [p Hp]. exists p.
      by apply lookup_app_l_Some.
    + exists pn. apply lookup_final.
  - rewrite Ht. apply NoDup_app. split; [by apply inv_todas_nodup |].
    split; [| apply NoDup_singleton].
    intros r Hr ->%list_elem_of_singleton. by apply (nova_ref_fresca s).
  - intros r p [H | [-> ->]]%Hpe; rewrite Hn.
    + pose proof (inv_ids s HI _ _ H). lia.
    + lia.
  - intros r1 r2 p1 p2 [H1 | [-> ->]]%Hpe [H2 | [-> ->]]%Hpe Heq.
    + by eapply (inv_ids_distintos s HI).
    + pose proof (inv_ids s HI _ _ H1). lia.
    + pose proof (inv_ids s HI _ _ H2). lia.
    + done.
Qed.

Lemma Inv_cadastro_reprovada s pn :
  Inv s ->
  id pn = proximo_id s ->
  aprovada pn = false ->
  Inv (mkEstado (mem_pecas s ++ [pn]) (mem_caixas s)
         (pecas_aprovadas s) (pecas_reprovadas s ++ [length (mem_pecas s)])
         (todas_pecas s ++ [length (mem_pecas s)])
         (caixas s) (caixa_atual s) (proximo_id s + 1)).
Proof.
  intros HI Hid Hap.
  set (s' := mkEstado _ _ _ _ _ _ _ _).
  pose proof (peca_em_cadastro s s' pn HI eq_refl eq_refl) as Hpe.
  pose proof (caixa_em_mesmas s s' eq_refl eq_refl) as Hce.
  destruct (Inv_cadastro_pecas s s' pn HI eq_refl eq_refl eq_refl Hid)
    as (I1 & I2 & I3 & I4).
  constructor; [exact I1 | exact I2 | exact I3 | exact I4 | ..].
  - intros r p [H | [-> ->]]%Hpe Ha; [| congruence].
    destruct (inv_aprovadas s HI _ _ H Ha) as (Hin & b & c & Hbc & Hr).
    split; [done |]. exists b, c. by rewrite Hce.
  - intros r p [H | [-> ->]]%Hpe Ha; cbn; rewrite elem_of_app.
    + left. by eapply (inv_reprovadas s HI).
    + right. by apply list_elem_of_singleton.
  - exact (inv_caixas s HI).
  - exact (inv_caixas_nodup s HI).
  - exact (inv_caixa_atual s HI).
  - intros b c Hbc%Hce. by eapply (inv_capacidade s HI).
  - intros b c r Hbc%Hce Hr.
    destruct (inv_conteudo s HI _ _ _ Hbc Hr) as (p & Hp & Ha).
    exists p. split; [| done]. apply Hpe. by left.
  - intros b c Hbc%Hce. by eapply (inv_conteudo_nodup s HI).
  - intros b1 b2 c1 c2 r H1%Hce H2%Hce. by eapply (inv_disjuntas s HI).
Qed.

Lemma Inv_cadastro_nova_caixa s pn num :
  Inv s ->
  id pn = proximo_id s ->
  aprovada pn = true ->
  Inv (mkEstado (mem_pecas s ++ [pn])
         (mem_caixas s ++ [mkCaixa num [length (mem_pecas s)] false])
         (pecas_aprovadas s ++ [length (mem_pecas s)]) (pecas_reprovadas s)
         (todas_pecas s ++ [length (mem_pecas s)])
         (caixas s ++ [length (mem_caixas s)])
         (Some (length (mem_caixas s))) (proximo_id s + 1)).
Proof.
  intros HI Hid Hap.
  set (r := length (mem_pecas s)). set (nb := length (mem_caixas s)).
  set (cn := mkCaixa num [r] false).
  set (s' := mkEstado _ _ _ _ _ _ _ _).
  pose proof (peca_em_cadastro s s' pn HI eq_refl eq_refl) as Hpe.
  pose proof (caixa_em_nova s s' cn HI eq_refl eq_refl) as Hce.
  destruct (Inv_cadastro_pecas s s' pn HI eq_refl eq_refl eq_refl Hid)
    as (I1 & I2 & I3 & I4).
  constructor; [exact I1 | exact I2 | exact I3 | exact I4 | ..].
  - intros r0 p [H | [-> ->]]%Hpe Ha; cbn; rewrite elem_of_app.
    + destruct (inv_aprovadas s HI _ _ H Ha) as (Hin & b & c & Hbc & Hr).
      split; [by left |]. exists b, c. split; [| done]. apply Hce. by left.
    + split; [right; by apply list_elem_of_singleton |].
      exists nb, cn. split; [apply Hce; by right |].
      by apply list_elem_of_singleton.
  - intros r0 p [H | [-> ->]]%Hpe Ha; [| congruence].
    by eapply (inv_reprovadas s HI).
  - intros b [Hb | ->%list_elem_of_singleton]%elem_of_app; cbn.
    + destruct (inv_caixas s HI _ Hb) as [c Hc]. exists c.
      by apply lookup_app_l_Some.
    + exists cn. apply lookup_final.
  - cbn. apply NoDup_app. split; [exact (inv_caixas_nodup s HI) |].
    split; [| apply NoDup_singleton].
    intros b Hb ->%list_elem_of_singleton. by apply (nova_caixa_fresca s).
  - intros b [= <-]. cbn. apply elem_of_app. right.
    by apply list_elem_of_singleton.
  - intros b c [Hbc | [-> ->]]%Hce.
    + by eapply (inv_capacidade s HI).
    + cbn. split; [lia |]. split; [done | lia].
  - intros b c r0 [Hbc | [-> ->]]%Hce Hr.
    + destruct (inv_conteudo s HI _ _ _ Hbc Hr) as (p & Hp & Ha).
      exists p. split; [| done]. apply Hpe. by left.
    + apply list_elem_of_singleton in Hr as ->. exists pn.
      split; [| done]. apply Hpe. by right.
  - intros b c [Hbc | [-> ->]]%Hce.
    + by eapply (inv_conteudo_nodup s HI).
    + apply NoDup_singleton.
  - intros b1 b2 c1 c2 r0 [H1 | [-> ->]]%Hce [H2 | [-> ->]]%Hce Hr1 Hr2.
    + by eapply (inv_disjuntas s HI).
    + apply list_elem_of_singleton in Hr2 as ->.
      by destruct (nova_ref_fora_das_caixas s _ _ HI H1).
    + apply list_elem_of_singleton in Hr1 as ->.
      by destruct (nova_ref_fora_das_caixas s _ _ HI H2).
    + done.
Qed.

Lemma Inv_cadastro_caixa_atual s pn b cx :
  Inv s ->
  id pn = proximo_id s ->
  aprovada pn = true ->
  caixa_atual s = Some b ->
  mem_caixas s !! b = Some cx ->
  (length (pecas cx) < 10)%nat ->
  Inv (mkEstado (mem_pecas s ++ [pn])
         (<[b := mkCaixa (numero cx) (pecas cx ++ [length (mem_pecas s)])
                   (length (pecas cx) + 1 =? 10)%nat]> (mem_caixas s))
         (pecas_aprovadas s ++ [length (mem_pecas s)]) (pecas_reprovadas s)
         (todas_pecas s ++ [length (mem_pecas s)])
         (caixas s) (Some b) (proximo_id s + 1)).
Proof.
  intros HI Hid Hap Hat Hcx Hlen.
  set (r := length (mem_pecas s)).
  set (c' := mkCaixa _ _ _).
  set (s' := mkEstado _ _ _ _ _ _ _ _).
  assert (Hbcx : caixa_em s b cx).
  { split; [by apply (inv_caixa_atual s HI) | done]. }
  pose proof (peca_em_cadastro s s' pn HI eq_refl eq_refl) as Hpe.
  pose proof (caixa_em_alterada s s' b cx c' Hbcx eq_refl eq_refl) as Hce.
  destruct (Inv_cadastro_pecas s s' pn HI eq_refl eq_refl eq_refl Hid)
    as (I1 & I2 & I3 & I4).
  constructor; [exact I1 | exact I2 | exact I3 | exact I4 | ..].
  - intros r0 p [H | [-> ->]]%Hpe Ha; cbn; rewrite elem_of_app.
    + destruct (inv_aprovadas s HI _ _ H Ha) as (Hin & b0 & c & Hbc & Hr).
      split; [by left |]. destruct (decide (b0 = b)) as [-> | Hne].
      * exists b, c'. split; [apply Hce; by right |].
        destruct Hbc as [_ Hbc]. rewrite Hcx in Hbc. injection Hbc as <-.
        cbn. apply elem_of_app. by left.
      * exists b0, c. split; [apply Hce; by left | done].
    + split; [right; by apply list_elem_of_singleton |].
      exists b, c'. split; [apply Hce; by right |].
      cbn. apply elem_of_app. right. by apply list_elem_of_singleton.
  - intros r0 p [H | [-> ->]]%Hpe Ha; [| congruence].
    by eapply (inv_reprovadas s HI).
  - intros b0 Hb0. cbn in Hb0 |- *. apply list_lookup_insert_is_Some.
    exact (inv_caixas s HI _ Hb0).
  - exact (inv_caixas_nodup s HI).
  - intros b0 [= <-]. by destruct Hbcx.
  - intros b0 c [[Hne Hbc] | [-> ->]]%Hce.
    + by eapply (inv_capacidade s HI).
    + cbn. rewrite length_app. cbn. split; [lia |].
      by rewrite Nat.eqb_eq.
  - intros b0 c r0 [[Hne Hbc] | [-> ->]]%Hce Hr.
    + destruct (inv_conteudo s HI _ _ _ Hbc Hr) as (p & Hp & Ha).
      exists p. split; [| done]. apply Hpe. by left.
    + cbn in Hr. apply elem_of_app in Hr as [Hr | ->%list_elem_of_singleton].
      * destruct (inv_conteudo s HI _ _ _ Hbcx Hr) as (p & Hp & Ha).
        exists p. split; [| done]. apply Hpe. by left.
      * exists pn. split; [| done]. apply Hpe. by right.
  - intros b0 c [[Hne Hbc] | [-> ->]]%Hce.
    + by eapply (inv_conteudo_nodup s HI).
    + cbn. apply NoDup_app. split; [by eapply (inv_conteudo_nodup s HI) |].
      split; [| apply NoDup_singleton].
      intros r0 Hr0 ->%list_elem_of_singleton.
      by destruct (nova_ref_fora_das_caixas s _ _ HI Hbcx).
  - intros b1 b2 c1 c2 r0 [[Hn1 H1] | [-> ->]]%Hce [[Hn2 H2] | [-> ->]]%Hce Hr1 Hr2.
    + by eapply (inv_disjuntas s HI).
    + cbn in Hr2. apply elem_of_app in Hr2 as [Hr2 | ->%list_elem_of_singleton].
      * by eapply (inv_disjuntas s HI).
      * by destruct (nova_ref_fora_das_caixas s _ _ HI H1).
    + cbn in Hr1. apply elem_of_app in Hr1 as [Hr1 | ->%list_elem_of_singleton].
      * by eapply (inv_disjuntas s HI).
      * by destruct (nova_ref_fora_das_caixas s _ _ HI H2).
    + done.
Qed.

(** What a registration does in a ledger state: one of three outcomes. *)
Lemma cadastrar_peca_casos w c l s :
  Inv s ->
  let p0 := Peca.__init__ (proximo_id s) w c l in
  let r := length (mem_pecas s) in
  (aprovavel p0 = false
   /\ SistemaProducao.cadastrar_peca w c l s
      = (Retorna (r, false, Some (motivos_de p0)),
         mkEstado (mem_pecas s ++ [inspecionada p0]) (mem_caixas s)
           (pecas_aprovadas s) (pecas_reprovadas s ++ [r]) (todas_pecas s ++ [r])
           (caixas s) (caixa_atual s) (proximo_id s + 1)))
  \/ (aprovavel p0 = true
      /\ (caixa_atual s = None
          \/ exists b cx, caixa_atual s = Some b /\ mem_caixas s !! b = Some cx
                          /\ (10 <= length (pecas cx))%nat)
      /\ let num := Z.of_nat (length (caixas s)) + 1 in
         SistemaProducao.cadastrar_peca w c l s
         = (Retorna (r, true, None),
            mkEstado (mem_pecas s ++ [set_caixa (Some num) (inspecionada p0)])
              (mem_caixas s ++ [mkCaixa num [r] false])
              (pecas_aprovadas s ++ [r]) (pecas_reprovadas s)
              (todas_pecas s ++ [r])
              (caixas s ++ [length (mem_caixas s)])
              (Some (length (mem_caixas s))) (proximo_id s + 1)))
  \/ (exists b cx,
        aprovavel p0 = true
        /\ caixa_atual s = Some b /\ mem_caixas s !! b = Some cx
        /\ fechada cx = false /\ (length (pecas cx) < 10)%nat
        /\ SistemaProducao.cadastrar_peca w c l s
           = (Retorna (r, true, None),
              mkEstado
                (mem_pecas s ++ [set_caixa (Some (numero cx)) (inspecionada p0)])
                (<[b := mkCaixa (numero cx) (pecas cx ++ [r])
                          (length (pecas cx) + 1 =? 10)%nat]> (mem_caixas s))
                (pecas_aprovadas s ++ [r]) (pecas_reprovadas s)
                (todas_pecas s ++ [r])
                (caixas s) (Some b) (proximo_id s + 1))).
Proof.
  intros HI p0 r.
  destruct (aprovavel p0) eqn:Hap.
  2:{ left. split; [done |]. by apply cadastrar_peca_reprovada. }
  right. destruct (caixa_atual s) as [b |] eqn:Hat.
  2:{ left. split; [done |]. split; [by left |].
      apply cadastrar_peca_nova_caixa; [done | by left]. }
  destruct (inv_caixas s HI b (inv_caixa_atual s HI b Hat)) as [cx Hcx].
  destruct (decide (length (pecas cx) < 10)%nat) as [Hlt | Hge].
  - right. exists b, cx.
    assert (Hf : fechada cx = false).
    { destruct (inv_capacidade s HI b cx) as [_ Hiff].
      - split; [by apply (inv_caixa_atual s HI) | done].
      - destruct (fechada cx); [| done]. destruct Hiff as [Hiff _].
        specialize (Hiff eq_refl). lia. }
    repeat (split; [done |]). by apply cadastrar_peca_caixa_atual.
  - left. split; [done |].
    assert (Hex : exists b0 cx0, Some b = Some b0 /\ mem_caixas s !! b0 = Some cx0
                                 /\ (10 <= length (pecas cx0))%nat).
    { exists b, cx. repeat split; [done | lia]. }
    split; [by right |].
    apply cadastrar_peca_nova_caixa; [done |]. right. by rewrite Hat.
Qed.

Lemma Inv_cadastrar_peca w c l s :
  Inv s -> Inv (snd (SistemaProducao.cadastrar_peca w c l s)).
Proof.
  intros HI.
  destruct (cadastrar_peca_casos w c l s HI)
    as [[Hap ->] | [(Hap & _ & ->) | (b & cx & Hap & Hat & Hcx & Hf & Hlen & ->)]];
    cbn [snd].
  - apply Inv_cadastro_reprovada; [done | |].
    + by rewrite id_inspecionada.
    + by rewrite aprovada_inspecionada.
  - apply Inv_cadastro_nova_caixa; [done | |].
    + cbn. by rewrite id_inspecionada.
    + cbn. by rewrite aprovada_inspecionada.
  - apply Inv_cadastro_caixa_atual; try done.
    + cbn. by rewrite id_inspecionada.
    + cbn. by rewrite aprovada_inspecionada.
Qed.

(** ** The invariant is kept by [remover_peca] *)

Lemma py_remove_elem_of_iff x l l' y :
  py_remove x l = Some l' -> NoDup l -> (y ∈ l' <-> y ∈ l /\ y <> x).
Proof.
  intros H Hnd. destruct (py_remove_NoDup _ _ _ H Hnd) as [_ Hx]. split.
  - intros Hy. split; [by eapply py_remove_elem_of |]. by intros ->.
  - intros [Hy Hne]. by eapply py_remove_elem_of_ne.
Qed.

(** The registered parts after a removal: the others, unchanged. *)
Lemma peca_em_remocao s s' r t' :
  Inv s ->
  py_remove r (todas_pecas s) = Some t' ->
  todas_pecas s' = t' ->
  (forall r0, r0 <> r -> mem_pecas s' !! r0 = mem_pecas s !! r0) ->
  forall r0 p0, peca_em s' r0 p0 <-> r0 <> r /\ peca_em s r0 p0.
Proof.
  intros HI Ht Ht' Hm r0 p0. unfold peca_em. rewrite Ht'.
  rewrite (py_remove_elem_of_iff _ _ _ r0 Ht (inv_todas_nodup s HI)).
  split.
  - intros [[Hin Hne] Hl]. rewrite Hm in Hl by done. done.
  - intros [Hne [Hin Hl]]. rewrite Hm by done. done.
Qed.

Lemma caixa_em_apagada s s' b cs' cb :
  Inv s ->
  py_remove b (caixas s) = Some cs' ->
  caixas s' = cs' ->
  mem_caixas s' = <[b := cb]> (mem_caixas s) ->
  forall b0 c0, caixa_em s' b0 c0 <-> b0 <> b /\ caixa_em s b0 c0.
Proof.
  intros HI Hcs Hcs' Hm b0 c0. unfold caixa_em. rewrite Hcs', Hm.
  rewrite (py_remove_elem_of_iff _ _ _ b0 Hcs (inv_caixas_nodup s HI)).
  split.
  - intros [[Hin Hne] Hl]. rewrite list_lookup_insert_ne in Hl by done. done.
  - intros [Hne [Hin Hl]]. rewrite list_lookup_insert_ne by done. done.
Qed.

Lemma Inv_remocao_reprovada s r p t' rp' :
  Inv s ->
  peca_em s r p ->
  aprovada p = false ->
  py_remove r (todas_pecas s) = Some t' ->
  py_remove r (pecas_reprovadas s) = Some rp' ->
  Inv (mkEstado (mem_pecas s) (mem_caixas s) (pecas_aprovadas s) rp' t'
         (caixas s) (caixa_atual s) (proximo_id s)).
Proof.
  intros HI Hrp Hap Ht Hrp'.
  set (s' := mkEstado _ _ _ _ _ _ _ _).
  pose proof (peca_em_remocao s s' r t' HI Ht eq_refl (fun _ _ => eq_refl)) as Hpe.
  pose proof (caixa_em_mesmas s s' eq_refl eq_refl) as Hce.
  constructor.
  - intros r0 Hr0. cbn in Hr0 |- *. apply (inv_todas s HI).
    by eapply py_remove_elem_of.
  - cbn. by destruct (py_remove_NoDup _ _ _ Ht (inv_todas_nodup s HI)).
  - intros r0 p0 [Hne H]%Hpe. by apply (inv_ids s HI r0).
  - intros r1 r2 p1 p2 [_ H1]%Hpe [_ H2]%Hpe. by apply (inv_ids_distintos s HI).
  - intros r0 p0 [Hne H]%Hpe Ha.
    destruct (inv_aprovadas s HI _ _ H Ha) as (Hin & b & c & Hbc & Hr).
    split; [done |]. exists b, c. by rewrite Hce.
  - intros r0 p0 [Hne H]%Hpe Ha. cbn.
    eapply py_remove_elem_of_ne; [done | | done].
    by apply (inv_reprovadas s HI r0 p0).
  - exact (inv_caixas s HI).
  - exact (inv_caixas_nodup s HI).
  - exact (inv_caixa_atual s HI).
  - intros b c Hbc%Hce. by apply (inv_capacidade s HI b).
  - intros b c r0 Hbc%Hce Hr.
    destruct (inv_conteudo s HI _ _ _ Hbc Hr) as (p0 & Hp0 & Ha).
    exists p0. split; [| done]. apply Hpe. split; [| done].
    intros ->. destruct Hp0 as [_ Hp0], Hrp as [_ Hrp]. congruence.
  - intros b c Hbc%Hce. by apply (inv_conteudo_nodup s HI b).
  - intros b1 b2 c1 c2 r0 H1%Hce H2%Hce. by apply (inv_disjuntas s HI).
Qed.

Lemma Inv_remocao_aprovada s r p t' ap' b c l' cs' :
  Inv s ->
  peca_em s r p ->
  caixa_em s b c ->
  r ∈ pecas c ->
  py_remove r (todas_pecas s) = Some t' ->
  py_remove r (pecas_aprovadas s) = Some ap' ->
  py_remove r (pecas c) = Some l' ->
  py_remove b (caixas s) = Some cs' ->
  Inv (apos_remover_da_caixa
         (mkEstado (mem_pecas s) (mem_caixas s) ap' (pecas_reprovadas s) t'
            (caixas s) (caixa_atual s) (proximo_id s))
         r p b c l' cs').
Proof.
  intros HI Hrp Hbc Hrc Ht Hap' Hl' Hcs'.
  set (cb := mkCaixa (numero c) l' false).
  assert (Hl'in : forall r0, r0 ∈ l' <-> r0 ∈ pecas c /\ r0 <> r).
  { intros r0. apply py_remove_elem_of_iff; [done |].
    by apply (inv_conteudo_nodup s HI b). }
  assert (Hlen : length (pecas c) = S (length l'))
    by (by apply (py_remove_length r)).
  assert (Hcap : (length (pecas c) <= 10)%nat)
    by by destruct (inv_capacidade s HI b c Hbc).
  assert (Hpe : forall s',
    todas_pecas s' = t' ->
    mem_pecas s' = <[r := set_caixa None p]> (mem_pecas s) ->
    forall r0 p0, peca_em s' r0 p0 <-> r0 <> r /\ peca_em s r0 p0).
  { intros s' H1 H2. apply (peca_em_remocao s s' r t' HI Ht H1).
    intros r0 Hne. rewrite H2. by apply list_lookup_insert_ne. }
  assert (Hfora : forall b0 c0 r0,
    b0 <> b -> caixa_em s b0 c0 -> r0 ∈ pecas c0 -> r0 <> r).
  { intros b0 c0 r0 Hne Hb0 Hr0 ->. apply Hne.
    by apply (inv_disjuntas s HI b0 b c0 c r). }
  (* the clauses that do not depend on whether the box stays *)
  assert (Hcomum : forall s',
    todas_pecas s' = t' ->
    mem_pecas s' = <[r := set_caixa None p]> (mem_pecas s) ->
    proximo_id s' = proximo_id s ->
    pecas_reprovadas s' = pecas_reprovadas s ->
    (forall r0, r0 ∈ todas_pecas s' -> exists p0, mem_pecas s' !! r0 = Some p0)
    /\ NoDup (todas_pecas s')
    /\ (forall r0 p0, peca_em s' r0 p0 -> id p0 < proximo_id s')
    /\ (forall r1 r2 p1 p2,
          peca_em s' r1 p1 -> peca_em s' r2 p2 -> id p1 = id p2 -> r1 = r2)
    /\ (forall r0 p0,
          peca_em s' r0 p0 -> aprovada p0 = false -> r0 ∈ pecas_reprovadas s')).
  { intros s' H1 H2 H3 H4. pose proof (Hpe s' H1 H2) as Hpe'.
    split; [| split; [| split; [| split]]].
    - intros r0 Hr0. rewrite H1 in Hr0. rewrite H2.
      apply list_lookup_insert_is_Some. apply (inv_todas s HI).
      by eapply py_remove_elem_of.
    - rewrite H1. by destruct (py_remove_NoDup _ _ _ Ht (inv_todas_nodup s HI)).
    - intros r0 p0 [Hne H]%Hpe'. rewrite H3. by apply (inv_ids s HI r0).
    - intros r1 r2 p1 p2 [_ Hp1]%Hpe' [_ Hp2]%Hpe'.
      by apply (inv_ids_distintos s HI).
    - intros r0 p0 [Hne H]%Hpe' Ha. rewrite H4.
      by apply (inv_reprovadas s HI r0 p0). }
  unfold apos_remover_da_caixa. simpl_estado.
  destruct (length l' =? 0)%nat eqn:E.
  - (* the box is emptied and leaves the sequence *)
    apply Nat.eqb_eq in E. apply length_zero_iff_nil in E. subst l'.
    set (s' := mkEstado _ _ _ _ _ _ _ _).
    pose proof (Hpe s' eq_refl eq_refl) as Hpe'.
    pose proof (caixa_em_apagada s s' b cs' cb HI Hcs' eq_refl eq_refl) as Hce.
    destruct (Hcomum s' eq_refl eq_refl eq_refl eq_refl) as (I1 & I2 & I3 & I4 & I6).
    assert (Hso : forall r0, r0 ∈ pecas c -> r0 = r).
    { intros r0 Hr0. destruct (decide (r0 = r)) as [| Hne]; [done |].
      assert (H : r0 ∈ []) by by apply Hl'in. by apply elem_of_nil in H. }
    constructor; [exact I1 | exact I2 | exact I3 | exact I4 | | exact I6 | ..].
    + intros r0 p0 [Hne H]%Hpe' Ha.
      destruct (inv_aprovadas s HI _ _ H Ha) as (Hin & b0 & c0 & Hb0 & Hr0).
      split; [cbn; by eapply py_remove_elem_of_ne |].
      exists b0, c0. split; [| done]. apply Hce. split; [| done].
      intros ->. destruct Hb0 as [_ Hb0], Hbc as [_ Hbc'].
      rewrite Hbc' in Hb0. injection Hb0 as <-. by apply Hne, Hso.
    + intros b0 Hb0. cbn in Hb0 |- *. apply list_lookup_insert_is_Some.
      apply (inv_caixas s HI). by eapply py_remove_elem_of.
    + cbn. by destruct (py_remove_NoDup _ _ _ Hcs' (inv_caixas_nodup s HI)).
    + intros b0. cbn. case_bool_decide as Hat.
      * intros Hult. unfold ultimo in Hult. by apply last_Some_elem_of.
      * intros Hb0. eapply py_remove_elem_of_ne; [done | | congruence].
        by apply (inv_caixa_atual s HI).
    + intros b0 c0 [Hne H]%Hce. by apply (inv_capacidade s HI b0).
    + intros b0 c0 r0 [Hne H]%Hce Hr0.
      destruct (inv_conteudo s HI _ _ _ H Hr0) as (p0 & Hp0 & Ha).
      exists p0. split; [| done]. apply Hpe'. split; [| done].
      by apply (Hfora b0 c0).
    + intros b0 c0 [Hne H]%Hce. by apply (inv_conteudo_nodup s HI b0).
    + intros b1 b2 c1 c2 r0 [_ H1]%Hce [_ H2]%Hce.
      by apply (inv_disjuntas s HI).
  - (* the box keeps other parts and stays *)
    apply Nat.eqb_neq in E.
    set (s' := mkEstado _ _ _ _ _ _ _ _).
    pose proof (Hpe s' eq_refl eq_refl) as Hpe'.
    pose proof (caixa_em_alterada s s' b c cb Hbc eq_refl eq_refl) as Hce.
    destruct (Hcomum s' eq_refl eq_refl eq_refl eq_refl) as (I1 & I2 & I3 & I4 & I6).
    constructor; [exact I1 | exact I2 | exact I3 | exact I4 | | exact I6 | ..].
    + intros r0 p0 [Hne H]%Hpe' Ha.
      destruct (inv_aprovadas s HI _ _ H Ha) as (Hin & b0 & c0 & Hb0 & Hr0).
      split; [cbn; by eapply py_remove_elem_of_ne |].
      destruct (decide (b0 = b)) as [-> | Hneb].
      * exists b, cb. split; [apply Hce; by right |].
        destruct Hb0 as [_ Hb0], Hbc as [_ Hbc'].
        rewrite Hbc' in Hb0. injection Hb0 as <-. cbn. by apply Hl'in.
      * exists b0, c0. split; [apply Hce; by left | done].
    + intros b0 Hb0. cbn in Hb0 |- *. apply list_lookup_insert_is_Some.
      by apply (inv_caixas s HI).
    + exact (inv_caixas_nodup s HI).
    + exact (inv_caixa_atual s HI).
    + intros b0 c0 [[Hne H] | [-> ->]]%Hce.
      * by apply (inv_capacidade s HI b0).
      * cbn. split; [lia |]. split; [done | lia].
    + intros b0 c0 r0 [[Hne H] | [-> ->]]%Hce Hr0.
      * destruct (inv_conteudo s HI _ _ _ H Hr0) as (p0 & Hp0 & Ha).
        exists p0. split; [| done]. apply Hpe'. split; [| done].
        by apply (Hfora b0 c0).
      * cbn in Hr0. apply Hl'in in Hr0 as [Hr0 Hne].
        destruct (inv_conteudo s HI _ _ _ Hbc Hr0) as (p0 & Hp0 & Ha).
        exists p0. split; [| done]. by apply Hpe'.
    + intros b0 c0 [[Hne H] | [-> ->]]%Hce.
      * by apply (inv_conteudo_nodup s HI b0).
      * cbn. destruct (py_remove_NoDup _ _ _ Hl') as [Hnd _]; [| done].
        by apply (inv_conteudo_nodup s HI b).
    + intros b1 b2 c1 c2 r0 [[Hn1 H1] | [-> ->]]%Hce [[Hn2 H2] | [-> ->]]%Hce Hr1 Hr2.
      * by apply (inv_disjuntas s HI b1 b2 c1 c2 r0).
      * cbn in Hr2. apply Hl'in in Hr2 as [Hr2 _].
        by apply (inv_disjuntas s HI b1 b c1 c r0).
      * cbn in Hr1. apply Hl'in in Hr1 as [Hr1 _].
        by apply (inv_disjuntas s HI b b2 c c2 r0).
      * done.
Qed.

(** What a removal does in a ledger state: one of three outcomes. *)
Lemma remover_peca_casos i s :
  Inv s ->
  ((forall r p, peca_em s r p -> id p <> i)
   /\ SistemaProducao.remover_peca i s
      = (Retorna (false, "Peça não encontrada"), s))
  \/ (exists r p t' rp',
        peca_em s r p /\ id p = i /\ aprovada p = false
        /\ py_remove r (todas_pecas s) = Some t'
        /\ py_remove r (pecas_reprovadas s) = Some rp'
        /\ SistemaProducao.remover_peca i s
           = (Retorna (true, "Peça removida com sucesso"),
              mkEstado (mem_pecas s) (mem_caixas s) (pecas_aprovadas s) rp' t'
                (caixas s) (caixa_atual s) (proximo_id s)))
  \/ (exists r p t' ap' b c l' cs',
        peca_em s r p /\ id p = i /\ aprovada p = true
        /\ caixa_em s b c /\ r ∈ pecas c
        /\ py_remove r (todas_pecas s) = Some t'
        /\ py_remove r (pecas_aprovadas s) = Some ap'
        /\ py_remove r (pecas c) = Some l'
        /\ py_remove b (caixas s) = Some cs'
        /\ SistemaProducao.remover_peca i s
           = (Retorna (true, "Peça removida com sucesso"),
              apos_remover_da_caixa
                (mkEstado (mem_pecas s) (mem_caixas s) ap' (pecas_reprovadas s)
                   t' (caixas s) (caixa_atual s) (proximo_id s))
                r p b c l' cs')).
Proof.
  intros HI.
  destruct (busca_por_id_exec s i (todas_pecas s) (inv_todas s HI))
    as (o & Ho & Hspec).
  destruct o as [r |].
  2:{ left. split.
      - intros r p [Hin Hp]. by apply (Hspec r p).
      - apply remover_peca_nao_encontrada; [exact (inv_todas s HI) | done]. }
  right. destruct Hspec as (Hin & p & Hp & Hid).
  assert (Hrp : peca_em s r p) by done.
  destruct (py_remove_in _ _ Hin) as [t' Ht'].
  destruct (aprovada p) eqn:Hap.
  - right.
    destruct (inv_aprovadas s HI r p Hrp Hap) as (Hina & b & c & Hbc & Hrc).
    destruct (py_remove_in _ _ Hina) as [ap' Hap'].
    destruct (py_remove_in _ _ Hrc) as [l' Hl'].
    destruct Hbc as [Hb Hc].
    destruct (py_remove_in _ _ Hb) as [cs' Hcs'].
    exists r, p, t', ap', b, c, l', cs'.
    repeat (split; [done |]).
    destruct (list_elem_of_split _ _ Hb) as (l1 & l2 & Hsplit).
    eapply remover_peca_aprovada; try done.
    intros b' Hb'.
    assert (Hb'in : b' ∈ caixas s).
    { rewrite Hsplit. apply elem_of_app. by left. }
    destruct (inv_caixas s HI b' Hb'in) as [c' Hc']. exists c'.
    split; [done |]. intros Hr'.
    assert (b' = b) as -> by by apply (inv_disjuntas s HI b' b c' c r).
    pose proof (inv_caixas_nodup s HI) as Hnd. rewrite Hsplit in Hnd.
    apply NoDup_app in Hnd as (_ & Hnd & _). apply (Hnd b Hb'). by left.
  - left.
    pose proof (inv_reprovadas s HI r p Hrp Hap) as Hinr.
    destruct (py_remove_in _ _ Hinr) as [rp' Hrp'].
    exists r, p, t', rp'. repeat (split; [done |]).
    by apply (remover_peca_reprovada s i r p).
Qed.

Lemma Inv_remover_peca i s :
  Inv s -> Inv (snd (SistemaProducao.remover_peca i s)).
Proof.
  intros HI.
  destruct (remover_peca_casos i s HI)
    as [[_ ->] | [(r & p & t' & rp' & Hrp & _ & Hap & Ht & Hrp' & ->)
                 | (r & p & t' & ap' & b & c & l' & cs' & Hrp & _ & Hap & Hbc
                    & Hrc & Ht & Hap' & Hl' & Hcs' & ->)]]; cbn [snd].
  - done.
  - by eapply Inv_remocao_reprovada.
  - by eapply Inv_remocao_aprovada.
Qed.

(** ** Every ledger state satisfies the invariant, and no call raises *)

Lemma Inv_inicial : Inv SistemaProducao.__init__.
Proof.
  constructor; cbn.
  - intros r Hr. by apply elem_of_nil in Hr.
  - apply NoDup_nil_2.
  - intros r p [Hr _]. by apply elem_of_nil in Hr.
  - intros r1 r2 p1 p2 [Hr _]. by apply elem_of_nil in Hr.
  - intros r p [Hr _]. by apply elem_of_nil in Hr.
  - intros r p [Hr _]. by apply elem_of_nil in Hr.
  - intros b Hb. by apply elem_of_nil in Hb.
  - apply NoDup_nil_2.
  - done.
  - intros b c [Hb _]. by apply elem_of_nil in Hb.
  - intros b c r [Hb _]. by apply elem_of_nil in Hb.
  - intros b c [Hb _]. by apply elem_of_nil in Hb.
  - intros b1 b2 c1 c2 r [Hb _]. by apply elem_of_nil in Hb.
Qed.

Lemma Inv_passo op s : Inv s -> Inv (passo op s).
Proof.
  destruct op as [w c l | i]; simpl.
  - apply Inv_cadastrar_peca.
  - apply Inv_remover_peca.
Qed.

Lemma Inv_executar ops s : Inv s -> Inv (executar ops s).
Proof.
  revert s. induction ops as [| op ops IH]; intros s HI; simpl; [done |].
  by apply IH, Inv_passo.
Qed.

Lemma Inv_alcancavel s : alcancavel s -> Inv s.
Proof. intros [ops ->]. apply Inv_executar, Inv_inicial. Qed.

Lemma executar_app ops1 ops2 s :
  executar (ops1 ++ ops2) s = executar ops2 (executar ops1 s).
Proof. revert s. induction ops1 as [| op ops1 IH]; intros s; simpl; [done | apply IH]. Qed.

Lemma alcancavel_passo op s : alcancavel s -> alcancavel (passo op s).
Proof.
  intros [ops ->]. exists (ops ++ [op]). by rewrite executar_app.
Qed.

Lemma cadastrar_peca_retorna w c l s :
  Inv s ->
  exists r b m s',
    SistemaProducao.cadastrar_peca w c l s = (Retorna (r, b, m), s').
Proof.
  intros HI.
  destruct (cadastrar_peca_casos w c l s HI)
    as [[_ H] | [(_ & _ & H) | (b & cx & _ & _ & _ & _ & _ & H)]];
    rewrite H; by eexists _, _, _, _.
Qed.

Lemma remover_peca_retorna i s :
  Inv s ->
  exists b m s', SistemaProducao.remover_peca i s = (Retorna (b, m), s').
Proof.
  intros HI.
  destruct (remover_peca_casos i s HI)
    as [[_ H] | [(r & p & t' & rp' & _ & _ & _ & _ & _ & H)
                | (r & p & t' & ap' & b & c & l' & cs' & _ & _ & _ & _
                   & _ & _ & _ & _ & _ & H)]];
    rewrite H; by eexists _, _, _.
Qed.

(** ** Identity numbers of the parts *)

Lemma proximo_id_cadastrar w c l s :
  Inv s ->
  id_atribuido w c l s = Some (proximo_id s)
  /\ proximo_id (passo (Cadastrar w c l) s) = proximo_id s + 1.
Proof.
  intros HI. unfold id_atribuido, passo.
  destruct (cadastrar_peca_casos w c l s HI)
    as [[_ ->] | [(_ & _ & ->) | (b & cx & _ & _ & _ & _ & _ & ->)]];
    cbn [snd mem_pecas proximo_id]; rewrite lookup_final; cbn;
    by rewrite id_inspecionada.
Qed.

Lemma proximo_id_remover i s :
  Inv s -> proximo_id (passo (Remover i) s) = proximo_id s.
Proof.
  intros HI. unfold passo.
  destruct (remover_peca_casos i s HI)
    as [[_ ->] | [(r & p & t' & rp' & _ & _ & _ & _ & _ & ->)
                 | (r & p & t' & ap' & b & c & l' & cs' & _ & _ & _ & _
                    & _ & _ & _ & _ & _ & ->)]]; cbn [snd]; [done | done |].
  unfold apos_remover_da_caixa. by destruct (length l' =? 0)%nat.
Qed.

Lemma ids_atribuidos_desde ops s :
  Inv s ->
  ids_atribuidos ops s
  = (fun k => Some (proximo_id s + Z.of_nat k)) <$> seq 0 (n_cadastros ops).
Proof.
  revert s. induction ops as [| [w c l | i] ops IH]; intros s HI; [done | |].
  - destruct (proximo_id_cadastrar w c l s HI) as [Hid Hn].
    cbn [ids_atribuidos n_cadastros seq fmap list_fmap].
    rewrite Hid, Z.add_0_r. f_equal.
    rewrite (IH _ (Inv_passo _ _ HI)), Hn, <- seq_shift, <- list_fmap_compose.
    apply list_fmap_ext. intros _ k _. cbn. f_equal. lia.
  - cbn [ids_atribuidos n_cadastros].
    by rewrite (IH _ (Inv_passo _ _ HI)), proximo_id_remover.
Qed.

(** C5. In every run of registrations and removals from the empty ledger,
    every registration returns, and the k-th registration gives its part
    the id k: the ids given are 1, 2, ..., N in this order, whatever was
    removed in between, so no id is given twice. *)
Theorem ids_sequenciais (ops : list Operacao) :
  ids_atribuidos ops SistemaProducao.__init__
  = (fun k => Some (Z.of_nat k)) <$> seq 1 (n_cadastros ops).
Proof.
  rewrite (ids_atribuidos_desde _ _ Inv_inicial), <- seq_shift,
    <- list_fmap_compose.
  apply list_fmap_ext. intros _ k _. cbn [SistemaProducao.__init__ proximo_id compose].
  f_equal. lia.
Qed.

(** ** Removal *)

(** C6. In every ledger state, removing an id that no part of the master
    list carries returns the failure result and leaves the whole state as
    it was: the three lists, the box sequence, every box, the current box
    and the next-id counter. *)
Theorem remover_peca_inexistente (s : Estado) (i : Z) :
  alcancavel s ->
  (forall r p, r ∈ todas_pecas s -> mem_pecas s !! r = Some p -> id p <> i) ->
  SistemaProducao.remover_peca i s = (Retorna (false, "Peça não encontrada"), s).
Proof.
  intros Hs Hne. apply Inv_alcancavel in Hs.
  apply remover_peca_nao_encontrada; [exact (inv_todas s Hs) | exact Hne].
Qed.

(** C4. In every ledger state, removing by id a part stored in a box
    succeeds and leaves that box with one part less (the removed part is
    taken out, the others stay in order) and with its closed flag false; a
    box that was closed stays in the box sequence, reopened.  If the part
    was the only one of its box, the box is deleted from the box sequence,
    and if it was the current box, the current box becomes the last box of
    the sequence, or none when the sequence is left empty. *)
Theorem remover_peca_de_caixa (s : Estado) (i : Z) (r : nat) (p : ObjPeca)
    (b : nat) (c : ObjCaixa) :
  alcancavel s ->
  peca_em s r p -> id p = i ->
  caixa_em s b c -> (r ∈ pecas c) ->
  exists s' c',
    SistemaProducao.remover_peca i s
    = (Retorna (true, "Peça removida com sucesso"), s')
    /\ mem_caixas s' !! b = Some c'
    /\ fechada c' = false
    /\ numero c' = numero c
    /\ py_remove r (pecas c) = Some (pecas c')
    /\ length (pecas c) = S (length (pecas c'))
    /\ (fechada c = true -> b ∈ caixas s')
    /\ (length (pecas c) <> 1%nat ->
        caixas s' = caixas s /\ caixa_atual s' = caixa_atual s)
    /\ (length (pecas c) = 1%nat ->
        py_remove b (caixas s) = Some (caixas s')
        /\ (b ∉ caixas s')
        /\ (caixa_atual s = Some b -> caixa_atual s' = last (caixas s'))
        /\ (caixa_atual s <> Some b -> caixa_atual s' = caixa_atual s)
        /\ (caixas s = [b] -> caixas s' = [] /\ caixa_atual s' = None)).
Proof.
  intros Hs Hrp Hid Hbc Hrc. apply Inv_alcancavel in Hs as HI.
  destruct (remover_peca_casos i s HI)
    as [[Hne _] | [(r0 & p0 & t' & rp' & Hrp0 & Hid0 & Hap0 & _)
                  | (r0 & p0 & t' & ap' & b0 & c0 & l' & cs' & Hrp0 & Hid0 & Hap0
                     & Hbc0 & Hrc0 & Ht & Hap' & Hl' & Hcs' & Hex)]].
  - by destruct (Hne r p).
  - assert (r0 = r) as -> by (apply (inv_ids_distintos s HI r0 r p0 p); congruence).
    destruct (inv_conteudo s HI b c r Hbc Hrc) as (p' & [_ Hp'] & Ha).
    destruct Hrp0 as [_ Hp0]. congruence.
  - assert (r0 = r) as -> by (apply (inv_ids_distintos s HI r0 r p0 p); congruence).
    assert (b0 = b) as -> by by apply (inv_disjuntas s HI b0 b c0 c r).
    assert (c0 = c) as -> by (destruct Hbc0, Hbc; congruence).
    assert (p0 = p) as -> by (destruct Hrp0, Hrp; congruence).
    pose proof (py_remove_length _ _ _ Hl') as Hlen.
    destruct Hbc as [Hb Hc]. pose proof (lookup_lt_Some _ _ _ Hc) as Hblt.
    destruct (py_remove_NoDup _ _ _ Hcs' (inv_caixas_nodup s HI)) as [_ Hbnot].
    rewrite Hex. unfold apos_remover_da_caixa. simpl_estado.
    destruct (length l' =? 0)%nat eqn:E.
    + apply Nat.eqb_eq in E.
      eexists _, (mkCaixa (numero c) l' false). split; [reflexivity |].
      cbn. split; [by apply list_lookup_insert_eq |].
      repeat (split; [done |]).
      split.
      { intros Hf. destruct (inv_capacidade s HI b c) as [_ Hiff]; [done |].
        apply Hiff in Hf. lia. }
      split; [intros; lia |]. intros _.
      split; [done |]. split; [done |].
      split; [intros Hat; by rewrite bool_decide_eq_true_2 |].
      split; [intros Hat; by rewrite bool_decide_eq_false_2 |].
      intros Hcs. rewrite Hcs in Hcs'. cbn in Hcs'.
      destruct (decide (b = b)); [| done]. injection Hcs' as <-.
      split; [done |]. case_bool_decide as Hat; [done |].
      destruct (caixa_atual s) as [b1 |] eqn:Hb1; [| done].
      pose proof (inv_caixa_atual s HI b1 Hb1) as Hin. rewrite Hcs in Hin.
      apply list_elem_of_singleton in Hin. congruence.
    + apply Nat.eqb_neq in E.
      eexists _, (mkCaixa (numero c) l' false). split; [reflexivity |].
      cbn. split; [by apply list_lookup_insert_eq |].
      split_and!; try done; intros; lia.
Qed.

(** ** Registration *)

(** C10. In every ledger state a registration returns a new part, appends
    it to the end of the master list and to the end of exactly one of the
    derived lists, and leaves the rest as it was: every object the store
    held before keeps all its attributes (so every part registered before
    keeps its id, weight, colour, length, verdict, reasons and box
    reference, and none is removed or moved), the other derived list is
    untouched, the box sequence keeps its boxes in order and gains at most
    one new box at its end, and every box of the sequence that does not
    receive the new part keeps its number, contents and closed flag; the
    box that receives it is the current box, with the part added at the
    end. *)
Theorem cadastrar_peca_preserva (s : Estado) (w : Numero) (c : string) (l : Numero) :
  alcancavel s ->
  let r := length (mem_pecas s) in
  exists ok m s',
    SistemaProducao.cadastrar_peca w c l s = (Retorna (r, ok, m), s')
    /\ mem_pecas s !! r = None
    /\ (exists p, mem_pecas s' !! r = Some p /\ aprovada p = ok)
    /\ todas_pecas s' = todas_pecas s ++ [r]
    /\ (ok = true /\ pecas_aprovadas s' = pecas_aprovadas s ++ [r]
                  /\ pecas_reprovadas s' = pecas_reprovadas s
        \/ ok = false /\ pecas_reprovadas s' = pecas_reprovadas s ++ [r]
                      /\ pecas_aprovadas s' = pecas_aprovadas s)
    /\ (forall r0 p0, mem_pecas s !! r0 = Some p0 -> mem_pecas s' !! r0 = Some p0)
    /\ (forall b0 c0, caixa_em s b0 c0 ->
          exists c0', caixa_em s' b0 c0'
                      /\ numero c0' = numero c0
                      /\ ((r ∉ pecas c0') -> c0' = c0)
                      /\ ((r ∈ pecas c0') ->
                          caixa_atual s = Some b0 /\ pecas c0' = pecas c0 ++ [r]))
    /\ (caixas s' = caixas s
        \/ exists nb, caixas s' = caixas s ++ [nb] /\ mem_caixas s !! nb = None).
Proof.
  intros Hs r. apply Inv_alcancavel in Hs as HI.
  assert (Hfresh : mem_pecas s !! r = None) by (apply lookup_ge_None; unfold r; lia).
  assert (Hfora : forall b0 c0, caixa_em s b0 c0 -> r ∉ pecas c0).
  { intros b0 c0 H. by apply (nova_ref_fora_das_caixas s b0). }
  destruct (cadastrar_peca_casos w c l s HI)
    as [[Hap ->] | [(Hap & _ & ->) | (b & cx & Hap & Hat & Hcx & Hf & Hlen & ->)]];
    fold r.
  - eexists false, _, _. split; [reflexivity |]. cbn.
    split; [done |].
    split; [eexists; split; [apply lookup_final | by rewrite aprovada_inspecionada] |].
    split; [done |]. split; [by right |].
    split; [intros; by apply lookup_app_l_Some |].
    split; [| by left].
    intros b0 c0 Hc0. exists c0. split; [done |]. split; [done |].
    split; [done |]. intros Hin. by destruct (Hfora b0 c0).
  - eexists true, _, _. split; [reflexivity |]. cbn.
    split; [done |].
    split; [eexists; split; [apply lookup_final | cbn; by rewrite aprovada_inspecionada] |].
    split; [done |]. split; [by left |].
    split; [intros; by apply lookup_app_l_Some |].
    split.
    2:{ right. eexists. split; [done |]. by apply lookup_ge_None. }
    intros b0 c0 [Hb0 Hc0]. exists c0. split.
    { split; cbn; [apply elem_of_app; by left | by apply lookup_app_l_Some]. }
    split; [done |]. split; [done |].
    intros Hin. by destruct (Hfora b0 c0).
  - eexists true, _, _. split; [reflexivity |]. cbn.
    split; [done |].
    split; [eexists; split; [apply lookup_final | cbn; by rewrite aprovada_inspecionada] |].
    split; [done |]. split; [by left |].
    split; [intros; by apply lookup_app_l_Some |].
    split; [| by left].
    intros b0 c0 [Hb0 Hc0]. destruct (decide (b0 = b)) as [-> | Hne].
    + rewrite Hcx in Hc0. injection Hc0 as <-.
      eexists. split.
      { split; cbn; [done |]. apply list_lookup_insert_eq.
        by eapply lookup_lt_Some. }
      cbn. split; [done |]. split; [| done].
      intros Hnot. exfalso. apply Hnot, elem_of_app. right.
      by apply list_elem_of_singleton.
    + exists c0. split.
      { split; cbn; [done |]. by rewrite list_lookup_insert_ne. }
      split; [done |]. split; [done |].
      intros Hin. by destruct (Hfora b0 c0).
Qed.

(** ** Ten approved parts fill one box *)

Lemma aprovavel_init n w c l :
  passa_na_inspecao (w, c, l) -> aprovavel (Peca.__init__ n w c l) = true.
Proof.
  intros (Hw & Hc & Hl). apply aprovavel_iff. cbn.
  split; [by left |]. split; [by apply cor_permitida_lower | by left].
Qed.

Lemma inspecionada_aprovada p : aprovavel p = true -> inspecionada p = set_aprovada true p.
Proof. unfold inspecionada. by intros ->. Qed.

Lemma passo_aprovada_nova w c l s :
  passa_na_inspecao (w, c, l) ->
  (caixa_atual s = None
   \/ exists b cx, caixa_atual s = Some b /\ mem_caixas s !! b = Some cx
                   /\ (10 <= length (pecas cx))%nat) ->
  let num := Z.of_nat (length (caixas s)) + 1 in
  passo (Cadastrar w c l) s
  = mkEstado
      (mem_pecas s ++ [mkPeca (proximo_id s) w (lower c) l true [] (Some num)])
      (mem_caixas s ++ [mkCaixa num [length (mem_pecas s)] false])
      (pecas_aprovadas s ++ [length (mem_pecas s)]) (pecas_reprovadas s)
      (todas_pecas s ++ [length (mem_pecas s)])
      (caixas s ++ [length (mem_caixas s)])
      (Some (length (mem_caixas s))) (proximo_id s + 1).
Proof.
  intros Hok Hat num. pose proof (aprovavel_init (proximo_id s) _ _ _ Hok) as Hap.
  unfold passo. rewrite cadastrar_peca_nova_caixa by done.
  cbn [snd]. by rewrite inspecionada_aprovada.
Qed.

Lemma passo_aprovada_atual w c l s b cx :
  passa_na_inspecao (w, c, l) ->
  caixa_atual s = Some b ->
  mem_caixas s !! b = Some cx ->
  fechada cx = false ->
  (length (pecas cx) < 10)%nat ->
  passo (Cadastrar w c l) s
  = mkEstado
      (mem_pecas s
       ++ [mkPeca (proximo_id s) w (lower c) l true [] (Some (numero cx))])
      (<[b := mkCaixa (numero cx) (pecas cx ++ [length (mem_pecas s)])
                (length (pecas cx) + 1 =? 10)%nat]> (mem_caixas s))
      (pecas_aprovadas s ++ [length (mem_pecas s)]) (pecas_reprovadas s)
      (todas_pecas s ++ [length (mem_pecas s)])
      (caixas s) (Some b) (proximo_id s + 1).
Proof.
  intros Hok Hat Hcx Hf Hlen.
  pose proof (aprovavel_init (proximo_id s) _ _ _ Hok) as Hap.
  unfold passo. erewrite cadastrar_peca_caixa_atual by done.
  cbn [snd]. by rewrite inspecionada_aprovada.
Qed.

Lemma executar_cons op ops s :
  executar (op :: ops) s = executar ops (passo op s).
Proof. reflexivity. Qed.

Ltac passo_na_caixa_atual :=
  rewrite executar_cons;
  erewrite passo_aprovada_atual;
    [ | eassumption | reflexivity | reflexivity | reflexivity | cbn; lia ];
  cbn -[lower executar passo].

(** C2. Starting from the empty ledger, after registering ten parts that
    all pass the inspection, with nothing in between, there is exactly one
    box; it is closed; its parts are the ten parts, in registration order
    (ids 1 to 10, with the attributes given).  Registering an eleventh
    passing part creates a second box, which holds that part alone and
    becomes the current box, and leaves the first box as it is. *)
Theorem dez_aprovadas_fecham_uma_caixa (args : list (Numero * string * Numero)) :
  length args = 10%nat ->
  Forall passa_na_inspecao args ->
  let s := executar (cadastros args) SistemaProducao.__init__ in
  exists b c,
    caixas s = [b]
    /\ mem_caixas s !! b = Some c
    /\ fechada c = true
    /\ pecas c = todas_pecas s
    /\ dados_da_peca s <$> pecas c
       = imap (fun k '(w, c, l) => Some (Z.of_nat (S k), w, lower c, l)) args
    /\ forall w c' l,
         passa_na_inspecao (w, c', l) ->
         let s2 := passo (Cadastrar w c' l) s in
         exists b2 c2 r,
           caixas s2 = [b; b2] /\ b2 <> b
           /\ mem_caixas s2 !! b2 = Some c2
           /\ pecas c2 = [r]
           /\ todas_pecas s2 = todas_pecas s ++ [r]
           /\ dados_da_peca s2 r = Some (11, w, lower c', l)
           /\ mem_caixas s2 !! b = Some c
           /\ caixa_atual s2 = Some b2.
Proof.
  intros Hlen Hall.
  do 10 (destruct args as [| [[? ?] ?] args]; [discriminate |]).
  destruct args; [| discriminate]. clear Hlen.
  repeat match goal with
         | H : Forall _ (_ :: _) |- _ => apply Forall_cons in H as [? H]
         end.
  cbn [cadastros map].
  rewrite executar_cons.
  erewrite passo_aprovada_nova; [| eassumption | by left]. cbn -[lower executar passo].
  do 9 passo_na_caixa_atual. cbn [executar].
  eexists 0%nat, _. split; [reflexivity |]. split; [reflexivity |].
  split; [reflexivity |]. split; [reflexivity |]. split; [reflexivity |].
  intros w c' l Hok.
  rewrite passo_aprovada_nova; [| done |].
  2:{ right. eexists _, _. split; [reflexivity |]. split; [reflexivity |].
      cbn. lia. }
  cbn -[lower]. eexists 1%nat, _, _.
  split; [reflexivity |]. split; [done |].
  repeat (split; [reflexivity |]). reflexivity.
Qed.

(** ** Box numbers *)

(** No call changes the number of a box object. *)
Lemma numero_da_caixa_nao_muda op s b c :
  Inv s ->
  mem_caixas s !! b = Some c ->
  exists c', mem_caixas (passo op s) !! b = Some c' /\ numero c' = numero c.
Proof.
  intros HI Hc. pose proof (lookup_lt_Some _ _ _ Hc) as Hlt.
  destruct op as [w cor l | i]; unfold passo.
  - destruct (cadastrar_peca_casos w cor l s HI)
      as [[_ ->] | [(_ & _ & ->) | (b0 & cx & _ & _ & Hcx & _ & _ & ->)]];
      cbn [snd mem_caixas].
    + by exists c.
    + exists c. split; [by apply lookup_app_l_Some | done].
    + destruct (decide (b0 = b)) as [-> | Hne].
      * eexists. split; [by apply list_lookup_insert_eq |]. cbn. congruence.
      * exists c. split; [by rewrite list_lookup_insert_ne | done].
  - destruct (remover_peca_casos i s HI)
      as [[_ ->] | [(r & p & t' & rp' & _ & _ & _ & _ & _ & ->)
                   | (r & p & t' & ap' & b0 & c0 & l' & cs' & _ & _ & _ & [_ Hc0]
                      & _ & _ & _ & _ & _ & ->)]]; cbn [snd mem_caixas].
    + by exists c.
    + by exists c.
    + assert (Hm : mem_caixas
                     (apos_remover_da_caixa
                        (mkEstado (mem_pecas s) (mem_caixas s) ap'
                           (pecas_reprovadas s) t' (caixas s) (caixa_atual s)
                           (proximo_id s)) r p b0 c0 l' cs')
                   = <[b0 := mkCaixa (numero c0) l' false]> (mem_caixas s)).
      { unfold apos_remover_da_caixa. by destruct (length l' =? 0)%nat. }
      rewrite Hm. destruct (decide (b0 = b)) as [-> | Hne].
      * eexists. split; [by apply list_lookup_insert_eq |]. cbn. congruence.
      * exists c. split; [by rewrite list_lookup_insert_ne | done].
Qed.

(** C3 (the code departs from the specification). Every box gets the
    number [len(self.caixas) + 1] when it is created, and no call changes
    it afterwards.  After a box that is not the last one has been deleted,
    the next box created repeats the number of a box still in the
    sequence: in this run the sequence ends with two boxes numbered 2. *)
Theorem numeros_de_caixa_repetidos :
  numeros_das_caixas (executar roteiro_caixa_apagada SistemaProducao.__init__)
  = [Some 2; Some 2].
Proof. vm_compute. reflexivity. Qed.

(** ** The batch importer *)

(** C7 (the code departs from the specification). A header that spells the field
    names with capitals passes the header check, but every row is then
    read under the lower-case keys and reported as missing a column:
    nothing is processed, whereas the same row under the lower-case header
    is registered and approved. *)
Theorem cabecalho_em_maiusculas_perde_linhas :
  SistemaProducao.processar_lote_csv float_decimal
    (Some (mkLeitor [["Peso"; "Cor"; "Comprimento"]; ["100"; "azul"; "15"]]
             None))
    SistemaProducao.__init__
  = (Retorna (0, 0, 0, [ColunaAusente 2 (KeyError "peso")]),
     SistemaProducao.__init__)
  /\ fst (SistemaProducao.processar_lote_csv float_decimal
            (Some (mkLeitor
                     [["peso"; "cor"; "comprimento"]; ["100"; "azul"; "15"]]
                     None))
            SistemaProducao.__init__)
     = Retorna (1, 1, 0, []).
Proof. split; vm_compute; reflexivity. Qed.

Lemma processa_linha_retorna float fieldnames n row acc s :
  exists acc' s',
    SistemaProducao.processa_linha float fieldnames n row acc s
    = (Retorna acc', s').
Proof.
  destruct acc as [[[t a] r] e]. unfold SistemaProducao.processa_linha, tenta.
  match goal with
  | |- context [match ?m s with _ => _ end] => destruct (m s) as [[x | ex] s']
  end.
  - by eexists _, _.
  - destruct ex; by eexists _, _.
Qed.

Lemma processa_linhas_retorna float fieldnames rows :
  forall n acc s,
  exists acc' s',
    SistemaProducao.processa_linhas float fieldnames n rows acc s
    = (Retorna acc', s').
Proof.
  induction rows as [| row rows IH]; intros n acc s; [by eexists _, _ |].
  cbn [SistemaProducao.processa_linhas].
  destruct (processa_linha_retorna float fieldnames n row acc s)
    as (acc1 & s1 & H1).
  rewrite (bind_exec _ _ _ _ _ H1). apply IH.
Qed.

Lemma processa_linhas_app float fieldnames rows1 rows2 :
  forall n acc s acc1 s1,
  SistemaProducao.processa_linhas float fieldnames n rows1 acc s
  = (Retorna acc1, s1) ->
  SistemaProducao.processa_linhas float fieldnames n (rows1 ++ rows2) acc s
  = SistemaProducao.processa_linhas float fieldnames
      (n + Z.of_nat (length rows1)) rows2 acc1 s1.
Proof.
  induction rows1 as [| row rows1 IH]; intros n acc s acc1 s1 H.
  - cbn in H. injection H as <- <-. cbn. by rewrite Z.add_0_r.
  - cbn [SistemaProducao.processa_linhas app] in H |- *.
    destruct (processa_linha_retorna float fieldnames n row acc s)
      as (acc0 & s0 & H0).
    rewrite (bind_exec _ _ _ _ _ H0) in H. rewrite (bind_exec _ _ _ _ _ H0).
    rewrite (IH _ _ _ _ _ H). f_equal. cbn [length]. lia.
Qed.

Lemma cabecalho_valido_aceito fieldnames :
  cabecalho_valido fieldnames ->
  forallb (fun c => bool_decide (c ∈ map (fun col => strip (lower col)) fieldnames))
          SistemaProducao.colunas_necessarias = true.
Proof.
  intros H. apply forallb_forall. intros nome Hin.
  apply bool_decide_eq_true. apply list_elem_of_In in Hin.
  destruct (H nome Hin) as (col & Hcol & <-).
  apply list_elem_of_In.
  apply (in_map (fun col0 => strip (lower col0))). by apply list_elem_of_In.
Qed.

(** A row whose weight or length is rejected by [float]: one error tagged
    with the row number, the counters and the state as they were. *)
Lemma processa_linha_invalida float fieldnames n row t a r erros s :
  peso_invalido float fieldnames row
  \/ comprimento_invalido float fieldnames row ->
  exists e,
    SistemaProducao.processa_linha float fieldnames n row (t, a, r, erros) s
    = (Retorna (t, a, r, erros ++ [e]), s)
    /\ linha_do_erro e = Some n
    /\ (peso_invalido float fieldnames row -> e = DadosInvalidos n ValueError).
Proof.
  intros Hinv.
  unfold SistemaProducao.processa_linha, tenta, bind,
    SistemaProducao.campo, SistemaProducao.py_float, levanta, ret.
  destruct (dict_linha fieldnames row "peso") as [[vp |] |] eqn:Ep.
  2:{ eexists. split; [reflexivity |]. split; [done |].
      intros (v & Hv & _). congruence. }
  2:{ eexists. split; [reflexivity |]. split; [done |].
      intros (v & Hv & _). congruence. }
  destruct (float (strip vp)) as [x |] eqn:Ex.
  2:{ eexists. split; [reflexivity |]. done. }
  assert (Hnp : ~ peso_invalido float fieldnames row).
  { intros (v & Hv & Hf). congruence. }
  destruct Hinv as [Hinv | (vl & Hvl & Hfl)]; [done |].
  rewrite Hvl, Hfl.
  destruct (dict_linha fieldnames row "cor") as [[vc |] |] eqn:Ec;
    (eexists; split; [reflexivity |]; done).
Qed.

(** C8. In a batch whose header holds the three field names, a data row
    whose weight or length is rejected by [float] adds exactly one entry to
    the error list, tagged with the row's number (the first data row is
    row 2); it registers no part, changes none of the counters, and the
    rows after it are processed from the state and the counters the rows
    before it left (and the reading ends as it would have: at the end of
    the file, or at the exception that interrupts the reader after these
    rows).  A row whose three fields are read reaches the registration, and
    [total_processadas] grows by one whether the part is approved or
    rejected. *)
Theorem linha_invalida_isolada (float : string -> option Numero)
    (fieldnames : list string) (pre : list (list string)) (row : list string)
    (post : list (list string)) (falha : option Excecao) (s : Estado) :
  cabecalho_valido fieldnames ->
  row <> [] ->
  peso_invalido float fieldnames row
  \/ comprimento_invalido float fieldnames row ->
  let n := 2 + Z.of_nat (length (linhas_de_dados pre)) in
  exists t a r erros s1 e,
    SistemaProducao.processa_linhas float fieldnames 2 (linhas_de_dados pre)
      (0, 0, 0, []) s
    = (Retorna (t, a, r, erros), s1)
    /\ SistemaProducao.processa_linha float fieldnames n row (t, a, r, erros) s1
       = (Retorna (t, a, r, erros ++ [e]), s1)
    /\ linha_do_erro e = Some n
    /\ (peso_invalido float fieldnames row -> e = DadosInvalidos n ValueError)
    /\ SistemaProducao.processar_lote_csv float
         (Some (mkLeitor (fieldnames :: pre ++ row :: post) falha)) s
       = (acc <- SistemaProducao.processa_linhas float fieldnames (n + 1)
                   (linhas_de_dados post) (t, a, r, erros ++ [e]) ;;
          SistemaProducao.fim_da_leitura falha acc) s1
    /\ forall s0 n0 row0 t0 a0 r0 erros0 vp x vc vl y,
         alcancavel s0 ->
         dict_linha fieldnames row0 "peso" = Some (Some vp) ->
         float (strip vp) = Some x ->
         dict_linha fieldnames row0 "cor" = Some (Some vc) ->
         dict_linha fieldnames row0 "comprimento" = Some (Some vl) ->
         float (strip vl) = Some y ->
         exists peca ok m s0',
           SistemaProducao.cadastrar_peca x (strip vc) y s0
           = (Retorna (peca, ok, m), s0')
           /\ SistemaProducao.processa_linha float fieldnames n0 row0
                (t0, a0, r0, erros0) s0
              = (Retorna (t0 + 1,
                          (if ok then a0 + 1 else a0),
                          (if ok then r0 else r0 + 1),
                          erros0), s0').
Proof.
  intros Hcab Hrow Hinv n.
  destruct (processa_linhas_retorna float fieldnames (linhas_de_dados pre)
              2 (0, 0, 0, []) s) as ([[[t a] r] erros] & s1 & Hpre).
  destruct (processa_linha_invalida float fieldnames n row t a r erros s1 Hinv)
    as (e & He & Hn & Hpeso).
  exists t, a, r, erros, s1, e.
  split; [done |]. split; [done |]. split; [done |]. split; [done |].
  split.
  - unfold SistemaProducao.processar_lote_csv. cbn [registros interrupcao].
    rewrite (cabecalho_valido_aceito _ Hcab). cbn [negb].
    fold (linhas_de_dados (pre ++ row :: post)).
    unfold linhas_de_dados at 1. rewrite filter_app, filter_cons_True by done.
    fold (linhas_de_dados pre) (linhas_de_dados post).
    unfold bind at 1.
    rewrite (processa_linhas_app _ _ _ _ _ _ _ _ _ Hpre).
    cbn [SistemaProducao.processa_linhas]. fold n.
    rewrite (bind_exec _ _ _ _ _ He). reflexivity.
  - intros s0 n0 row0 t0 a0 r0 erros0 vp x vc vl y Hs0 Hp Hx Hc Hl Hy.
    destruct (cadastrar_peca_retorna x (strip vc) y s0 (Inv_alcancavel _ Hs0))
      as (peca & ok & m & s0' & Hcad).
    exists peca, ok, m, s0'. split; [done |].
    unfold SistemaProducao.processa_linha, tenta, bind,
      SistemaProducao.campo, SistemaProducao.py_float, ret.
    rewrite Hp, Hx, Hc, Hl, Hy, Hcad. cbn. by destruct ok.
Qed.

(** ** The theorems at concrete runs *)

Lemma passa_na_inspecao_exemplo : passa_na_inspecao (Finito 100, "azul", Finito 15).
Proof.
  split; [| split].
  - split; unfold Qle; cbn; lia.
  - apply cor_permitida_lower. cbn. constructor.
  - split; unfold Qle; cbn; lia.
Defined.

(** Ten approved parts from the empty ledger. *)
Lemma dez_aprovadas_fecham_uma_caixa_exemplo :
  let args := replicate 10 (Finito 100, "azul", Finito 15) in
  let s := executar (cadastros args) SistemaProducao.__init__ in
  length args = 10%nat
  /\ Forall passa_na_inspecao args
  /\ exists b c,
       caixas s = [b] /\ mem_caixas s !! b = Some c /\ fechada c = true
       /\ pecas c = todas_pecas s.
Proof.
  intros args s.
  assert (Hlen : length args = 10%nat) by reflexivity.
  assert (Hall : Forall passa_na_inspecao args).
  { apply Forall_replicate. exact passa_na_inspecao_exemplo. }
  split; [exact Hlen |]. split; [exact Hall |].
  destruct (dez_aprovadas_fecham_uma_caixa args Hlen Hall)
    as (b & c & H1 & H2 & H3 & H4 & _).
  exists b, c. repeat split; assumption.
Defined.

(** Removing part 3 from the closed box of ten. *)
Lemma remover_peca_de_caixa_exemplo :
  let s := executar (replicate 10 (Cadastrar 100 "azul" 15))
             SistemaProducao.__init__ in
  let p := mkPeca 3 100 "azul" 15 true [] (Some 1) in
  let c := mkCaixa 1 [0; 1; 2; 3; 4; 5; 6; 7; 8; 9]%nat true in
  alcancavel s
  /\ peca_em s 2%nat p /\ id p = 3
  /\ caixa_em s 0%nat c /\ (2%nat ∈ pecas c)
  /\ exists s' c',
       SistemaProducao.remover_peca 3 s
       = (Retorna (true, "Peça removida com sucesso"), s')
       /\ mem_caixas s' !! 0%nat = Some c'
       /\ fechada c' = false
       /\ length (pecas c) = S (length (pecas c'))
       /\ (0%nat ∈ caixas s').
Proof.
  intros s p c.
  assert (Hs : alcancavel s) by (eexists; reflexivity).
  assert (Hp : peca_em s 2%nat p)
    by (split; [vm_compute; repeat constructor | vm_compute; reflexivity]).
  assert (Hc : caixa_em s 0%nat c)
    by (split; [vm_compute; repeat constructor | vm_compute; reflexivity]).
  assert (Hin : 2%nat ∈ pecas c) by (vm_compute; repeat constructor).
  split; [exact Hs |]. split; [exact Hp |]. split; [reflexivity |].
  split; [exact Hc |]. split; [exact Hin |].
  destruct (remover_peca_de_caixa s 3 2%nat p 0%nat c Hs Hp eq_refl Hc Hin)
    as (s' & c' & H1 & H2 & H3 & _ & _ & H6 & H7 & _).
  exists s', c'. repeat split; try assumption. by apply H7.
Defined.

(** Removing an id that was never given. *)
Lemma remover_peca_inexistente_exemplo :
  let s := executar [Cadastrar 100 "azul" 15; Cadastrar 200 "roxo" 5]
             SistemaProducao.__init__ in
  alcancavel s
  /\ (forall r p, r ∈ todas_pecas s -> mem_pecas s !! r = Some p -> id p <> 7)
  /\ SistemaProducao.remover_peca 7 s
     = (Retorna (false, "Peça não encontrada"), s).
Proof.
  intros s.
  assert (Hs : alcancavel s) by (eexists; reflexivity).
  assert (Ht : todas_pecas s = [0; 1]%nat) by (vm_compute; reflexivity).
  assert (Hne : forall r p,
            r ∈ todas_pecas s -> mem_pecas s !! r = Some p -> id p <> 7).
  { intros r p Hr Hp. rewrite Ht in Hr.
    apply elem_of_cons in Hr as [-> | Hr].
    - vm_compute in Hp. injection Hp as <-. discriminate.
    - apply list_elem_of_singleton in Hr as ->.
      vm_compute in Hp. injection Hp as <-. discriminate. }
  split; [exact Hs |]. split; [exact Hne |].
  exact (remover_peca_inexistente s 7 Hs Hne).
Defined.

(** A registration in a ledger that holds a closed box of ten parts, an
    open box with one part and a rejected part: the new part goes to the
    open box; the closed box and the rejected part are as before. *)
Lemma cadastrar_peca_preserva_exemplo :
  let s := executar (replicate 11 (Cadastrar 100 "azul" 15)
                     ++ [Cadastrar 200 "roxo" 5])
             SistemaProducao.__init__ in
  let cheia := mkCaixa 1 [0; 1; 2; 3; 4; 5; 6; 7; 8; 9]%nat true in
  let rejeitada :=
    mkPeca 12 200 "roxo" 5 false
      [PesoForaDoPadrao 200; CorInvalida "roxo"; ComprimentoForaDoPadrao 5]
      None in
  alcancavel s
  /\ caixa_em s 0%nat cheia
  /\ mem_pecas s !! 11%nat = Some rejeitada
  /\ exists ok m s',
       SistemaProducao.cadastrar_peca 101 "Verde" 12 s
       = (Retorna (12%nat, ok, m), s')
       /\ todas_pecas s' = todas_pecas s ++ [12%nat]
       /\ (ok = true /\ pecas_aprovadas s' = pecas_aprovadas s ++ [12%nat]
                     /\ pecas_reprovadas s' = pecas_reprovadas s
           \/ ok = false /\ pecas_reprovadas s' = pecas_reprovadas s ++ [12%nat]
                         /\ pecas_aprovadas s' = pecas_aprovadas s)
       /\ mem_pecas s' !! 11%nat = Some rejeitada
       /\ caixa_em s' 0%nat cheia.
Proof.
  intros s cheia rejeitada.
  assert (Hs : alcancavel s) by (eexists; reflexivity).
  assert (Hc : caixa_em s 0%nat cheia)
    by (split; [vm_compute; repeat constructor | vm_compute; reflexivity]).
  assert (Hr : mem_pecas s !! 11%nat = Some rejeitada)
    by (vm_compute; reflexivity).
  assert (Hat : caixa_atual s = Some 1%nat) by (vm_compute; reflexivity).
  split; [exact Hs |]. split; [exact Hc |]. split; [exact Hr |].
  destruct (cadastrar_peca_preserva s 101 "Verde" 12 Hs)
    as (ok & m & s' & H1 & _ & _ & H4 & H5 & H6 & H7 & _).
  exists ok, m, s'.
  split; [exact H1 |]. split; [exact H4 |]. split; [exact H5 |].
  split; [exact (H6 _ _ Hr) |].
  destruct (H7 _ _ Hc) as (c' & Hc' & _ & Hfora & Hdentro).
  destruct (decide (length (mem_pecas s) ∈ pecas c')) as [Hin | Hnot].
  - destruct (Hdentro Hin) as [Habs _]. rewrite Hat in Habs. discriminate.
  - by rewrite <- (Hfora Hnot).
Defined.

(** A batch whose second data row has the weight "abc". *)
Lemma linha_invalida_isolada_exemplo :
  let fieldnames := ["peso"; "cor"; "comprimento"] in
  let pre := [["100"; "azul"; "15"]] in
  let row := ["abc"; "azul"; "15"] in
  let post := [["200"; "azul"; "15"]] in
  cabecalho_valido fieldnames
  /\ row <> []
  /\ peso_invalido float_decimal fieldnames row
  /\ exists t a r erros s1 e,
       SistemaProducao.processa_linhas float_decimal fieldnames 2
         (linhas_de_dados pre) (0, 0, 0, []) SistemaProducao.__init__
       = (Retorna (t, a, r, erros), s1)
       /\ e = DadosInvalidos 3 ValueError
       /\ SistemaProducao.processar_lote_csv float_decimal
            (Some (mkLeitor (fieldnames :: pre ++ row :: post) None))
            SistemaProducao.__init__
          = (acc <- SistemaProducao.processa_linhas float_decimal fieldnames 4
                      (linhas_de_dados post) (t, a, r, erros ++ [e]) ;;
             SistemaProducao.fim_da_leitura None acc) s1.
Proof.
  intros fieldnames pre row post.
  assert (Hcab : cabecalho_valido fieldnames).
  { intros nome Hin. exists nome. split; [exact Hin |].
    apply elem_of_cons in Hin as [-> | Hin]; [vm_compute; reflexivity |].
    apply elem_of_cons in Hin as [-> | Hin]; [vm_compute; reflexivity |].
    apply list_elem_of_singleton in Hin as ->. vm_compute. reflexivity. }
  assert (Hrow : row <> []) by discriminate.
  assert (Hpeso : peso_invalido float_decimal fieldnames row).
  { exists "abc". split; vm_compute; reflexivity. }
  split; [exact Hcab |]. split; [exact Hrow |]. split; [exact Hpeso |].
  destruct (linha_invalida_isolada float_decimal fieldnames pre row post
              None SistemaProducao.__init__ Hcab Hrow (or_introl Hpeso))
    as (t & a & r & erros & s1 & e & H1 & _ & _ & H4 & H5 & _).
  exists t, a, r, erros, s1, e.
  split; [exact H1 |]. split; [exact (H4 Hpeso) |]. exact H5.
Defined.

(** * Further properties of the ledger *)

(** ** Lists *)

Lemma filter_ext_elem_of {A} (P1 P2 : A -> Prop)
    `{!forall x, Decision (P1 x), !forall x, Decision (P2 x)} (l : list A) :
  (forall x, x ∈ l -> P1 x <-> P2 x) -> filter P1 l = filter P2 l.
Proof.
  induction l as [| a l IH]; intros Hext; [done |].
  assert (Hl : filter P1 l = filter P2 l).
  { apply IH. intros x Hx. apply Hext. by right. }
  destruct (decide (P1 a)) as [Ha | Ha].
  - rewrite !filter_cons_True; [by rewrite Hl | | done].
    apply Hext; [by left | done].
  - rewrite !filter_cons_False; [done | | done].
    intros Ha2. apply Ha, Hext; [by left | done].
Qed.

Lemma py_remove_meio x l1 l2 :
  x ∉ l1 -> py_remove x (l1 ++ x :: l2) = Some (l1 ++ l2).
Proof.
  induction l1 as [| y l1 IH]; intros Hx; simpl.
  - by rewrite decide_True.
  - apply not_elem_of_cons in Hx as [Hne Hx].
    rewrite decide_False by congruence. by rewrite IH.
Qed.

Lemma py_remove_filter (P : nat -> Prop) `{!forall x, Decision (P x)} x l l' :
  py_remove x l = Some l' ->
  (P x -> py_remove x (filter P l) = Some (filter P l'))
  /\ (~ P x -> filter P l = filter P l').
Proof.
  intros (l1 & l2 & -> & -> & Hx)%py_remove_Some. split; intros HP.
  - rewrite !filter_app, filter_cons_True by done.
    apply py_remove_meio. rewrite list_elem_of_filter. tauto.
  - by rewrite !filter_app, filter_cons_False.
Qed.

Lemma py_remove_last x l l' y :
  py_remove x l = Some l' -> last l = Some y -> y <> x -> last l' = Some y.
Proof.
  intros (l1 & l2 & -> & -> & _)%py_remove_Some Hl Hne.
  rewrite last_app in Hl. rewrite last_app.
  destruct l2 as [| z l2].
  - cbn in Hl. congruence.
  - by rewrite last_cons_cons in Hl.
Qed.

Lemma lower_char_lower_char a : lower_char (lower_char a) = lower_char a.
Proof.
  destruct (is_upper a) eqn:Ha.
  - assert (Hl : lower_char a = ascii_of_nat (nat_of_ascii a + 32))
      by (unfold lower_char; by rewrite Ha).
    rewrite Hl. apply is_upper_spec in Ha. unfold lower_char.
    destruct (is_upper (ascii_of_nat (nat_of_ascii a + 32))) eqn:Hb; [| done].
    apply is_upper_spec in Hb. rewrite nat_ascii_embedding in Hb by lia. lia.
  - assert (Hl : lower_char a = a) by (unfold lower_char; by rewrite Ha).
    by rewrite !Hl.
Qed.

Lemma lower_lower s : lower (lower s) = lower s.
Proof.
  induction s as [| a s IH]; [done |]. cbn. by rewrite lower_char_lower_char, IH.
Qed.

(** ** The evaluator reads weight, colour and length only *)

Lemma motivos_de_mesmos_dados p q :
  peso p = peso q -> cor p = cor q -> comprimento p = comprimento q ->
  motivos_de p = motivos_de q.
Proof. unfold motivos_de. by intros -> -> ->. Qed.

Lemma aprovavel_inspecionada p : aprovavel (inspecionada p) = aprovavel p.
Proof.
  unfold aprovavel. f_equal. f_equal.
  apply motivos_de_mesmos_dados; unfold inspecionada; by destruct (aprovavel p).
Qed.

Lemma motivos_de_inspecionada p : motivos_de (inspecionada p) = motivos_de p.
Proof.
  apply motivos_de_mesmos_dados; unfold inspecionada; by destruct (_ : bool).
Qed.

Lemma motivos_inspecionada p :
  motivos_reprovacao p = [] ->
  motivos_reprovacao (inspecionada p) = (if aprovavel p then [] else motivos_de p).
Proof. intros H. unfold inspecionada. by destruct (aprovavel p). Qed.

(** The new part of a registration satisfies the clause on verdicts. *)
Lemma veredito_da_nova n w c l cx :
  let pn := set_caixa cx (inspecionada (Peca.__init__ n w c l)) in
  1 <= n ->
  aprovada pn = aprovavel pn
  /\ motivos_reprovacao pn = (if aprovavel pn then [] else motivos_de pn)
  /\ lower (cor pn) = cor pn
  /\ 1 <= id pn.
Proof.
  intros pn Hn. set (p0 := Peca.__init__ n w c l).
  assert (Hap : aprovavel pn = aprovavel p0).
  { unfold aprovavel. f_equal. f_equal.
    rewrite <- (motivos_de_inspecionada p0). by apply motivos_de_mesmos_dados. }
  assert (Hmo : motivos_de pn = motivos_de p0).
  { rewrite <- (motivos_de_inspecionada p0). by apply motivos_de_mesmos_dados. }
  rewrite Hap, Hmo. unfold pn. fold p0.
  cbn [aprovada motivos_reprovacao cor id set_caixa].
  rewrite aprovada_inspecionada, id_inspecionada, (motivos_inspecionada p0 eq_refl).
  split; [done |]. split; [done |]. split; [| done].
  unfold inspecionada. destruct (aprovavel p0); cbn; apply lower_lower.
Qed.

(** ** The further facts are kept by [cadastrar_peca] *)

Lemma tem_veredito_antiga s s' pn v x :
  mem_pecas s' = mem_pecas s ++ [pn] ->
  is_Some (mem_pecas s !! x) ->
  tem_veredito s' v x <-> tem_veredito s v x.
Proof.
  intros Hm [p Hp]. unfold tem_veredito.
  by rewrite Hm, (lookup_app_l_Some _ _ _ _ Hp), Hp.
Qed.

Lemma filtro_cadastro s s' pn v :
  Inv s ->
  mem_pecas s' = mem_pecas s ++ [pn] ->
  todas_pecas s' = todas_pecas s ++ [length (mem_pecas s)] ->
  filter (tem_veredito s' v) (todas_pecas s')
  = filter (tem_veredito s v) (todas_pecas s)
    ++ (if decide (aprovada pn = v) then [length (mem_pecas s)] else []).
Proof.
  intros HI Hm Ht. rewrite Ht, filter_app. f_equal.
  - apply filter_ext_elem_of. intros x Hx.
    apply (tem_veredito_antiga s s' pn); [done |]. by apply (inv_todas s HI).
  - assert (Hiff : tem_veredito s' v (length (mem_pecas s)) <-> aprovada pn = v).
    { unfold tem_veredito. rewrite Hm, lookup_final. cbn.
      split; [by intros [= ->] | by intros ->]. }
    destruct (decide (aprovada pn = v)) as [Hv | Hv].
    + rewrite filter_cons_True by (by apply Hiff). by rewrite filter_nil.
    + rewrite filter_cons_False by (by rewrite Hiff). by rewrite filter_nil.
Qed.

Lemma Inv2_cadastro_reprovada s n w c l :
  Inv s -> Inv2 s ->
  let pn := inspecionada (Peca.__init__ n w c l) in
  n = proximo_id s ->
  aprovada pn = false ->
  Inv2 (mkEstado (mem_pecas s ++ [pn]) (mem_caixas s)
          (pecas_aprovadas s) (pecas_reprovadas s ++ [length (mem_pecas s)])
          (todas_pecas s ++ [length (mem_pecas s)])
          (caixas s) (caixa_atual s) (proximo_id s + 1)).
Proof.
  intros HI HJ pn Hn Hap.
  set (s' := mkEstado _ _ _ _ _ _ _ _).
  pose proof (peca_em_cadastro s s' pn HI eq_refl eq_refl) as Hpe.
  pose proof (caixa_em_mesmas s s' eq_refl eq_refl) as Hce.
  pose proof (inv2_proximo s HJ) as Hprox.
  constructor.
  - rewrite (filtro_cadastro s s' pn true HI eq_refl eq_refl).
    rewrite decide_False by congruence. rewrite app_nil_r. exact (inv2_aprovadas s HJ).
  - rewrite (filtro_cadastro s s' pn false HI eq_refl eq_refl).
    rewrite decide_True by done. cbn. by rewrite (inv2_reprovadas s HJ).
  - intros r p [H | [-> ->]]%Hpe.
    + by apply (inv2_veredito s HJ r).
    + apply (veredito_da_nova n w c l None). lia.
  - intros r p b cx [H | [-> ->]]%Hpe Hb%Hce Hr.
    + by apply (inv2_referencia s HJ r p b cx).
    + by destruct (nova_ref_fora_das_caixas s b cx HI Hb).
  - intros r p [H | [-> ->]]%Hpe Ha.
    + by apply (inv2_sem_referencia s HJ r).
    + unfold pn. by rewrite caixa_inspecionada.
  - intros b cx Hb%Hce. by apply (inv2_nao_vazia s HJ b).
  - exact (inv2_atual s HJ).
  - cbn. lia.
Qed.

Lemma Inv2_cadastro_nova_caixa s n w c l num :
  Inv s -> Inv2 s ->
  let pn := set_caixa (Some num) (inspecionada (Peca.__init__ n w c l)) in
  n = proximo_id s ->
  aprovada pn = true ->
  Inv2 (mkEstado (mem_pecas s ++ [pn])
          (mem_caixas s ++ [mkCaixa num [length (mem_pecas s)] false])
          (pecas_aprovadas s ++ [length (mem_pecas s)]) (pecas_reprovadas s)
          (todas_pecas s ++ [length (mem_pecas s)])
          (caixas s ++ [length (mem_caixas s)])
          (Some (length (mem_caixas s))) (proximo_id s + 1)).
Proof.
  intros HI HJ pn Hn Hap.
  set (cn := mkCaixa num [length (mem_pecas s)] false).
  set (s' := mkEstado _ _ _ _ _ _ _ _).
  pose proof (peca_em_cadastro s s' pn HI eq_refl eq_refl) as Hpe.
  pose proof (caixa_em_nova s s' cn HI eq_refl eq_refl) as Hce.
  pose proof (inv2_proximo s HJ) as Hprox.
  constructor.
  - rewrite (filtro_cadastro s s' pn true HI eq_refl eq_refl).
    rewrite decide_True by done. cbn. by rewrite (inv2_aprovadas s HJ).
  - rewrite (filtro_cadastro s s' pn false HI eq_refl eq_refl).
    rewrite decide_False by congruence. rewrite app_nil_r.
    exact (inv2_reprovadas s HJ).
  - intros r p [H | [-> ->]]%Hpe.
    + by apply (inv2_veredito s HJ r).
    + apply (veredito_da_nova n w c l (Some num)). lia.
  - intros r p b cx [H | [-> ->]]%Hpe [Hb | [-> ->]]%Hce Hr.
    + by apply (inv2_referencia s HJ r p b cx).
    + apply list_elem_of_singleton in Hr as ->. apply peca_em_lt in H. lia.
    + by destruct (nova_ref_fora_das_caixas s b cx HI Hb).
    + done.
  - intros r p [H | [-> ->]]%Hpe Ha.
    + by apply (inv2_sem_referencia s HJ r).
    + congruence.
  - intros b cx [Hb | [-> ->]]%Hce; [by apply (inv2_nao_vazia s HJ b) | done].
  - cbn. by rewrite last_snoc.
  - cbn. lia.
Qed.

Lemma Inv2_cadastro_caixa_atual s n w c l b cx :
  Inv s -> Inv2 s ->
  let pn := set_caixa (Some (numero cx)) (inspecionada (Peca.__init__ n w c l)) in
  n = proximo_id s ->
  aprovada pn = true ->
  caixa_atual s = Some b ->
  mem_caixas s !! b = Some cx ->
  Inv2 (mkEstado (mem_pecas s ++ [pn])
          (<[b := mkCaixa (numero cx) (pecas cx ++ [length (mem_pecas s)])
                    (length (pecas cx) + 1 =? 10)%nat]> (mem_caixas s))
          (pecas_aprovadas s ++ [length (mem_pecas s)]) (pecas_reprovadas s)
          (todas_pecas s ++ [length (mem_pecas s)])
          (caixas s) (Some b) (proximo_id s + 1)).
Proof.
  intros HI HJ pn Hn Hap Hat Hcx.
  set (c' := mkCaixa _ _ _).
  set (s' := mkEstado _ _ _ _ _ _ _ _).
  assert (Hbcx : caixa_em s b cx).
  { split; [by apply (inv_caixa_atual s HI) | done]. }
  pose proof (peca_em_cadastro s s' pn HI eq_refl eq_refl) as Hpe.
  pose proof (caixa_em_alterada s s' b cx c' Hbcx eq_refl eq_refl) as Hce.
  pose proof (inv2_proximo s HJ) as Hprox.
  constructor.
  - rewrite (filtro_cadastro s s' pn true HI eq_refl eq_refl).
    rewrite decide_True by done. cbn. by rewrite (inv2_aprovadas s HJ).
  - rewrite (filtro_cadastro s s' pn false HI eq_refl eq_refl).
    rewrite decide_False by congruence. rewrite app_nil_r.
    exact (inv2_reprovadas s HJ).
  - intros r p [H | [-> ->]]%Hpe.
    + by apply (inv2_veredito s HJ r).
    + apply (veredito_da_nova n w c l (Some (numero cx))). lia.
  - intros r p b0 c0 [H | [-> ->]]%Hpe [[Hne Hb] | [-> ->]]%Hce Hr.
    + by apply (inv2_referencia s HJ r p b0 c0).
    + cbn in Hr |- *. apply elem_of_app in Hr as [Hr | ->%list_elem_of_singleton].
      * by apply (inv2_referencia s HJ r p b cx).
      * apply peca_em_lt in H. lia.
    + by destruct (nova_ref_fora_das_caixas s b0 c0 HI Hb).
    + done.
  - intros r p [H | [-> ->]]%Hpe Ha.
    + by apply (inv2_sem_referencia s HJ r).
    + congruence.
  - intros b0 c0 [[Hne Hb] | [-> ->]]%Hce.
    + by apply (inv2_nao_vazia s HJ b0).
    + cbn. by destruct (pecas cx).
  - cbn. rewrite <- Hat. exact (inv2_atual s HJ).
  - cbn. lia.
Qed.

Lemma Inv2_cadastrar_peca w c l s :
  Inv s -> Inv2 s -> Inv2 (snd (SistemaProducao.cadastrar_peca w c l s)).
Proof.
  intros HI HJ.
  destruct (cadastrar_peca_casos w c l s HI)
    as [[Hap ->] | [(Hap & _ & ->) | (b & cx & Hap & Hat & Hcx & Hf & Hlen & ->)]];
    cbn [snd].
  - apply Inv2_cadastro_reprovada; [done | done | done |].
    by rewrite aprovada_inspecionada.
  - apply Inv2_cadastro_nova_caixa; [done | done | done |].
    cbn. by rewrite aprovada_inspecionada.
  - apply Inv2_cadastro_caixa_atual; [done | done | done | | done | done].
    cbn. by rewrite aprovada_inspecionada.
Qed.

(** ** The further facts are kept by [remover_peca] *)

Lemma filtro_remocao s s' r p t' v :
  Inv s ->
  peca_em s r p ->
  py_remove r (todas_pecas s) = Some t' ->
  todas_pecas s' = t' ->
  (forall r0, r0 <> r -> mem_pecas s' !! r0 = mem_pecas s !! r0) ->
  (aprovada p = v ->
   py_remove r (filter (tem_veredito s v) (todas_pecas s))
   = Some (filter (tem_veredito s' v) (todas_pecas s')))
  /\ (aprovada p <> v ->
      filter (tem_veredito s v) (todas_pecas s)
      = filter (tem_veredito s' v) (todas_pecas s')).
Proof.
  intros HI [Hin Hp] Ht Ht' Hm.
  assert (Hext : filter (tem_veredito s' v) t' = filter (tem_veredito s v) t').
  { apply filter_ext_elem_of. intros x Hx. unfold tem_veredito.
    rewrite Hm; [done |]. intros ->.
    by destruct (py_remove_NoDup _ _ _ Ht (inv_todas_nodup s HI)). }
  assert (Hr : tem_veredito s v r <-> aprovada p = v).
  { unfold tem_veredito. rewrite Hp. cbn. split; [by intros [= ->] | by intros ->]. }
  rewrite Ht', Hext.
  destruct (py_remove_filter (tem_veredito s v) r _ _ Ht) as [H1 H2].
  split; intros Hv; [apply H1 | apply H2]; by rewrite Hr.
Qed.

Lemma Inv2_remocao_reprovada s r p t' rp' :
  Inv s -> Inv2 s ->
  peca_em s r p ->
  aprovada p = false ->
  py_remove r (todas_pecas s) = Some t' ->
  py_remove r (pecas_reprovadas s) = Some rp' ->
  Inv2 (mkEstado (mem_pecas s) (mem_caixas s) (pecas_aprovadas s) rp' t'
          (caixas s) (caixa_atual s) (proximo_id s)).
Proof.
  intros HI HJ Hrp Hap Ht Hrp'.
  set (s' := mkEstado _ _ _ _ _ _ _ _).
  pose proof (peca_em_remocao s s' r t' HI Ht eq_refl (fun _ _ => eq_refl)) as Hpe.
  pose proof (caixa_em_mesmas s s' eq_refl eq_refl) as Hce.
  constructor.
  - destruct (filtro_remocao s s' r p t' true HI Hrp Ht eq_refl
                (fun _ _ => eq_refl)) as [_ H].
    rewrite <- H by congruence. exact (inv2_aprovadas s HJ).
  - destruct (filtro_remocao s s' r p t' false HI Hrp Ht eq_refl
                (fun _ _ => eq_refl)) as [H _].
    specialize (H Hap). rewrite <- (inv2_reprovadas s HJ), Hrp' in H.
    by injection H.
  - intros r0 p0 [_ H]%Hpe. by apply (inv2_veredito s HJ r0).
  - intros r0 p0 b c [_ H]%Hpe Hb%Hce. by apply (inv2_referencia s HJ r0 p0 b c).
  - intros r0 p0 [_ H]%Hpe. by apply (inv2_sem_referencia s HJ r0).
  - intros b c Hb%Hce. by apply (inv2_nao_vazia s HJ b).
  - exact (inv2_atual s HJ).
  - exact (inv2_proximo s HJ).
Qed.

Lemma Inv2_remocao_aprovada s r p t' ap' b c l' cs' :
  Inv s -> Inv2 s ->
  peca_em s r p ->
  aprovada p = true ->
  caixa_em s b c ->
  r ∈ pecas c ->
  py_remove r (todas_pecas s) = Some t' ->
  py_remove r (pecas_aprovadas s) = Some ap' ->
  py_remove r (pecas c) = Some l' ->
  py_remove b (caixas s) = Some cs' ->
  Inv2 (apos_remover_da_caixa
          (mkEstado (mem_pecas s) (mem_caixas s) ap' (pecas_reprovadas s) t'
             (caixas s) (caixa_atual s) (proximo_id s))
          r p b c l' cs').
Proof.
  intros HI HJ Hrp Hap Hbc Hrc Ht Hap' Hl' Hcs'.
  set (cb := mkCaixa (numero c) l' false).
  assert (Hl'in : forall r0, r0 ∈ l' -> r0 ∈ pecas c).
  { intros r0. by apply (py_remove_elem_of r). }
  assert (Hmem : forall r0, r0 <> r ->
            <[r := set_caixa None p]> (mem_pecas s) !! r0 = mem_pecas s !! r0).
  { intros r0 Hne. by apply list_lookup_insert_ne. }
  (* the clauses that do not depend on whether the box stays *)
  assert (Hcomum : forall s',
    todas_pecas s' = t' ->
    mem_pecas s' = <[r := set_caixa None p]> (mem_pecas s) ->
    pecas_aprovadas s' = ap' ->
    pecas_reprovadas s' = pecas_reprovadas s ->
    (forall r0 p0, peca_em s' r0 p0 <-> r0 <> r /\ peca_em s r0 p0)
    /\ pecas_aprovadas s' = filter (tem_veredito s' true) (todas_pecas s')
    /\ pecas_reprovadas s' = filter (tem_veredito s' false) (todas_pecas s')).
  { intros s' H1 H2 H3 H4.
    assert (Hm' : forall r0, r0 <> r -> mem_pecas s' !! r0 = mem_pecas s !! r0).
    { intros r0 Hne. rewrite H2. by apply Hmem. }
    split; [by apply (peca_em_remocao s s' r t' HI Ht H1) |].
    destruct (filtro_remocao s s' r p t' true HI Hrp Ht H1 Hm') as [Ha _].
    destruct (filtro_remocao s s' r p t' false HI Hrp Ht H1 Hm') as [_ Hb].
    split.
    - specialize (Ha Hap). rewrite <- (inv2_aprovadas s HJ), Hap' in Ha.
      rewrite H3. by injection Ha.
    - rewrite H4, <- Hb by congruence. exact (inv2_reprovadas s HJ). }
  unfold apos_remover_da_caixa. simpl_estado.
  destruct (length l' =? 0)%nat eqn:E.
  - apply Nat.eqb_eq in E. apply length_zero_iff_nil in E.
    set (s' := mkEstado _ _ _ _ _ _ _ _).
    destruct (Hcomum s' eq_refl eq_refl eq_refl eq_refl) as (Hpe & J1 & J2).
    pose proof (caixa_em_apagada s s' b cs' cb HI Hcs' eq_refl eq_refl) as Hce.
    constructor; [exact J1 | exact J2 | ..].
    + intros r0 p0 [_ H]%Hpe. by apply (inv2_veredito s HJ r0).
    + intros r0 p0 b0 c0 [_ H]%Hpe [_ Hb]%Hce.
      by apply (inv2_referencia s HJ r0 p0 b0 c0).
    + intros r0 p0 [_ H]%Hpe. by apply (inv2_sem_referencia s HJ r0).
    + intros b0 c0 [_ Hb]%Hce. by apply (inv2_nao_vazia s HJ b0).
    + cbn. case_bool_decide as Hat; [done |].
      pose proof (inv2_atual s HJ) as Hlast.
      destruct (caixa_atual s) as [b1 |] eqn:Hb1.
      * symmetry. apply (py_remove_last b (caixas s)); [done | done | congruence].
      * symmetry in Hlast. apply last_None in Hlast.
        destruct Hbc as [Hb _]. rewrite Hlast in Hb. by apply elem_of_nil in Hb.
    + exact (inv2_proximo s HJ).
  - apply Nat.eqb_neq in E.
    set (s' := mkEstado _ _ _ _ _ _ _ _).
    destruct (Hcomum s' eq_refl eq_refl eq_refl eq_refl) as (Hpe & J1 & J2).
    pose proof (caixa_em_alterada s s' b c cb Hbc eq_refl eq_refl) as Hce.
    constructor; [exact J1 | exact J2 | ..].
    + intros r0 p0 [_ H]%Hpe. by apply (inv2_veredito s HJ r0).
    + intros r0 p0 b0 c0 [_ H]%Hpe [[_ Hb] | [-> ->]]%Hce Hr0.
      * by apply (inv2_referencia s HJ r0 p0 b0 c0).
      * cbn in Hr0 |- *. apply (inv2_referencia s HJ r0 p0 b c); [done | done |].
        by apply Hl'in.
    + intros r0 p0 [_ H]%Hpe. by apply (inv2_sem_referencia s HJ r0).
    + intros b0 c0 [[_ Hb] | [-> ->]]%Hce.
      * by apply (inv2_nao_vazia s HJ b0).
      * cbn. intros ->. by apply E.
    + exact (inv2_atual s HJ).
    + exact (inv2_proximo s HJ).
Qed.

Lemma Inv2_remover_peca i s :
  Inv s -> Inv2 s -> Inv2 (snd (SistemaProducao.remover_peca i s)).
Proof.
  intros HI HJ.
  destruct (remover_peca_casos i s HI)
    as [[_ ->] | [(r & p & t' & rp' & Hrp & _ & Hap & Ht & Hrp' & ->)
                 | (r & p & t' & ap' & b & c & l' & cs' & Hrp & _ & Hap & Hbc
                    & Hrc & Ht & Hap' & Hl' & Hcs' & ->)]]; cbn [snd].
  - done.
  - by eapply Inv2_remocao_reprovada.
  - by eapply Inv2_remocao_aprovada.
Qed.

Lemma Inv2_inicial : Inv2 SistemaProducao.__init__.
Proof.
  constructor; cbn; try done.
  - intros r p [Hr _]. by apply elem_of_nil in Hr.
  - intros r p b c [Hr _]. by apply elem_of_nil in Hr.
  - intros r p [Hr _]. by apply elem_of_nil in Hr.
  - intros b c [Hb _]. by apply elem_of_nil in Hb.
Qed.

Lemma Inv2_executar ops s : Inv s -> Inv2 s -> Inv2 (executar ops s).
Proof.
  revert s. induction ops as [| op ops IH]; intros s HI HJ; simpl; [done |].
  apply IH; [by apply Inv_passo |].
  destruct op as [w c l | i]; simpl.
  - by apply Inv2_cadastrar_peca.
  - by apply Inv2_remover_peca.
Qed.

Lemma Inv2_alcancavel s : alcancavel s -> Inv2 s.
Proof. intros [ops ->]. apply Inv2_executar; [apply Inv_inicial | apply Inv2_inicial]. Qed.

(** ** Boxes *)

(** X1. In every ledger state, every box of the box sequence holds at least
    one and at most ten parts, and it is closed exactly when it holds
    ten. *)
Theorem caixa_entre_uma_e_dez (s : Estado) (b : nat) (c : ObjCaixa) :
  alcancavel s ->
  caixa_em s b c ->
  (1 <= length (pecas c) <= 10)%nat
  /\ (fechada c = true <-> length (pecas c) = 10%nat).
Proof.
  intros Hs Hbc.
  destruct (inv_capacidade s (Inv_alcancavel s Hs) b c Hbc) as [Hle Hiff].
  pose proof (inv2_nao_vazia s (Inv2_alcancavel s Hs) b c Hbc) as Hne.
  split; [| done]. split; [| done]. destruct (pecas c); [done | cbn; lia].
Qed.

(** X2. In every ledger state the current box is the last box of the box
    sequence, and there is no current box exactly when the sequence is
    empty. *)
Theorem caixa_atual_e_a_ultima (s : Estado) :
  alcancavel s ->
  caixa_atual s = last (caixas s)
  /\ (caixa_atual s = None <-> caixas s = []).
Proof.
  intros Hs. pose proof (inv2_atual s (Inv2_alcancavel s Hs)) as H.
  split; [done |]. rewrite H. apply last_None.
Qed.

(** ** The derived lists *)

Lemma length_filtros s l :
  (forall r, r ∈ l -> is_Some (mem_pecas s !! r)) ->
  (length (filter (tem_veredito s true) l)
   + length (filter (tem_veredito s false) l) = length l)%nat.
Proof.
  induction l as [| r l IH]; intros Hv; [done |].
  assert (IH' := IH (fun r0 H => Hv r0 (list_elem_of_further _ _ _ H))).
  destruct (Hv r) as [p Hp]; [by left |].
  assert (Ht : forall v, tem_veredito s v r <-> aprovada p = v).
  { intros v. unfold tem_veredito. rewrite Hp. cbn.
    split; [by intros [= ->] | by intros ->]. }
  destruct (aprovada p) eqn:Ha.
  - rewrite filter_cons_True by (by apply Ht).
    rewrite filter_cons_False by (rewrite Ht; congruence). cbn. lia.
  - rewrite filter_cons_False by (rewrite Ht; congruence).
    rewrite filter_cons_True by (by apply Ht). cbn. lia.
Qed.

(** X3. In every ledger state the approved list is the master list
    restricted to the parts whose verdict is approved, and the rejected
    list is the master list restricted to the parts whose verdict is
    rejected, both in the order of the master list; the master list holds
    no part twice; so every registered part is in exactly one of the two
    derived lists, and their lengths add up to the length of the master
    list. *)
Theorem listas_derivadas_particionam (s : Estado) :
  alcancavel s ->
  pecas_aprovadas s = filter (tem_veredito s true) (todas_pecas s)
  /\ pecas_reprovadas s = filter (tem_veredito s false) (todas_pecas s)
  /\ NoDup (todas_pecas s)
  /\ (forall r, r ∈ todas_pecas s ->
        ((r ∈ pecas_aprovadas s) /\ (r ∉ pecas_reprovadas s))
        \/ ((r ∉ pecas_aprovadas s) /\ (r ∈ pecas_reprovadas s)))
  /\ (length (pecas_aprovadas s) + length (pecas_reprovadas s)
      = length (todas_pecas s))%nat.
Proof.
  intros Hs. pose proof (Inv_alcancavel s Hs) as HI.
  pose proof (Inv2_alcancavel s Hs) as HJ.
  pose proof (inv2_aprovadas s HJ) as Ha.
  pose proof (inv2_reprovadas s HJ) as Hr.
  split; [done |]. split; [done |].
  split; [exact (inv_todas_nodup s HI) |]. split.
  - intros r Hin. rewrite Ha, Hr, !list_elem_of_filter.
    destruct (inv_todas s HI r Hin) as [p Hp].
    unfold tem_veredito. rewrite Hp. cbn.
    destruct (aprovada p); [left | right]; split; try done; by intros [[=] _].
  - rewrite Ha, Hr. apply length_filtros. exact (inv_todas s HI).
Qed.

(** ** What a registered part records *)

(** X4. In every ledger state, the verdict a registered part carries is
    the one the quality rules give for the weight, colour and length it
    carries: inspecting the part again returns the verdict it carries and
    changes nothing.  The part is approved exactly when its weight lies in
    [95, 105] or is NaN, its colour is azul or verde, and its length lies
    in [10, 20] or is NaN (the weight and length rules compare with [<] and
    [>], which are false on NaN).  Its reason list is empty exactly when it
    is approved, and is otherwise the list the evaluator builds. *)
Theorem veredito_registrado (s : Estado) (r : nat) (p : ObjPeca) :
  alcancavel s ->
  peca_em s r p ->
  ControleQualidade.inspecionar_peca r s = (Retorna (aprovada p), s)
  /\ (aprovada p = true <->
      (peso_no_padrao (peso p) \/ peso p = NaN)
      /\ (cor p ∈ ControleQualidade.CORES_VALIDAS)
      /\ (comprimento_no_padrao (comprimento p) \/ comprimento p = NaN))
  /\ (aprovada p = true <-> motivos_reprovacao p = [])
  /\ (aprovada p = false -> motivos_reprovacao p = motivos_de p).
Proof.
  intros Hs Hp.
  destruct (inv2_veredito s (Inv2_alcancavel s Hs) r p Hp) as (Ha & Hm & _ & _).
  split.
  { destruct Hp as [_ Hp]. rewrite (inspecionar_peca_exec _ _ _ Hp).
    assert (Hi : inspecionada p = p).
    { unfold inspecionada. destruct (aprovavel p) eqn:E.
      - destruct p. cbn in Ha |- *. by rewrite Ha.
      - destruct p. cbn in Ha, Hm |- *. by rewrite Ha, Hm. }
    rewrite Hi, (list_insert_id _ _ _ Hp), Ha. by destruct s. }
  rewrite Ha, Hm. split; [apply aprovavel_iff |]. split.
  - unfold aprovavel. destruct (motivos_de p) eqn:E; cbn; [done |].
    split; intros; discriminate.
  - by intros ->.
Qed.

(** X5. In every ledger state the box reference of a registered part is
    the number of the box that holds it: an approved part is held by a box
    of the box sequence and refers to that box's number; a rejected part is
    held by no box and has no box reference. *)
Theorem referencia_da_caixa (s : Estado) (r : nat) (p : ObjPeca) :
  alcancavel s ->
  peca_em s r p ->
  (forall b c, caixa_em s b c -> r ∈ pecas c -> caixa p = Some (numero c))
  /\ (aprovada p = true ->
      exists b c, caixa_em s b c /\ (r ∈ pecas c) /\ caixa p = Some (numero c))
  /\ (aprovada p = false ->
      caixa p = None /\ forall b c, caixa_em s b c -> r ∉ pecas c).
Proof.
  intros Hs Hp. pose proof (Inv_alcancavel s Hs) as HI.
  pose proof (Inv2_alcancavel s Hs) as HJ.
  split; [| split].
  - intros b c Hbc Hr. by apply (inv2_referencia s HJ r p b c).
  - intros Ha. destruct (inv_aprovadas s HI r p Hp Ha) as (_ & b & c & Hbc & Hr).
    exists b, c. split; [done |]. split; [done |].
    by apply (inv2_referencia s HJ r p b c).
  - intros Ha. split; [by apply (inv2_sem_referencia s HJ r) |].
    intros b c Hbc Hr.
    destruct (inv_conteudo s HI b c r Hbc Hr) as (p' & [_ Hp'] & Ha').
    destruct Hp as [_ Hp]. congruence.
Qed.

(** X6. In every ledger state the parts held by the boxes of the box
    sequence are exactly the parts of the approved list: a part is in the
    approved list exactly when some box holds it; no part is held by two
    boxes, and no box holds a part twice. *)
Theorem caixas_guardam_as_aprovadas (s : Estado) :
  alcancavel s ->
  (forall r, r ∈ pecas_aprovadas s <-> exists b c, caixa_em s b c /\ r ∈ pecas c)
  /\ (forall b1 b2 c1 c2 r,
        caixa_em s b1 c1 -> caixa_em s b2 c2 ->
        r ∈ pecas c1 -> r ∈ pecas c2 -> b1 = b2)
  /\ (forall b c, caixa_em s b c -> NoDup (pecas c)).
Proof.
  intros Hs. pose proof (Inv_alcancavel s Hs) as HI.
  pose proof (Inv2_alcancavel s Hs) as HJ.
  split; [| split].
  - intros r. split.
    + rewrite (inv2_aprovadas s HJ), list_elem_of_filter.
      intros [Hv Hin]. unfold tem_veredito in Hv.
      destruct (inv_todas s HI r Hin) as [p Hp]. rewrite Hp in Hv.
      injection Hv as Ha.
      by destruct (inv_aprovadas s HI r p (conj Hin Hp) Ha) as [_ H].
    + intros (b & c & Hbc & Hr).
      destruct (inv_conteudo s HI b c r Hbc Hr) as (p & Hp & Ha).
      by destruct (inv_aprovadas s HI r p Hp Ha) as [H _].
  - exact (inv_disjuntas s HI).
  - exact (inv_conteudo_nodup s HI).
Qed.

(** X7. In every ledger state the registered parts carry pairwise distinct
    ids, each at least 1 and below the next-id counter. *)
Theorem ids_distintos_e_limitados (s : Estado) (r1 r2 : nat) (p1 p2 : ObjPeca) :
  alcancavel s ->
  peca_em s r1 p1 -> peca_em s r2 p2 ->
  (id p1 = id p2 -> r1 = r2)
  /\ 1 <= id p1 < proximo_id s.
Proof.
  intros Hs H1 H2. pose proof (Inv_alcancavel s Hs) as HI.
  pose proof (Inv2_alcancavel s Hs) as HJ.
  split; [by apply (inv_ids_distintos s HI r1 r2 p1 p2) |].
  destruct (inv2_veredito s HJ r1 p1 H1) as (_ & _ & _ & Hge).
  pose proof (inv_ids s HI r1 p1 H1). lia.
Qed.

(** ** Looking a part up by id *)

Lemma buscar_peca_exec s i :
  Inv s ->
  exists o,
    SistemaProducao.buscar_peca i s = (Retorna o, s)
    /\ match o with
       | Some r => exists p, peca_em s r p /\ id p = i
       | None => forall r p, peca_em s r p -> id p <> i
       end.
Proof.
  intros HI. unfold SistemaProducao.buscar_peca.
  erewrite bind_exec; [| reflexivity].
  destruct (busca_por_id_exec s i (todas_pecas s) (inv_todas s HI))
    as (o & Ho & Hspec).
  exists o. split; [done |]. destruct o as [r |].
  - destruct Hspec as (Hin & p & Hp & Hid). by exists p.
  - intros r p [Hin Hp]. by apply (Hspec r p).
Qed.

Lemma buscar_peca_acha s i r p :
  Inv s -> peca_em s r p -> id p = i ->
  SistemaProducao.buscar_peca i s = (Retorna (Some r), s).
Proof.
  intros HI Hp Hid. destruct (buscar_peca_exec s i HI) as (o & Ho & Hspec).
  rewrite Ho. destruct o as [r' |].
  - destruct Hspec as (p' & Hp' & Hid').
    assert (r' = r) as -> by (apply (inv_ids_distintos s HI r' r p' p); congruence).
    done.
  - by destruct (Hspec r p).
Qed.

Lemma buscar_peca_nao_acha s i :
  Inv s -> (forall r p, peca_em s r p -> id p <> i) ->
  SistemaProducao.buscar_peca i s = (Retorna None, s).
Proof.
  intros HI Hne. destruct (buscar_peca_exec s i HI) as (o & Ho & Hspec).
  rewrite Ho. destruct o as [r' |]; [| done].
  destruct Hspec as (p' & Hp' & Hid'). by destruct (Hne r' p').
Qed.

(** X8. In every ledger state [buscar_peca] returns without changing the
    state; it returns a part exactly when a registered part carries the id,
    and then it returns that part; otherwise it returns [None]. *)
Theorem buscar_peca_correta (s : Estado) (i : Z) :
  alcancavel s ->
  exists o,
    SistemaProducao.buscar_peca i s = (Retorna o, s)
    /\ (forall r, o = Some r <-> exists p, peca_em s r p /\ id p = i)
    /\ (o = None <-> forall r p, peca_em s r p -> id p <> i).
Proof.
  intros Hs. pose proof (Inv_alcancavel s Hs) as HI.
  destruct (buscar_peca_exec s i HI) as (o & Ho & Hspec).
  exists o. split; [done |]. destruct o as [r0 |].
  - destruct Hspec as (p0 & Hp0 & Hid0). split.
    + intros r. split.
      * intros [= <-]. by exists p0.
      * intros (p & Hp & Hid). f_equal.
        apply (inv_ids_distintos s HI r0 r p0 p); congruence.
    + split; [done |]. intros Hne. by destruct (Hne r0 p0).
  - split; [| done]. intros r. split; [done |].
    intros (p & Hp & Hid). by destruct (Hspec r p).
Qed.

(** X9. Registering and then looking up: in every ledger state, after a
    registration the id the new part was given (the value of the next-id
    counter before the call) is found by [buscar_peca], which returns the
    part the registration returned; and every id that was found before is
    still found, with the same part. *)
Theorem buscar_apos_cadastrar (s : Estado) (w : Numero) (c : string) (l : Numero) :
  alcancavel s ->
  exists r ok m s',
    SistemaProducao.cadastrar_peca w c l s = (Retorna (r, ok, m), s')
    /\ SistemaProducao.buscar_peca (proximo_id s) s' = (Retorna (Some r), s')
    /\ forall i r0,
         SistemaProducao.buscar_peca i s = (Retorna (Some r0), s) ->
         SistemaProducao.buscar_peca i s' = (Retorna (Some r0), s').
Proof.
  intros Hs. pose proof (Inv_alcancavel s Hs) as HI.
  pose proof (Inv_cadastrar_peca w c l s HI) as HI'.
  assert (Hpe : exists pn ok m s',
    SistemaProducao.cadastrar_peca w c l s
    = (Retorna (length (mem_pecas s), ok, m), s')
    /\ id pn = proximo_id s
    /\ forall r p, peca_em s' r p
                   <-> peca_em s r p \/ (r = length (mem_pecas s) /\ p = pn)).
  { destruct (cadastrar_peca_casos w c l s HI)
      as [[_ H] | [(_ & _ & H) | (b & cx & _ & _ & _ & _ & _ & H)]];
      rewrite H; eexists _, _, _, _; (split; [reflexivity |]);
      (split; [| by apply (peca_em_cadastro s _ _ HI)]);
      cbn; by rewrite id_inspecionada. }
  destruct Hpe as (pn & ok & m & s' & Hcad & Hid & Hpe).
  rewrite Hcad in HI'. cbn [snd] in HI'.
  exists (length (mem_pecas s)), ok, m, s'. split; [done |]. split.
  - apply (buscar_peca_acha s' _ _ pn HI'); [| done]. apply Hpe. by right.
  - intros i r0 Hb. destruct (buscar_peca_exec s i HI) as (o & Ho & Hspec).
    rewrite Ho in Hb. injection Hb as ->.
    destruct Hspec as (p0 & Hp0 & Hid0).
    apply (buscar_peca_acha s' _ _ p0 HI'); [| done]. apply Hpe. by left.
Qed.

(** The registered parts after a successful removal. *)
Lemma peca_em_apos_remover s i s' msg :
  Inv s ->
  SistemaProducao.remover_peca i s = (Retorna (true, msg), s') ->
  exists r p,
    peca_em s r p /\ id p = i
    /\ py_remove r (todas_pecas s) = Some (todas_pecas s')
    /\ (forall r0, r0 <> r -> mem_pecas s' !! r0 = mem_pecas s !! r0)
    /\ forall r0 p0, peca_em s' r0 p0 <-> r0 <> r /\ peca_em s r0 p0.
Proof.
  intros HI Hrem.
  destruct (remover_peca_casos i s HI)
    as [[_ H] | [(r & p & t' & rp' & Hrp & Hid & Hap & Ht & Hrp' & H)
                | (r & p & t' & ap' & b & c & l' & cs' & Hrp & Hid & Hap & Hbc
                   & Hrc & Ht & Hap' & Hl' & Hcs' & H)]];
    rewrite H in Hrem; [discriminate | |].
  - injection Hrem as _ <-. exists r, p. cbn.
    split; [done |]. split; [done |]. split; [done |]. split; [done |].
    by apply (peca_em_remocao s _ r t' HI Ht).
  - injection Hrem as _ <-. exists r, p.
    assert (Hm : mem_pecas (apos_remover_da_caixa
                   (mkEstado (mem_pecas s) (mem_caixas s) ap'
                      (pecas_reprovadas s) t' (caixas s) (caixa_atual s)
                      (proximo_id s)) r p b c l' cs')
                 = <[r := set_caixa None p]> (mem_pecas s)).
    { unfold apos_remover_da_caixa. by destruct (length l' =? 0)%nat. }
    assert (Htd : todas_pecas (apos_remover_da_caixa
                   (mkEstado (mem_pecas s) (mem_caixas s) ap'
                      (pecas_reprovadas s) t' (caixas s) (caixa_atual s)
                      (proximo_id s)) r p b c l' cs') = t').
    { unfold apos_remover_da_caixa. by destruct (length l' =? 0)%nat. }
    assert (Hmne : forall r0, r0 <> r ->
              mem_pecas (apos_remover_da_caixa
                   (mkEstado (mem_pecas s) (mem_caixas s) ap'
                      (pecas_reprovadas s) t' (caixas s) (caixa_atual s)
                      (proximo_id s)) r p b c l' cs') !! r0
              = mem_pecas s !! r0).
    { intros r0 Hne. rewrite Hm. by apply list_lookup_insert_ne. }
    split; [done |]. split; [done |]. split; [by rewrite Htd |].
    split; [done |]. by apply (peca_em_remocao s _ r t' HI Ht).
Qed.

(** X10. Removing and then looking up: in every ledger state, after a
    removal that succeeded the id is no longer found, a second removal of
    the same id fails and changes nothing, and every other id is looked up
    with the same result as before. *)
Theorem buscar_apos_remover (s s' : Estado) (i : Z) (msg : string) :
  alcancavel s ->
  SistemaProducao.remover_peca i s = (Retorna (true, msg), s') ->
  SistemaProducao.buscar_peca i s' = (Retorna None, s')
  /\ SistemaProducao.remover_peca i s'
     = (Retorna (false, "Peça não encontrada"), s')
  /\ forall j, j <> i ->
       fst (SistemaProducao.buscar_peca j s')
       = fst (SistemaProducao.buscar_peca j s).
Proof.
  intros Hs Hrem. pose proof (Inv_alcancavel s Hs) as HI.
  assert (HI' : Inv s').
  { pose proof (Inv_remover_peca i s HI) as H. by rewrite Hrem in H. }
  destruct (peca_em_apos_remover s i s' msg HI Hrem)
    as (r & p & Hrp & Hid & _ & _ & Hpe).
  assert (Hne : forall r0 p0, peca_em s' r0 p0 -> id p0 <> i).
  { intros r0 p0 [Hr0 Hp0]%Hpe Heq. apply Hr0.
    apply (inv_ids_distintos s HI r0 r p0 p); congruence. }
  split; [by apply buscar_peca_nao_acha |]. split.
  - apply remover_peca_nao_encontrada; [exact (inv_todas s' HI') |].
    intros r0 p0 Hin Hp0. by apply (Hne r0 p0).
  - intros j Hj. destruct (buscar_peca_exec s j HI) as (o & Ho & Hspec).
    rewrite Ho. cbn [fst]. destruct o as [r0 |].
    + destruct Hspec as (p0 & Hp0 & Hid0).
      rewrite (buscar_peca_acha s' j r0 p0 HI'); [done | | done].
      apply Hpe. split; [| done]. intros ->.
      destruct Hp0 as [_ Hp0], Hrp as [_ Hrp]. congruence.
    + rewrite (buscar_peca_nao_acha s' j HI'); [done |].
      intros r0 p0 [_ Hp0]%Hpe. by apply (Hspec r0 p0).
Qed.

(** X11. In every ledger state [remover_peca] returns, and it succeeds
    exactly when [buscar_peca] finds the id: a removal fails for no other
    reason than an id that is not registered. *)
Theorem remover_sucede_sse_registrada (s : Estado) (i : Z) :
  alcancavel s ->
  exists ok msg s',
    SistemaProducao.remover_peca i s = (Retorna (ok, msg), s')
    /\ (ok = true <->
        exists r, SistemaProducao.buscar_peca i s = (Retorna (Some r), s))
    /\ (ok = false -> s' = s /\ msg = "Peça não encontrada")
    /\ (ok = true -> msg = "Peça removida com sucesso").
Proof.
  intros Hs. pose proof (Inv_alcancavel s Hs) as HI.
  destruct (remover_peca_casos i s HI)
    as [[Hne H] | [(r & p & t' & rp' & Hrp & Hid & _ & _ & _ & H)
                  | (r & p & t' & ap' & b & c & l' & cs' & Hrp & Hid & _ & _
                     & _ & _ & _ & _ & _ & H)]];
    rewrite H; eexists _, _, _; (split; [reflexivity |]).
  - split; [| by split].
    split; [done |]. intros [r Hb].
    rewrite (buscar_peca_nao_acha s i HI Hne) in Hb. discriminate.
  - split; [| by split]. split; [| done]. intros _. exists r.
    by apply (buscar_peca_acha s i r p).
  - split; [| by split]. split; [| done]. intros _. exists r.
    by apply (buscar_peca_acha s i r p).
Qed.

(** ** What a removal leaves alone *)

(** X12. In every ledger state, removing the id of a registered part
    succeeds; it takes the part out of the master list and out of the
    derived list of its verdict and keeps the order of the others; the part
    is then in no list and in no box; every other object of the store keeps
    its attributes; every box that did not hold the part stays in the box
    sequence as it was; the next-id counter is not changed; and removing a
    rejected part changes no box, nor the box sequence, nor the current
    box. *)
Theorem remover_peca_preserva (s : Estado) (i : Z) (r : nat) (p : ObjPeca) :
  alcancavel s ->
  peca_em s r p -> id p = i ->
  exists msg s',
    SistemaProducao.remover_peca i s = (Retorna (true, msg), s')
    /\ py_remove r (todas_pecas s) = Some (todas_pecas s')
    /\ (aprovada p = true ->
        py_remove r (pecas_aprovadas s) = Some (pecas_aprovadas s')
        /\ pecas_reprovadas s' = pecas_reprovadas s)
    /\ (aprovada p = false ->
        py_remove r (pecas_reprovadas s) = Some (pecas_reprovadas s')
        /\ pecas_aprovadas s' = pecas_aprovadas s
        /\ mem_pecas s' = mem_pecas s /\ mem_caixas s' = mem_caixas s
        /\ caixas s' = caixas s /\ caixa_atual s' = caixa_atual s)
    /\ (forall r0, r0 <> r -> mem_pecas s' !! r0 = mem_pecas s !! r0)
    /\ (forall b0 c0, caixa_em s b0 c0 -> r ∉ pecas c0 -> caixa_em s' b0 c0)
    /\ (r ∉ todas_pecas s') /\ (r ∉ pecas_aprovadas s')
    /\ (r ∉ pecas_reprovadas s')
    /\ (forall b0 c0, caixa_em s' b0 c0 -> r ∉ pecas c0)
    /\ proximo_id s' = proximo_id s.
Proof.
  intros Hs Hrp Hid. pose proof (Inv_alcancavel s Hs) as HI.
  pose proof (alcancavel_passo (Remover i) s Hs) as Hs'. cbn [passo] in Hs'.
  pose proof (proximo_id_remover i s HI) as Hprox. cbn [passo] in Hprox.
  destruct (remover_peca_casos i s HI)
    as [[Hne _] | [(r0 & p0 & t' & rp' & Hrp0 & Hid0 & Hap0 & Ht & Hrp' & Hex)
                  | (r0 & p0 & t' & ap' & b & c & l' & cs' & Hrp0 & Hid0 & Hap0
                     & Hbc & Hrc & Ht & Hap' & Hl' & Hcs' & Hex)]];
    [by destruct (Hne r p) | |].
  all: assert (r0 = r) as ->
      by (apply (inv_ids_distintos s HI r0 r p0 p); congruence).
  all: assert (p0 = p) as -> by (destruct Hrp0, Hrp; congruence).
  all: rewrite Hex in Hs', Hprox |- *; cbn [snd] in Hs', Hprox.
  all: eexists _, _; (split; [reflexivity |]).
  all: pose proof (Inv_alcancavel _ Hs') as HI'.
  all: pose proof (Inv2_alcancavel _ Hs') as HJ'.
  all: destruct (py_remove_NoDup _ _ _ Ht (inv_todas_nodup s HI)) as [_ Hrt].
  - set (s' := mkEstado _ _ _ _ _ _ _ _) in *.
    split; [exact Ht |]. split; [intros; congruence |].
    split; [intros _; by repeat split |].
    split; [done |]. split; [intros b0 c0 Hb0 _; exact Hb0 |].
    split; [exact Hrt |].
    split; [| split; [| split; [| done]]].
    + rewrite (inv2_aprovadas s' HJ'), list_elem_of_filter. intros [_ H].
      exact (Hrt H).
    + rewrite (inv2_reprovadas s' HJ'), list_elem_of_filter. intros [_ H].
      exact (Hrt H).
    + intros b0 c0 Hb0 Hr0.
      destruct (inv_conteudo s' HI' b0 c0 r Hb0 Hr0) as (p' & [Hin _] & _).
      exact (Hrt Hin).
  - set (s' := apos_remover_da_caixa _ r p b c l' cs') in *.
    assert (Hm : mem_pecas s' = <[r := set_caixa None p]> (mem_pecas s)).
    { unfold s', apos_remover_da_caixa. by destruct (length l' =? 0)%nat. }
    assert (Htd : todas_pecas s' = t').
    { unfold s', apos_remover_da_caixa. by destruct (length l' =? 0)%nat. }
    assert (Hapr : pecas_aprovadas s' = ap').
    { unfold s', apos_remover_da_caixa. by destruct (length l' =? 0)%nat. }
    assert (Hrep : pecas_reprovadas s' = pecas_reprovadas s).
    { unfold s', apos_remover_da_caixa. by destruct (length l' =? 0)%nat. }
    assert (Hcx : forall b0 c0, caixa_em s b0 c0 -> r ∉ pecas c0 -> caixa_em s' b0 c0).
    { intros b0 c0 Hb0 Hr0.
      assert (Hneb : b0 <> b).
      { intros ->. destruct Hb0 as [_ Hb0], Hbc as [_ Hbc']. congruence. }
      unfold s', apos_remover_da_caixa. simpl_estado.
      destruct (length l' =? 0)%nat.
      - eapply (caixa_em_apagada s _ b cs' _ HI Hcs'); [reflexivity | reflexivity |].
        by split.
      - eapply (caixa_em_alterada s _ b c _ Hbc); [reflexivity | reflexivity |].
        left. by split. }
    rewrite Htd, Hapr, Hrep.
    split; [done |]. split; [done |]. split; [intros; congruence |].
    split; [intros r1 Hne; rewrite Hm; by apply list_lookup_insert_ne |].
    split; [done |]. split; [done |].
    split; [| split; [| split; [| done]]].
    + rewrite <- Hapr, (inv2_aprovadas _ HJ'), list_elem_of_filter, Htd. tauto.
    + rewrite <- Hrep, (inv2_reprovadas _ HJ'), list_elem_of_filter, Htd. tauto.
    + intros b0 c0 Hb0 Hr0.
      destruct (inv_conteudo _ HI' b0 c0 r Hb0 Hr0) as (p' & [Hin _] & _).
      by rewrite Htd in Hin.
Qed.

(** ** Listing the closed boxes *)

Lemma filtra_fechadas_exec s l :
  (forall b, b ∈ l -> is_Some (mem_caixas s !! b)) ->
  SistemaProducao.filtra_fechadas l s
  = (Retorna (filter (caixa_fechada s) l), s).
Proof.
  induction l as [| b l IH]; intros Hv; [done |].
  destruct (Hv b) as [c Hc]; [by left |]. cbn [SistemaProducao.filtra_fechadas].
  rewrite (bind_exec _ _ _ _ _ (le_caixa_exec _ _ _ Hc)).
  rewrite (bind_exec _ _ _ _ _ (IH (fun b0 H => Hv b0 (list_elem_of_further _ _ _ H)))).
  unfold ret. f_equal. f_equal.
  assert (Hiff : caixa_fechada s b <-> fechada c = true).
  { unfold caixa_fechada. rewrite Hc. cbn. split; [by intros [= ->] | by intros ->]. }
  destruct (fechada c).
  - by rewrite filter_cons_True by (by apply Hiff).
  - by rewrite filter_cons_False by (rewrite Hiff; congruence).
Qed.

(** X13. In every ledger state [listar_caixas_fechadas] returns without
    changing the state; the list it returns is the box sequence restricted
    to the boxes marked closed, in the order of the sequence, and a box is
    in it exactly when it is a box of the sequence that holds ten parts. *)
Theorem listar_caixas_fechadas_cheias (s : Estado) :
  alcancavel s ->
  exists l,
    SistemaProducao.listar_caixas_fechadas s = (Retorna l, s)
    /\ l = filter (caixa_fechada s) (caixas s)
    /\ forall b, b ∈ l <-> exists c, caixa_em s b c /\ length (pecas c) = 10%nat.
Proof.
  intros Hs. pose proof (Inv_alcancavel s Hs) as HI.
  exists (filter (caixa_fechada s) (caixas s)). split; [| split; [done |]].
  - unfold SistemaProducao.listar_caixas_fechadas.
    erewrite bind_exec; [| reflexivity].
    apply filtra_fechadas_exec. exact (inv_caixas s HI).
  - intros b. rewrite list_elem_of_filter. unfold caixa_fechada. split.
    + intros [Hf Hin]. destruct (inv_caixas s HI b Hin) as [c Hc].
      rewrite Hc in Hf. injection Hf as Hf. exists c. split; [done |].
      by apply (inv_capacidade s HI b c).
    + intros (c & [Hin Hc] & Hlen). split; [| done]. rewrite Hc. cbn. f_equal.
      by apply (inv_capacidade s HI b c).
Qed.

(** ** What a registration returns *)

(** X18. In every ledger state a registration returns the new part, the
    verdict and the reasons.  The part carries the id the next-id counter
    held, the weight and length given and, for a colour written in ASCII
    characters, the colour given in lower case; the verdict is the one the
    part records, and it is [true] exactly when the weight lies in
    [95, 105] or is NaN, the colour is azul or verde up to letter case, and
    the length lies in [10, 20] or is NaN.  For an approved part the
    reasons returned are [None]; for a rejected part they are the non-empty
    reason list the part records, the part has no box reference, and no
    box, nor the box sequence, nor the current box is changed. *)
Theorem cadastrar_peca_resultado (s : Estado) (w : Numero) (c : string) (l : Numero) :
  alcancavel s ->
  exists r ok m s' p,
    SistemaProducao.cadastrar_peca w c l s = (Retorna (r, ok, m), s')
    /\ peca_em s' r p
    /\ id p = proximo_id s /\ peso p = w
    /\ (so_ascii c = true -> cor p = lower c)
    /\ comprimento p = l
    /\ aprovada p = ok
    /\ (ok = true <->
        (peso_no_padrao w \/ w = NaN) /\ cor_permitida c
        /\ (comprimento_no_padrao l \/ l = NaN))
    /\ (ok = true -> m = None /\ motivos_reprovacao p = [])
    /\ (ok = false ->
        m = Some (motivos_reprovacao p) /\ motivos_reprovacao p <> []
        /\ caixa p = None
        /\ mem_caixas s' = mem_caixas s /\ caixas s' = caixas s
        /\ caixa_atual s' = caixa_atual s)
    /\ proximo_id s' = proximo_id s + 1.
Proof.
  intros Hs. pose proof (Inv_alcancavel s Hs) as HI.
  set (p0 := Peca.__init__ (proximo_id s) w c l).
  assert (Hok : aprovavel p0 = true <->
                (peso_no_padrao w \/ w = NaN) /\ cor_permitida c
                /\ (comprimento_no_padrao l \/ l = NaN)).
  { rewrite aprovavel_iff. cbn. by rewrite <- cor_permitida_lower. }
  assert (Hdados : forall cx,
    let p := set_caixa cx (inspecionada p0) in
    id p = proximo_id s /\ peso p = w /\ cor p = lower c /\ comprimento p = l
    /\ aprovada p = aprovavel p0).
  { intros cx. cbn. rewrite aprovada_inspecionada, id_inspecionada.
    unfold inspecionada. by destruct (aprovavel p0). }
  assert (Hd0 : id (inspecionada p0) = proximo_id s /\ peso (inspecionada p0) = w
                /\ cor (inspecionada p0) = lower c
                /\ comprimento (inspecionada p0) = l
                /\ aprovada (inspecionada p0) = aprovavel p0).
  { rewrite aprovada_inspecionada, id_inspecionada.
    unfold inspecionada. by destruct (aprovavel p0). }
  destruct (cadastrar_peca_casos w c l s HI)
    as [[Hap ->] | [(Hap & _ & ->) | (b & cx & Hap & Hat & Hcx & Hf & Hlen & ->)]];
    fold p0 in Hap |- *.
  - eexists _, false, _, _, (inspecionada p0). split; [reflexivity |].
    split; [split; cbn; [apply elem_of_app; right; by apply list_elem_of_singleton
                        | apply lookup_final] |].
    destruct Hd0 as (? & ? & ? & ? & ?).
    do 5 (split; [done || congruence |]).
    split; [rewrite <- Hok, Hap; split; discriminate |].
    split; [discriminate |]. split; [| done]. intros _.
    rewrite (motivos_inspecionada p0 eq_refl), Hap, caixa_inspecionada.
    split; [done |]. split; [| done].
    unfold aprovavel in Hap. destruct (motivos_de p0); [discriminate | done].
  - eexists _, true, _, _, (set_caixa _ (inspecionada p0)). split; [reflexivity |].
    split; [split; cbn; [apply elem_of_app; right; by apply list_elem_of_singleton
                        | apply lookup_final] |].
    destruct (Hdados (Some (Z.of_nat (length (caixas s)) + 1)))
      as (? & ? & ? & ? & ?).
    do 5 (split; [done || congruence |]).
    split; [rewrite <- Hok, Hap; done |].
    split; [| split; [discriminate | done]]. intros _. split; [done |].
    cbn. by rewrite (motivos_inspecionada p0 eq_refl), Hap.
  - eexists _, true, _, _, (set_caixa _ (inspecionada p0)). split; [reflexivity |].
    split; [split; cbn; [apply elem_of_app; right; by apply list_elem_of_singleton
                        | apply lookup_final] |].
    destruct (Hdados (Some (numero cx))) as (? & ? & ? & ? & ?).
    do 5 (split; [done || congruence |]).
    split; [rewrite <- Hok, Hap; done |].
    split; [| split; [discriminate | done]]. intros _. split; [done |].
    cbn. by rewrite (motivos_inspecionada p0 eq_refl), Hap.
Qed.

(** ** The batch importer: header and accounting *)

(** What one row does in a ledger state: one error and nothing else, or
    one registration. *)
Lemma processa_linha_casos float fieldnames n row t a r erros s :
  Inv s ->
  (exists e,
     SistemaProducao.processa_linha float fieldnames n row (t, a, r, erros) s
     = (Retorna (t, a, r, erros ++ [e]), s)
     /\ linha_do_erro e = Some n)
  \/ (exists x vc y (ok : bool),
        SistemaProducao.processa_linha float fieldnames n row (t, a, r, erros) s
        = (Retorna (t + 1, (if ok then a + 1 else a),
                    (if ok then r else r + 1), erros),
           passo (Cadastrar x vc y) s)).
Proof.
  intros HI.
  unfold SistemaProducao.processa_linha, tenta, bind,
    SistemaProducao.campo, SistemaProducao.py_float, levanta, ret.
  destruct (dict_linha fieldnames row "peso") as [[vp |] |];
    [| left; eexists; split; [reflexivity | done] ..].
  destruct (float (strip vp)) as [x |];
    [| left; eexists; split; [reflexivity | done]].
  destruct (dict_linha fieldnames row "cor") as [[vc |] |];
    [| left; eexists; split; [reflexivity | done] ..].
  destruct (dict_linha fieldnames row "comprimento") as [[vl |] |];
    [| left; eexists; split; [reflexivity | done] ..].
  destruct (float (strip vl)) as [y |];
    [| left; eexists; split; [reflexivity | done]].
  right. destruct (cadastrar_peca_retorna x (strip vc) y s HI)
    as (peca & ok & m & s' & Hcad).
  exists x, (strip vc), y, ok. unfold passo. rewrite Hcad. cbn.
  by destruct ok.
Qed.

Lemma processa_linhas_contas float fieldnames rows :
  forall n t a r erros s,
  Inv s ->
  exists t' a' r' erros' ops,
    SistemaProducao.processa_linhas float fieldnames n rows (t, a, r, erros) s
    = (Retorna (t + t', a + a', r + r', erros ++ erros'), executar ops s)
    /\ t' = a' + r' /\ 0 <= a' /\ 0 <= r'
    /\ t' = Z.of_nat (length ops)
    /\ Forall eh_cadastro ops
    /\ (length ops + length erros' = length rows)%nat
    /\ Forall (fun e => exists k, linha_do_erro e = Some k
                                  /\ n <= k < n + Z.of_nat (length rows)) erros'.
Proof.
  induction rows as [| row rows IH]; intros n t a r erros s HI.
  - exists 0, 0, 0, [], []. cbn. rewrite !Z.add_0_r, app_nil_r.
    repeat split; try done; try lia.
  - cbn [SistemaProducao.processa_linhas].
    destruct (processa_linha_casos float fieldnames n row t a r erros s HI)
      as [(e & He & Hn) | (x & vc & y & ok & He)];
      rewrite (bind_exec _ _ _ _ _ He).
    + destruct (IH (n + 1) t a r (erros ++ [e]) s HI)
        as (t' & a' & r' & erros' & ops & Hex & H1 & H2 & H3 & H4 & H5 & H6 & H7).
      exists t', a', r', (e :: erros'), ops. rewrite Hex.
      split; [by rewrite <- app_assoc |].
      repeat (split; [done |]). split; [cbn; lia |].
      apply Forall_cons. split.
      * exists n. split; [done |]. cbn [length]. lia.
      * eapply Forall_impl; [exact H7 |]. cbn. intros e0 (k & Hk & Hr).
        exists k. split; [done |]. lia.
    + destruct (IH (n + 1) (t + 1) (if ok then a + 1 else a)
                  (if ok then r else r + 1) erros
                  (passo (Cadastrar x vc y) s) (Inv_passo _ _ HI))
        as (t' & a' & r' & erros' & ops & Hex & H1 & H2 & H3 & H4 & H5 & H6 & H7).
      exists (1 + t'), ((if ok then 1 else 0) + a'),
        ((if ok then 0 else 1) + r'), erros', (Cadastrar x vc y :: ops).
      rewrite Hex. split.
      { cbn [executar].
        replace (t + 1 + t') with (t + (1 + t')) by lia.
        replace ((if ok then a + 1 else a) + a')
          with (a + ((if ok then 1 else 0) + a')) by (destruct ok; lia).
        replace ((if ok then r else r + 1) + r')
          with (r + ((if ok then 0 else 1) + r')) by (destruct ok; lia).
        done. }
      split; [destruct ok; lia |]. split; [destruct ok; lia |].
      split; [destruct ok; lia |]. split; [cbn [length]; lia |].
      split; [by apply Forall_cons |]. split; [cbn; lia |].
      eapply Forall_impl; [exact H7 |]. cbn. intros e0 (k & Hk & Hr).
      exists k. split; [done |]. lia.
Qed.

(** X15. In every ledger state, a batch whose header holds the three field
    names returns normally, and every data row the reader yields is
    accounted for exactly once: it either registers one part or adds one
    error tagged with its row number (from 2 on).  So the number processed
    is the number approved plus the number rejected, the number processed
    plus the number of row errors is the number of data rows read, the
    ledger is left as the registrations alone leave it (a batch removes
    nothing), and the next-id counter grows by the number processed.  If
    the reader raises after these rows, the batch ends there: the counters
    and the registrations made so far are kept, and one more entry, "Erro
    ao ler arquivo", which carries no row number, is added after the row
    errors. *)
Theorem lote_contabiliza_cada_linha (float : string -> option Numero)
    (fieldnames : list string) (resto : list (list string))
    (falha : option Excecao) (s : Estado) :
  alcancavel s ->
  cabecalho_valido fieldnames ->
  exists t a r erros ops,
    SistemaProducao.processar_lote_csv float
      (Some (mkLeitor (fieldnames :: resto) falha)) s
    = (Retorna (t, a, r,
                erros ++ match falha with
                         | None => []
                         | Some e => [ErroAoLerArquivo e]
                         end),
       executar ops s)
    /\ t = a + r /\ 0 <= a /\ 0 <= r
    /\ t = Z.of_nat (length ops)
    /\ Forall eh_cadastro ops
    /\ (length ops + length erros = length (linhas_de_dados resto))%nat
    /\ Forall (fun e => exists k,
                 linha_do_erro e = Some k
                 /\ 2 <= k < 2 + Z.of_nat (length (linhas_de_dados resto))) erros
    /\ proximo_id (executar ops s) = proximo_id s + t
    /\ alcancavel (executar ops s).
Proof.
  intros Hs Hcab. pose proof (Inv_alcancavel s Hs) as HI.
  unfold SistemaProducao.processar_lote_csv. cbn [registros interrupcao].
  rewrite (cabecalho_valido_aceito _ Hcab). cbn [negb].
  fold (linhas_de_dados resto).
  destruct (processa_linhas_contas float fieldnames (linhas_de_dados resto)
              2 0 0 0 [] s HI)
    as (t & a & r & erros & ops & Hex & H1 & H2 & H3 & H4 & H5 & H6 & H7).
  exists t, a, r, erros, ops. rewrite (bind_exec _ _ _ _ _ Hex).
  cbn [app]. rewrite !Z.add_0_l.
  split; [destruct falha; cbn; [done | by rewrite app_nil_r] |].
  repeat (split; [done |]). split.
  - rewrite H4. clear Hex H4 H6. revert s Hs HI.
    induction ops as [| op ops IH]; intros s Hs HI; cbn [executar length].
    + lia.
    + apply Forall_cons in H5 as [Hop H5]. destruct op as [w c l | i]; [| done].
      rewrite (IH H5 _ (alcancavel_passo _ _ Hs) (Inv_passo _ _ HI)).
      destruct (proximo_id_cadastrar w c l s HI) as [_ ->]. lia.
  - destruct Hs as [ops0 ->]. exists (ops0 ++ ops). by rewrite executar_app.
Qed.

(** ** The batch importer: fields are read by name *)

Lemma dict_linha_ausente fieldnames row k :
  k ∉ fieldnames -> dict_linha fieldnames row k = None.
Proof.
  revert row. induction fieldnames as [| f fs IH]; intros row Hk; [done |].
  apply not_elem_of_cons in Hk as [Hne Hk]. cbn. rewrite (IH _ Hk).
  destruct (String.eqb_spec f k); [congruence | done].
Qed.

Lemma dict_linha_posicao fieldnames :
  forall row i k,
  NoDup fieldnames ->
  fieldnames !! i = Some k ->
  dict_linha fieldnames row k = Some (row !! i).
Proof.
  induction fieldnames as [| f fs IH]; intros row i k Hnd Hi; [done |].
  apply NoDup_cons in Hnd as [Hf Hnd]. destruct i as [| i]; cbn in Hi |- *.
  - injection Hi as ->. rewrite (dict_linha_ausente _ _ _ Hf).
    rewrite String.eqb_refl. by destruct row.
  - rewrite (IH (tail row) i k Hnd Hi). by destruct row.
Qed.

(** X17. With a header in which the names peso, cor and comprimento occur
    (in lower case, each name of the header once), a row is read by column
    name, wherever the three columns stand and whatever the other columns
    hold: in every ledger state, a row whose three cells are there and are
    written in ASCII characters, and whose weight and length are read by
    [float], registers the part with the weight, the colour without
    surrounding whitespace and the length, and counts it as processed. *)
Theorem linha_lida_pelo_nome (float : string -> option Numero)
    (fieldnames row : list string) (ip ic il : nat) (vp vc vl : string)
    (x y : Numero) (n t a r : Z) (erros : list ErroLote) (s : Estado) :
  alcancavel s ->
  NoDup fieldnames ->
  fieldnames !! ip = Some "peso" ->
  fieldnames !! ic = Some "cor" ->
  fieldnames !! il = Some "comprimento" ->
  row !! ip = Some vp -> row !! ic = Some vc -> row !! il = Some vl ->
  so_ascii vp = true -> so_ascii vc = true -> so_ascii vl = true ->
  float (strip vp) = Some x -> float (strip vl) = Some y ->
  exists peca ok m s',
    SistemaProducao.cadastrar_peca x (strip vc) y s = (Retorna (peca, ok, m), s')
    /\ SistemaProducao.processa_linha float fieldnames n row (t, a, r, erros) s
       = (Retorna (t + 1, (if ok then a + 1 else a),
                   (if ok then r else r + 1), erros), s').
Proof.
  intros Hs Hnd Hip Hic Hil Hvp Hvc Hvl _ _ _ Hx Hy.
  destruct (cadastrar_peca_retorna x (strip vc) y s (Inv_alcancavel _ Hs))
    as (peca & ok & m & s' & Hcad).
  exists peca, ok, m, s'. split; [done |].
  unfold SistemaProducao.processa_linha, tenta, bind,
    SistemaProducao.campo, SistemaProducao.py_float, ret.
  rewrite (dict_linha_posicao _ row ip _ Hnd Hip), Hvp, Hx.
  rewrite (dict_linha_posicao _ row ic _ Hnd Hic), Hvc.
  rewrite (dict_linha_posicao _ row il _ Hnd Hil), Hvl, Hy, Hcad.
  cbn. by destruct ok.
Qed.

(** X19. With a header of distinct names that has the column peso, a row
    that is too short to have a weight cell
    is not reported as a missing column: [csv.DictReader] gives the cell
    the value [None], whose [strip] fails, and the row adds the single
    error "Erro inesperado" with its row number; the counters and the
    ledger are not changed. *)
Theorem linha_curta_e_erro_inesperado (float : string -> option Numero)
    (fieldnames row : list string) (ip : nat)
    (n t a r : Z) (erros : list ErroLote) (s : Estado) :
  NoDup fieldnames ->
  fieldnames !! ip = Some "peso" ->
  (length row <= ip)%nat ->
  SistemaProducao.processa_linha float fieldnames n row (t, a, r, erros) s
  = (Retorna (t, a, r, erros ++ [ErroInesperado n AttributeError]), s).
Proof.
  intros Hnd Hip Hlen.
  unfold SistemaProducao.processa_linha, tenta, bind, SistemaProducao.campo,
    levanta, ret.
  rewrite (dict_linha_posicao _ row ip _ Hnd Hip).
  by rewrite (lookup_ge_None_2 row ip Hlen).
Qed.

(** ** Packing without removals *)

Lemma lookup_ultimo {A} (l : list A) (b : nat) (x : A) :
  l !! b = Some x -> S b = length l -> l = take b l ++ [x].
Proof.
  intros Hb Hlen. rewrite <- (take_drop_middle l b x Hb) at 1. f_equal. f_equal.
  apply length_zero_iff_nil. rewrite length_drop. lia.
Qed.

Lemma last_seq n : last (seq 0 (S n)) = Some n.
Proof. rewrite seq_S. apply last_snoc. Qed.

Lemma omap_ext_elem_of {A B} (f g : A -> option B) (l : list A) :
  (forall x, x ∈ l -> f x = g x) -> omap f l = omap g l.
Proof.
  induction l as [| a l IH]; intros Hext; [done |]. cbn.
  rewrite (Hext a) by (by left).
  rewrite IH; [done |]. intros x Hx. apply Hext. by right.
Qed.

Lemma omap_lookup_seq {A} (l : list A) :
  omap (fun b => l !! b) (seq 0 (length l)) = l.
Proof.
  induction l as [| x l IH] using rev_ind; [done |].
  rewrite length_app. cbn [length]. rewrite Nat.add_1_r, seq_S, omap_app. cbn.
  rewrite lookup_final. cbn. f_equal.
  etransitivity; [| exact IH]. apply omap_ext_elem_of.
  intros b Hb. apply elem_of_seq in Hb. apply lookup_app_l. lia.
Qed.

Lemma Empacotado_inicial : Empacotado SistemaProducao.__init__.
Proof. constructor; by cbn. Qed.

Lemma Empacotado_cadastrar_peca w c l s :
  Inv s -> Inv2 s -> Empacotado s ->
  Empacotado (snd (SistemaProducao.cadastrar_peca w c l s)).
Proof.
  intros HI HJ [E1 E2 E3 E4].
  pose proof (inv2_atual s HJ) as Hat0.
  destruct (cadastrar_peca_casos w c l s HI)
    as [[Hap ->] | [(Hap & Hat & ->) | (b & cx & Hap & Hat & Hcx & Hf & Hlen & ->)]];
    cbn [snd].
  - by constructor.
  - constructor; cbn.
    + rewrite length_app. cbn. by rewrite Nat.add_1_r, seq_S, E1.
    + rewrite length_app. cbn. rewrite Nat.add_1_r, seq_S, !fmap_app, E2. cbn.
      rewrite E1, length_seq. do 2 f_equal. lia.
    + rewrite fmap_app, concat_app, E3. by cbn.
    + intros k c0 Hk Hlt. rewrite length_app in Hlt. cbn in Hlt.
      assert (Hk' : (k < length (mem_caixas s))%nat) by lia.
      rewrite lookup_app_l in Hk by done.
      destruct (decide (S k < length (mem_caixas s))%nat) as [Hlt' | Hge];
        [by apply (E4 k c0) |].
      assert (Hkl : length (mem_caixas s) = S k) by lia.
      rewrite E1, Hkl, last_seq in Hat0.
      destruct Hat as [Hat | (b & cx & Hat & Hcx & Hlen)]; [congruence |].
      rewrite Hat in Hat0. injection Hat0 as ->.
      rewrite Hcx in Hk. injection Hk as <-.
      destruct (inv_capacidade s HI k cx) as [Hle _]; [| lia].
      split; [| done]. rewrite E1, Hkl. apply elem_of_seq. lia.
  - assert (Hb : S b = length (mem_caixas s)).
    { rewrite Hat, E1 in Hat0. pose proof (lookup_lt_Some _ _ _ Hcx) as Hlt.
      destruct (length (mem_caixas s)) as [| n]; [lia |].
      rewrite last_seq in Hat0. congruence. }
    pose proof (lookup_ultimo _ _ _ Hcx Hb) as Hdec.
    assert (Hlt : length (take b (mem_caixas s)) = b) by (rewrite length_take; lia).
    constructor; cbn.
    + by rewrite length_insert.
    + rewrite length_insert, list_fmap_insert. cbn.
      rewrite list_insert_id; [done |]. by rewrite list_lookup_fmap, Hcx.
    + rewrite <- E3. rewrite Hdec at 2. rewrite Hdec at 1.
      rewrite <- Hlt at 1. rewrite insert_final.
      rewrite !fmap_app, !concat_app. cbn. by rewrite !app_nil_r, app_assoc.
    + intros k c0 Hk Hklt. rewrite length_insert in Hklt.
      rewrite list_lookup_insert_ne in Hk by lia. by apply (E4 k c0).
Qed.

Lemma invariantes_dos_cadastros args :
  let s := executar (cadastros args) SistemaProducao.__init__ in
  Inv s /\ Inv2 s /\ Empacotado s.
Proof.
  assert (H : forall s0, Inv s0 -> Inv2 s0 -> Empacotado s0 ->
            let s := executar (cadastros args) s0 in
            Inv s /\ Inv2 s /\ Empacotado s).
  { induction args as [| [[w c] l] args IH]; intros s0 HI HJ HE; [done |].
    cbn [cadastros map executar passo].
    apply IH.
    - by apply Inv_cadastrar_peca.
    - by apply Inv2_cadastrar_peca.
    - by apply Empacotado_cadastrar_peca. }
  apply H; [apply Inv_inicial | apply Inv2_inicial | apply Empacotado_inicial].
Qed.

(** X16. In a run of registrations alone from the empty ledger, the
    approved parts are packed ten to a box in arrival order: the boxes of
    the box sequence are numbered 1, 2, 3, ... in order, their parts read
    box after box are exactly the approved list, every box before the
    last one holds ten parts, and the last one holds from one to ten. *)
Theorem empacotamento_sem_remocoes (args : list (Numero * string * Numero)) :
  let s := executar (cadastros args) SistemaProducao.__init__ in
  length (caixas_em_ordem s) = length (caixas s)
  /\ numero <$> caixas_em_ordem s = Z.of_nat <$> seq 1 (length (caixas s))
  /\ concat (pecas <$> caixas_em_ordem s) = pecas_aprovadas s
  /\ forall k c,
       caixas_em_ordem s !! k = Some c ->
       (1 <= length (pecas c) <= 10)%nat
       /\ ((S k < length (caixas s))%nat -> length (pecas c) = 10%nat).
Proof.
  intros s. destruct (invariantes_dos_cadastros args) as (HI & HJ & [E1 E2 E3 E4]).
  fold s in HI, HJ, E1, E2, E3, E4.
  assert (Hord : caixas_em_ordem s = mem_caixas s).
  { unfold caixas_em_ordem. rewrite E1. apply omap_lookup_seq. }
  assert (Hlen : length (caixas s) = length (mem_caixas s))
    by (by rewrite E1, length_seq).
  rewrite Hord, Hlen. split; [done |]. split; [done |]. split; [done |].
  intros k c Hk.
  assert (Hbc : caixa_em s k c).
  { split; [| done]. rewrite E1. apply elem_of_seq.
    apply lookup_lt_Some in Hk. lia. }
  destruct (inv_capacidade s HI k c Hbc) as [Hle _].
  pose proof (inv2_nao_vazia s HJ k c Hbc) as Hne.
  split; [| by apply E4]. split; [| done]. destruct (pecas c); [done | cbn; lia].
Qed.

(** ** The lists are in id order *)

Lemma elem_of_ids_das_pecas s l x :
  x ∈ ids_das_pecas s l ->
  exists r p, r ∈ l /\ mem_pecas s !! r = Some p /\ id p = x.
Proof.
  unfold ids_das_pecas. rewrite list_elem_of_omap. intros (r & Hr & Hx).
  destruct (mem_pecas s !! r) as [p |] eqn:Hp; [| done].
  injection Hx as <-. by exists r, p.
Qed.

Lemma ids_das_pecas_filter s (P : nat -> Prop) `{!forall x, Decision (P x)} l :
  StronglySorted Z.lt (ids_das_pecas s l) ->
  StronglySorted Z.lt (ids_das_pecas s (filter P l)).
Proof.
  induction l as [| r l IH]; intros Hs; [done |].
  assert (Hl : StronglySorted Z.lt (ids_das_pecas s l)).
  { unfold ids_das_pecas in Hs |- *. cbn in Hs.
    destruct (id <$> mem_pecas s !! r); [| done].
    by apply StronglySorted_cons in Hs as [_ Hs]. }
  destruct (decide (P r)); [| rewrite filter_cons_False by done; by apply IH].
  rewrite filter_cons_True by done.
  unfold ids_das_pecas in Hs |- *. cbn in Hs |- *.
  destruct (id <$> mem_pecas s !! r) as [x |]; [| by apply IH].
  apply StronglySorted_cons in Hs as [Hx _]. apply StronglySorted_cons.
  split; [| by apply IH]. rewrite Forall_forall in Hx |- *.
  intros y Hy. apply Hx. rewrite list_elem_of_omap in Hy |- *.
  destruct Hy as (r0 & Hr0 & Hy). exists r0. split; [| done].
  apply list_elem_of_filter in Hr0. tauto.
Qed.

Lemma ordenada_passo op s :
  Inv s ->
  StronglySorted Z.lt (ids_das_pecas s (todas_pecas s)) ->
  StronglySorted Z.lt
    (ids_das_pecas (passo op s) (todas_pecas (passo op s))).
Proof.
  intros HI Hs. destruct op as [w c l | i]; unfold passo.
  - assert (H : exists pn s',
        snd (SistemaProducao.cadastrar_peca w c l s) = s'
        /\ mem_pecas s' = mem_pecas s ++ [pn]
        /\ todas_pecas s' = todas_pecas s ++ [length (mem_pecas s)]
        /\ id pn = proximo_id s).
    { pose proof (cadastrar_peca_casos w c l s HI) as Hc. cbv zeta in Hc.
      destruct Hc
        as [[_ ->] | [(_ & _ & ->) | (b & cx & _ & _ & _ & _ & _ & ->)]];
        eexists _, _; (split; [reflexivity |]); cbn;
        (split; [reflexivity |]); (split; [reflexivity |]);
        unfold set_caixa; cbn; apply id_inspecionada. }
    destruct H as (pn & s' & -> & Hm & Ht & Hid).
    unfold ids_das_pecas in Hs |- *. rewrite Ht, omap_app, Hm. cbn.
    rewrite lookup_final. cbn.
    assert (Hext : omap (fun r => id <$> (mem_pecas s ++ [pn]) !! r) (todas_pecas s)
                   = omap (fun r => id <$> mem_pecas s !! r) (todas_pecas s)).
    { apply omap_ext_elem_of. intros r Hr.
      destruct (inv_todas s HI r Hr) as [p Hp].
      by rewrite (lookup_app_l_Some _ _ _ _ Hp), Hp. }
    rewrite Hext. apply StronglySorted_app. split; [| split; [done |]].
    + intros x1 x2 Hx1 ->%list_elem_of_singleton.
      destruct (elem_of_ids_das_pecas s _ _ Hx1) as (r & p & Hr & Hp & <-).
      rewrite Hid. by apply (inv_ids s HI r p).
    + repeat constructor.
  - destruct (remover_peca_casos i s HI) as [[_ ->] | Hrem]; [done |].
    assert (H : exists r s',
        snd (SistemaProducao.remover_peca i s) = s'
        /\ py_remove r (todas_pecas s) = Some (todas_pecas s')
        /\ forall r0, r0 <> r -> mem_pecas s' !! r0 = mem_pecas s !! r0).
    { destruct Hrem
        as [(r & p & t' & rp' & _ & _ & _ & Ht & _ & ->)
           | (r & p & t' & ap' & b & c & l' & cs' & _ & _ & _ & _ & _ & Ht & _
              & _ & _ & ->)]; exists r; eexists; (split; [reflexivity |]);
        cbn [snd].
      - by split.
      - unfold apos_remover_da_caixa.
        destruct (length l' =? 0)%nat; cbn; (split; [done |]);
          intros r0 Hne; by apply list_lookup_insert_ne. }
    destruct H as (r & s' & -> & Ht & Hm).
    destruct (py_remove_NoDup _ _ _ Ht (inv_todas_nodup s HI)) as [_ Hnot].
    apply py_remove_Some in Ht as (l1 & l2 & Hl & Hl' & _).
    assert (Hext : ids_das_pecas s' (todas_pecas s')
                   = ids_das_pecas s (todas_pecas s')).
    { apply omap_ext_elem_of. intros r0 Hr0. rewrite Hm; [done |]. by intros ->. }
    rewrite Hext, Hl'. rewrite Hl in Hs. unfold ids_das_pecas in Hs |- *.
    rewrite omap_app in Hs |- *. cbn in Hs.
    apply StronglySorted_app in Hs as (H12 & H1 & H2).
    apply StronglySorted_app. split; [| split; [done |]].
    + intros x1 x2 Hx1 Hx2. apply H12; [done |].
      destruct (id <$> mem_pecas s !! r); [by right | done].
    + destruct (id <$> mem_pecas s !! r); [| done].
      by apply StronglySorted_cons in H2 as [_ H2].
Qed.

Lemma ordenada_executar ops s :
  Inv s ->
  StronglySorted Z.lt (ids_das_pecas s (todas_pecas s)) ->
  StronglySorted Z.lt
    (ids_das_pecas (executar ops s) (todas_pecas (executar ops s))).
Proof.
  revert s. induction ops as [| op ops IH]; intros s HI Hs; [done |].
  cbn [executar]. apply IH; [by apply Inv_passo | by apply ordenada_passo].
Qed.

(** X20. In every ledger state the master list, the approved list and the
    rejected list are in strictly increasing order of id, which is the
    order of registration: a removal never reorders the parts that stay,
    and a registration adds the part with the largest id at the end. *)
Theorem listas_em_ordem_de_id (s : Estado) :
  alcancavel s ->
  StronglySorted Z.lt (ids_das_pecas s (todas_pecas s))
  /\ StronglySorted Z.lt (ids_das_pecas s (pecas_aprovadas s))
  /\ StronglySorted Z.lt (ids_das_pecas s (pecas_reprovadas s))
  /\ length (ids_das_pecas s (todas_pecas s)) = length (todas_pecas s).
Proof.
  intros Hs. pose proof (Inv2_alcancavel s Hs) as HJ.
  pose proof (Inv_alcancavel s Hs) as HI.
  assert (Ht : StronglySorted Z.lt (ids_das_pecas s (todas_pecas s))).
  { destruct Hs as [ops ->].
    apply ordenada_executar; [apply Inv_inicial | constructor]. }
  split; [done |].
  split; [rewrite (inv2_aprovadas s HJ); by apply ids_das_pecas_filter |].
  split; [rewrite (inv2_reprovadas s HJ); by apply ids_das_pecas_filter |].
  pose proof (inv_todas s HI) as Hv. clear -Hv.
  induction (todas_pecas s) as [| r l IH]; [done |].
  unfold ids_das_pecas in IH |- *. cbn.
  destruct (Hv r) as [p ->]; [by left |]. cbn. f_equal.
  apply IH. intros r0 Hr0. apply Hv. by right.
Qed.

(** ** The ledger theorems at concrete runs *)

Ltac estado_alcancavel := eexists; reflexivity.
Ltac objeto_em :=
  split; [vm_compute; repeat constructor | vm_compute; reflexivity].

(** The only box after one approved and one rejected registration. *)
Lemma caixa_entre_uma_e_dez_exemplo :
  let s := executar [Cadastrar 100 "azul" 15; Cadastrar 200 "roxo" 5]
             SistemaProducao.__init__ in
  let c := mkCaixa 1 [0%nat] false in
  alcancavel s /\ caixa_em s 0%nat c
  /\ (1 <= length (pecas c) <= 10)%nat
  /\ (fechada c = true <-> length (pecas c) = 10%nat).
Proof.
  intros s c.
  assert (Hs : alcancavel s) by estado_alcancavel.
  assert (Hc : caixa_em s 0%nat c) by objeto_em.
  split; [exact Hs |]. split; [exact Hc |].
  exact (caixa_entre_uma_e_dez s 0%nat c Hs Hc).
Defined.

(** Eleven approved parts: the current box is the second one. *)
Lemma caixa_atual_e_a_ultima_exemplo :
  let s := executar (replicate 11 (Cadastrar 100 "azul" 15))
             SistemaProducao.__init__ in
  alcancavel s
  /\ caixa_atual s = last (caixas s)
  /\ (caixa_atual s = None <-> caixas s = []).
Proof.
  intros s.
  assert (Hs : alcancavel s) by estado_alcancavel.
  split; [exact Hs |]. exact (caixa_atual_e_a_ultima s Hs).
Defined.

(** One approved and one rejected part, then the approved one removed. *)
Lemma listas_derivadas_particionam_exemplo :
  let s := executar [Cadastrar 100 "azul" 15; Cadastrar 200 "roxo" 5;
                     Cadastrar 99 "verde" 10; Remover 1]
             SistemaProducao.__init__ in
  alcancavel s
  /\ pecas_aprovadas s = filter (tem_veredito s true) (todas_pecas s)
  /\ pecas_reprovadas s = filter (tem_veredito s false) (todas_pecas s)
  /\ (length (pecas_aprovadas s) + length (pecas_reprovadas s)
      = length (todas_pecas s))%nat.
Proof.
  intros s.
  assert (Hs : alcancavel s) by estado_alcancavel.
  destruct (listas_derivadas_particionam s Hs) as (H1 & H2 & _ & _ & H5).
  split; [exact Hs |]. split; [exact H1 |]. split; [exact H2 | exact H5].
Defined.

(** The stored record of a part whose weight is NaN. *)
Lemma veredito_registrado_exemplo :
  let s := executar [Cadastrar NaN "AZUL" 15; Cadastrar 200 "roxo" 5]
             SistemaProducao.__init__ in
  let p := mkPeca 1 NaN "azul" 15 true [] (Some 1) in
  alcancavel s /\ peca_em s 0%nat p
  /\ ControleQualidade.inspecionar_peca 0%nat s = (Retorna (aprovada p), s)
  /\ (aprovada p = true <->
      (peso_no_padrao (peso p) \/ peso p = NaN)
      /\ (cor p ∈ ControleQualidade.CORES_VALIDAS)
      /\ (comprimento_no_padrao (comprimento p) \/ comprimento p = NaN))
  /\ (aprovada p = true <-> motivos_reprovacao p = []).
Proof.
  intros s p.
  assert (Hs : alcancavel s) by estado_alcancavel.
  assert (Hp : peca_em s 0%nat p) by objeto_em.
  destruct (veredito_registrado s 0%nat p Hs Hp) as (H1 & H2 & H3 & _).
  split; [exact Hs |]. split; [exact Hp |]. split; [exact H1 |].
  split; [exact H2 | exact H3].
Defined.

(** The second part of a ledger with two approved parts sits in box 1. *)
Lemma referencia_da_caixa_exemplo :
  let s := executar [Cadastrar 100 "azul" 15; Cadastrar 101 "verde" 12]
             SistemaProducao.__init__ in
  let p := mkPeca 2 101 "verde" 12 true [] (Some 1) in
  alcancavel s /\ peca_em s 1%nat p
  /\ exists b c, caixa_em s b c /\ (1%nat ∈ pecas c)
                 /\ caixa p = Some (numero c).
Proof.
  intros s p.
  assert (Hs : alcancavel s) by estado_alcancavel.
  assert (Hp : peca_em s 1%nat p) by objeto_em.
  destruct (referencia_da_caixa s 1%nat p Hs Hp) as (_ & H2 & _).
  split; [exact Hs |]. split; [exact Hp |]. exact (H2 eq_refl).
Defined.

(** Twelve approved parts in two boxes, after removing the third. *)
Lemma caixas_guardam_as_aprovadas_exemplo :
  let s := executar (replicate 12 (Cadastrar 100 "azul" 15) ++ [Remover 3])
             SistemaProducao.__init__ in
  alcancavel s
  /\ (forall r, r ∈ pecas_aprovadas s
                <-> exists b c, caixa_em s b c /\ r ∈ pecas c)
  /\ (forall b c, caixa_em s b c -> NoDup (pecas c)).
Proof.
  intros s.
  assert (Hs : alcancavel s) by estado_alcancavel.
  destruct (caixas_guardam_as_aprovadas s Hs) as (H1 & _ & H3).
  split; [exact Hs |]. split; [exact H1 | exact H3].
Defined.

(** Two registered parts have different ids, both below the next id. *)
Lemma ids_distintos_e_limitados_exemplo :
  let s := executar [Cadastrar 100 "azul" 15; Cadastrar 101 "verde" 12]
             SistemaProducao.__init__ in
  let p1 := mkPeca 1 100 "azul" 15 true [] (Some 1) in
  let p2 := mkPeca 2 101 "verde" 12 true [] (Some 1) in
  alcancavel s /\ peca_em s 0%nat p1 /\ peca_em s 1%nat p2
  /\ (id p1 = id p2 -> 0%nat = 1%nat)
  /\ 1 <= id p1 < proximo_id s.
Proof.
  intros s p1 p2.
  assert (Hs : alcancavel s) by estado_alcancavel.
  assert (Hp1 : peca_em s 0%nat p1) by objeto_em.
  assert (Hp2 : peca_em s 1%nat p2) by objeto_em.
  split; [exact Hs |]. split; [exact Hp1 |]. split; [exact Hp2 |].
  exact (ids_distintos_e_limitados s 0%nat 1%nat p1 p2 Hs Hp1 Hp2).
Defined.

(** Looking up id 2 in a ledger of two parts. *)
Lemma buscar_peca_correta_exemplo :
  let s := executar [Cadastrar 100 "azul" 15; Cadastrar 200 "roxo" 5]
             SistemaProducao.__init__ in
  alcancavel s
  /\ exists o,
       SistemaProducao.buscar_peca 2 s = (Retorna o, s)
       /\ (forall r, o = Some r <-> exists p, peca_em s r p /\ id p = 2).
Proof.
  intros s.
  assert (Hs : alcancavel s) by estado_alcancavel.
  destruct (buscar_peca_correta s 2 Hs) as (o & H1 & H2 & _).
  split; [exact Hs |]. exists o. split; [exact H1 | exact H2].
Defined.

(** Registering a third part and looking it up. *)
Lemma buscar_apos_cadastrar_exemplo :
  let s := executar [Cadastrar 100 "azul" 15; Cadastrar 200 "roxo" 5]
             SistemaProducao.__init__ in
  alcancavel s
  /\ exists r ok m s',
       SistemaProducao.cadastrar_peca 97 "Verde" 11 s = (Retorna (r, ok, m), s')
       /\ SistemaProducao.buscar_peca (proximo_id s) s' = (Retorna (Some r), s').
Proof.
  intros s.
  assert (Hs : alcancavel s) by estado_alcancavel.
  destruct (buscar_apos_cadastrar s 97 "Verde" 11 Hs)
    as (r & ok & m & s' & H1 & H2 & _).
  split; [exact Hs |]. exists r, ok, m, s'. split; [exact H1 | exact H2].
Defined.

(** Removing part 1 and looking it up again. *)
Lemma buscar_apos_remover_exemplo :
  let s := executar [Cadastrar 100 "azul" 15; Cadastrar 200 "roxo" 5]
             SistemaProducao.__init__ in
  let s' := snd (SistemaProducao.remover_peca 1 s) in
  alcancavel s
  /\ SistemaProducao.remover_peca 1 s
     = (Retorna (true, "Peça removida com sucesso"), s')
  /\ SistemaProducao.buscar_peca 1 s' = (Retorna None, s')
  /\ SistemaProducao.remover_peca 1 s'
     = (Retorna (false, "Peça não encontrada"), s').
Proof.
  intros s s'.
  assert (Hs : alcancavel s) by estado_alcancavel.
  assert (Hr : SistemaProducao.remover_peca 1 s
               = (Retorna (true, "Peça removida com sucesso"), s'))
    by (vm_compute; reflexivity).
  destruct (buscar_apos_remover s s' 1 _ Hs Hr) as (H1 & H2 & _).
  split; [exact Hs |]. split; [exact Hr |]. split; [exact H1 | exact H2].
Defined.

(** Removal of an id that is registered and of one that is not. *)
Lemma remover_sucede_sse_registrada_exemplo :
  let s := executar [Cadastrar 100 "azul" 15; Cadastrar 200 "roxo" 5]
             SistemaProducao.__init__ in
  alcancavel s
  /\ exists ok msg s',
       SistemaProducao.remover_peca 2 s = (Retorna (ok, msg), s')
       /\ (ok = true <->
           exists r, SistemaProducao.buscar_peca 2 s = (Retorna (Some r), s)).
Proof.
  intros s.
  assert (Hs : alcancavel s) by estado_alcancavel.
  destruct (remover_sucede_sse_registrada s 2 Hs)
    as (ok & msg & s' & H1 & H2 & _).
  split; [exact Hs |]. exists ok, msg, s'. split; [exact H1 | exact H2].
Defined.

(** Removing the approved part 1 from a ledger of three parts. *)
Lemma remover_peca_preserva_exemplo :
  let s := executar [Cadastrar 100 "azul" 15; Cadastrar 200 "roxo" 5;
                     Cadastrar 99 "verde" 10]
             SistemaProducao.__init__ in
  let p := mkPeca 1 100 "azul" 15 true [] (Some 1) in
  alcancavel s /\ peca_em s 0%nat p /\ id p = 1
  /\ exists msg s',
       SistemaProducao.remover_peca 1 s = (Retorna (true, msg), s')
       /\ py_remove 0%nat (todas_pecas s) = Some (todas_pecas s')
       /\ (forall r0, r0 <> 0%nat -> mem_pecas s' !! r0 = mem_pecas s !! r0)
       /\ proximo_id s' = proximo_id s.
Proof.
  intros s p.
  assert (Hs : alcancavel s) by estado_alcancavel.
  assert (Hp : peca_em s 0%nat p) by objeto_em.
  destruct (remover_peca_preserva s 1 0%nat p Hs Hp eq_refl)
    as (msg & s' & H1 & H2 & _ & _ & H5 & _ & _ & _ & _ & _ & H11).
  split; [exact Hs |]. split; [exact Hp |]. split; [reflexivity |].
  exists msg, s'. split; [exact H1 |]. split; [exact H2 |].
  split; [exact H5 | exact H11].
Defined.

(** Twelve approved parts: one closed box and one open box. *)
Lemma listar_caixas_fechadas_cheias_exemplo :
  let s := executar (replicate 12 (Cadastrar 100 "azul" 15))
             SistemaProducao.__init__ in
  alcancavel s
  /\ exists l,
       SistemaProducao.listar_caixas_fechadas s = (Retorna l, s)
       /\ forall b, b ∈ l
                    <-> exists c, caixa_em s b c /\ length (pecas c) = 10%nat.
Proof.
  intros s.
  assert (Hs : alcancavel s) by estado_alcancavel.
  destruct (listar_caixas_fechadas_cheias s Hs) as (l & H1 & _ & H3).
  split; [exact Hs |]. exists l. split; [exact H1 | exact H3].
Defined.

(** Registering a part that fails on weight and colour. *)
Lemma cadastrar_peca_resultado_exemplo :
  let s := executar [Cadastrar 100 "azul" 15] SistemaProducao.__init__ in
  alcancavel s
  /\ exists r ok m s' p,
       SistemaProducao.cadastrar_peca 200 "Roxo" 15 s = (Retorna (r, ok, m), s')
       /\ peca_em s' r p /\ id p = proximo_id s /\ cor p = lower "Roxo"
       /\ aprovada p = ok
       /\ (ok = true <->
           (peso_no_padrao 200 \/ Finito 200 = NaN) /\ cor_permitida "Roxo"
           /\ (comprimento_no_padrao 15 \/ Finito 15 = NaN))
       /\ proximo_id s' = proximo_id s + 1.
Proof.
  intros s.
  assert (Hs : alcancavel s) by estado_alcancavel.
  destruct (cadastrar_peca_resultado s 200 "Roxo" 15 Hs)
    as (r & ok & m & s' & p & H1 & H2 & H3 & _ & H5 & _ & H7 & H8 & _ & _ & H11).
  split; [exact Hs |]. exists r, ok, m, s', p.
  split; [exact H1 |]. split; [exact H2 |]. split; [exact H3 |].
  split; [exact (H5 eq_refl) |]. split; [exact H7 |].
  split; [exact H8 | exact H11].
Defined.

Lemma cabecalho_exemplo : cabecalho_valido ["cor"; "peso"; "comprimento"].
Proof.
  intros nome Hin.
  apply elem_of_cons in Hin as [-> | Hin];
    [exists "peso"; split; [repeat constructor | vm_compute; reflexivity] |].
  apply elem_of_cons in Hin as [-> | Hin];
    [exists "cor"; split; [repeat constructor | vm_compute; reflexivity] |].
  apply list_elem_of_singleton in Hin as ->.
  exists "comprimento". split; [repeat constructor | vm_compute; reflexivity].
Defined.

(** A batch of three rows, the second with a malformed weight, that the
    reader fails to read to its end. *)
Lemma lote_contabiliza_cada_linha_exemplo :
  let s := executar [Cadastrar 100 "azul" 15] SistemaProducao.__init__ in
  let fieldnames := ["cor"; "peso"; "comprimento"] in
  let resto := [["azul"; "100"; "15"]; ["azul"; "abc"; "15"];
                ["roxo"; "100"; "15"]] in
  alcancavel s /\ cabecalho_valido fieldnames
  /\ exists t a r erros ops,
       SistemaProducao.processar_lote_csv float_decimal
         (Some (mkLeitor (fieldnames :: resto) (Some ErroDeLeitura))) s
       = (Retorna (t, a, r, erros ++ [ErroAoLerArquivo ErroDeLeitura]),
          executar ops s)
       /\ t = a + r
       /\ (length ops + length erros = length (linhas_de_dados resto))%nat
       /\ proximo_id (executar ops s) = proximo_id s + t.
Proof.
  intros s fieldnames resto.
  assert (Hs : alcancavel s) by estado_alcancavel.
  destruct (lote_contabiliza_cada_linha float_decimal fieldnames resto
              (Some ErroDeLeitura) s Hs cabecalho_exemplo)
    as (t & a & r & erros & ops & H1 & H2 & _ & _ & _ & _ & H7 & _ & H9 & _).
  split; [exact Hs |]. split; [exact cabecalho_exemplo |].
  exists t, a, r, erros, ops.
  split; [exact H1 |]. split; [exact H2 |]. split; [exact H7 | exact H9].
Defined.

Lemma colunas_distintas_exemplo : NoDup ["cor"; "peso"; "comprimento"].
Proof. apply (bool_decide_unpack _). vm_compute. reflexivity. Defined.

(** A row read under a header whose columns are in another order. *)
Lemma linha_lida_pelo_nome_exemplo :
  let s := executar [Cadastrar 100 "azul" 15] SistemaProducao.__init__ in
  let fieldnames := ["cor"; "peso"; "comprimento"] in
  let row := [" verde "; " 101 "; "12"] in
  alcancavel s /\ NoDup fieldnames
  /\ so_ascii " 101 " = true /\ so_ascii " verde " = true
  /\ so_ascii "12" = true
  /\ float_decimal (strip " 101 ") = Some (Finito 101)
  /\ float_decimal (strip "12") = Some (Finito 12)
  /\ exists peca ok m s',
       SistemaProducao.cadastrar_peca 101 (strip " verde ") 12 s
       = (Retorna (peca, ok, m), s')
       /\ SistemaProducao.processa_linha float_decimal fieldnames 2 row
            (0, 0, 0, []) s
          = (Retorna (0 + 1, (if ok then 0 + 1 else 0),
                      (if ok then 0 else 0 + 1), []), s').
Proof.
  intros s fieldnames row.
  assert (Hs : alcancavel s) by estado_alcancavel.
  assert (Hx : float_decimal (strip " 101 ") = Some (Finito 101))
    by (vm_compute; reflexivity).
  assert (Hy : float_decimal (strip "12") = Some (Finito 12))
    by (vm_compute; reflexivity).
  split; [exact Hs |]. split; [exact colunas_distintas_exemplo |].
  split; [reflexivity |]. split; [reflexivity |]. split; [reflexivity |].
  split; [exact Hx |]. split; [exact Hy |].
  exact (linha_lida_pelo_nome float_decimal fieldnames row 1 0 2
           " 101 " " verde " "12" 101 12 2 0 0 0 [] s
           Hs colunas_distintas_exemplo eq_refl eq_refl eq_refl
           eq_refl eq_refl eq_refl eq_refl eq_refl eq_refl Hx Hy).
Defined.

(** A row that stops before the weight column. *)
Lemma linha_curta_e_erro_inesperado_exemplo :
  let fieldnames := ["cor"; "peso"; "comprimento"] in
  let row := ["azul"] in
  NoDup fieldnames /\ (length row <= 1)%nat
  /\ SistemaProducao.processa_linha float_decimal fieldnames 5 row
       (4, 3, 1, []) SistemaProducao.__init__
     = (Retorna (4, 3, 1, [] ++ [ErroInesperado 5 AttributeError]),
        SistemaProducao.__init__).
Proof.
  intros fieldnames row.
  assert (Hlen : (length row <= 1)%nat) by (cbn; lia).
  split; [exact colunas_distintas_exemplo |]. split; [exact Hlen |].
  exact (linha_curta_e_erro_inesperado float_decimal fieldnames row 1
           5 4 3 1 [] SistemaProducao.__init__
           colunas_distintas_exemplo eq_refl Hlen).
Defined.

(** Three parts registered and the middle one removed. *)
Lemma listas_em_ordem_de_id_exemplo :
  let s := executar [Cadastrar 100 "azul" 15; Cadastrar 200 "roxo" 5;
                     Cadastrar 99 "verde" 10; Remover 2]
             SistemaProducao.__init__ in
  alcancavel s
  /\ StronglySorted Z.lt (ids_das_pecas s (todas_pecas s))
  /\ length (ids_das_pecas s (todas_pecas s)) = length (todas_pecas s).
Proof.
  intros s.
  assert (Hs : alcancavel s) by estado_alcancavel.
  destruct (listas_em_ordem_de_id s Hs) as (H1 & _ & _ & H4).
  split; [exact Hs |]. split; [exact H1 | exact H4].
Defined.
